(** * Nexpose client: sites, scans, reports

    A shallow embedding of [nexpose.py].  The client talks to a remote
    service through a [requests] session and to the local file system
    through [os]; both are outside the program, so they are an abstract
    [Platform] here, and every method is a computation over the state of
    that platform, in a state-and-exception monad.  Python values that come
    back from [response.json()] are the type [value]. *)

From Stdlib Require Import ZArith List String Ascii Bool Lia DecimalString.
Import ListNotations.

Set Warnings "-register-all".

Local Open Scope string_scope.
Local Open Scope list_scope.
Local Open Scope Z_scope.

(** ** Python values

    What [json.loads] builds: [None], booleans, integers, strings, lists
    and dictionaries with string keys.  A dictionary is the list of its
    items in insertion order, keys distinct; [dict_lookup] reads the first
    binding of a key.  Floating-point numbers are not modelled. *)

Inductive value : Type :=
| VNone
| VBool (b : bool)
| VInt (n : Z)
| VStr (s : string)
| VList (items : list value)
| VDict (items : list (string * value)).

Fixpoint dict_lookup (k : string) (d : list (string * value)) : option value :=
  match d with
  | [] => None
  | (k', v) :: d' => if String.eqb k k' then Some v else dict_lookup k d'
  end.

(** [a == b] on these values: [True == 1] and [False == 0] hold, lists are
    compared item by item, dictionaries key by key. *)
Fixpoint py_eq (a b : value) {struct a} : bool :=
  match a, b with
  | VNone, VNone => true
  | VBool x, VBool y => Bool.eqb x y
  | VBool x, VInt n => Z.eqb (Z.b2z x) n
  | VInt n, VBool x => Z.eqb n (Z.b2z x)
  | VInt m, VInt n => Z.eqb m n
  | VStr s, VStr t => String.eqb s t
  | VList xs, VList ys =>
      (fix items xs ys {struct xs} :=
         match xs, ys with
         | [], [] => true
         | x :: xs', y :: ys' => py_eq x y && items xs' ys'
         | _, _ => false
         end) xs ys
  | VDict d, VDict e =>
      Nat.eqb (List.length d) (List.length e) &&
      (fix items d {struct d} :=
         match d with
         | [] => true
         | (k, v) :: d' =>
             match dict_lookup k e with
             | Some w => py_eq v w && items d'
             | None => false
             end
         end) d
  | _, _ => false
  end.

(** [bool(v)], the test of [if v:]. *)
Definition truthy (v : value) : bool :=
  match v with
  | VNone => false
  | VBool b => b
  | VInt n => negb (Z.eqb n 0)
  | VStr s => negb (String.eqb s "")
  | VList l => match l with [] => false | _ => true end
  | VDict d => match d with [] => false | _ => true end
  end.

(** ** Exceptions and results *)

Inductive exn : Type :=
| ValueError      (* with its subclasses: JSONDecodeError, MissingSchema, InvalidURL *)
| AttributeError
| KeyError
| IndexError
| TypeError
| OSError         (* FileExistsError, FileNotFoundError, ... *)
| RequestException.

Definition exn_is_ValueError (e : exn) : bool :=
  match e with ValueError => true | _ => false end.

Inductive result (A : Type) : Type :=
| Ret (a : A)
| Raise (e : exn).
Arguments Ret {A} a.
Arguments Raise {A} e.

Definition rbind {A B} (r : result A) (k : A -> result B) : result B :=
  match r with
  | Ret a => k a
  | Raise e => Raise e
  end.

Declare Scope result_scope.
Delimit Scope result_scope with res.
Notation "x <-- r ;; k" := (rbind r (fun x => k))
  (at level 61, r at next level, right associativity) : result_scope.

(** ** Operations on values that the client uses *)

(** [obj.get(key, default)]: only a dictionary has the method. *)
Definition py_get (obj : value) (key : string) (default : value) : result value :=
  match obj with
  | VDict d => Ret (match dict_lookup key d with Some v => v | None => default end)
  | _ => Raise AttributeError
  end.

(** [obj[key]] for a string key. *)
Definition py_getitem (obj : value) (key : string) : result value :=
  match obj with
  | VDict d => match dict_lookup key d with Some v => Ret v | None => Raise KeyError end
  | _ => Raise TypeError
  end.

Fixpoint chars (s : string) : list value :=
  match s with
  | EmptyString => []
  | String c s' => VStr (String c EmptyString) :: chars s'
  end.

(** The items a [for x in v] loop visits. *)
Definition py_iter (v : value) : result (list value) :=
  match v with
  | VList l => Ret l
  | VStr s => Ret (chars s)
  | VDict d => Ret (map (fun kv => VStr (fst kv)) d)
  | _ => Raise TypeError
  end.

Fixpoint is_substring (t s : string) : bool :=
  String.prefix t s ||
  match s with
  | EmptyString => false
  | String _ s' => is_substring t s'
  end.

(** [x in container]. *)
Definition py_in (x container : value) : result bool :=
  match container with
  | VList l => Ret (existsb (py_eq x) l)
  | VStr s => match x with VStr t => Ret (is_substring t s) | _ => Raise TypeError end
  | VDict d =>
      match x with
      | VStr k => Ret (match dict_lookup k d with Some _ => true | None => false end)
      | VList _ | VDict _ => Raise TypeError
      | _ => Ret false
      end
  | _ => Raise TypeError
  end.

(** [v[-1]]. *)
Definition py_last (v : value) : result value :=
  match v with
  | VList l => match List.rev l with x :: _ => Ret x | [] => Raise IndexError end
  | VStr s => match List.rev (chars s) with x :: _ => Ret x | [] => Raise IndexError end
  | VDict _ => Raise KeyError
  | _ => Raise TypeError
  end.

Definition starts_with_sep (s : string) : bool :=
  match s with
  | String c _ => Ascii.eqb c "/"%char
  | EmptyString => false
  end.

Fixpoint ends_with_sep (s : string) : bool :=
  match s with
  | EmptyString => false
  | String c EmptyString => Ascii.eqb c "/"%char
  | String _ s' => ends_with_sep s'
  end.

(** [os.path.join(a, b)] on a POSIX system. *)
Definition os_path_join (a : string) (b : value) : result string :=
  match b with
  | VStr b' =>
      if starts_with_sep b' then Ret b'
      else if String.eqb a "" || ends_with_sep a then Ret (a ++ b')%string
      else Ret (a ++ "/" ++ b')%string
  | _ => Raise TypeError
  end.

(** ** Responses, and the platform the client runs on *)

Record response : Type := {
  status_code : Z;
  json_body : option value;   (* [None]: [response.json()] raises ValueError *)
  content : string
}.

(** [response.status_code in [200, 201, 202]] *)
Definition status_ok (r : response) : bool :=
  existsb (Z.eqb (status_code r)) [200; 201; 202].

Definition response_json (r : response) : result value :=
  match json_body r with
  | Some v => Ret v
  | None => Raise ValueError
  end.

(** The session's transport, the [os] calls and [str()], as the program
    finds them.  A request may raise instead of answering. *)
Class Platform (World : Type) : Type := {
  session_get : value -> World -> result response * World;
  session_post : value -> option value -> World -> result response * World;
  os_path_exists : value -> World -> result bool;
  os_makedirs : string -> World -> result unit * World;
  (* [with open(path, 'wb') as file: for content in response.iter_content(): file.write(content)] *)
  write_stream : string -> response -> World -> result unit * World;
  (* the conversion an f-string and [print] apply to a value *)
  py_str : value -> string;
  py_str_VStr : forall s, py_str (VStr s) = s
}.

(** What the program does to the outside, in order. *)
Inductive event : Type :=
| EvGet (url : value)
| EvPost (url : value) (payload : option value)
| EvPrint (line : string)
| EvSleep (seconds : Z)
| EvMakedirs (path : string)
| EvWrite (path : string).

Record state (World : Type) : Type := {
  world : World;
  events : list event
}.
Arguments world {World} s.
Arguments events {World} s.
Arguments Build_state {World} world events.

Definition M (World A : Type) : Type := state World -> result A * state World.

Section Monad.
Context {World : Type}.

Definition ret {A} (a : A) : M World A := fun st => (Ret a, st).

Definition raise {A} (e : exn) : M World A := fun st => (Raise e, st).

Definition bind {A B} (m : M World A) (k : A -> M World B) : M World B :=
  fun st =>
    match m st with
    | (Ret a, st') => k a st'
    | (Raise e, st') => (Raise e, st')
    end.

Definition lift {A} (r : result A) : M World A := fun st => (r, st).

(** [try: body except ValueError: handler] *)
Definition try_except_ValueError {A} (body handler : M World A) : M World A :=
  fun st =>
    match body st with
    | (Raise e, st') =>
        if exn_is_ValueError e then handler st' else (Raise e, st')
    | done => done
    end.

Definition emit (e : event) : M World unit :=
  fun st => (Ret tt, {| world := world st; events := events st ++ [e] |}).

Definition on_world {A} (f : World -> result A * World) : M World A :=
  fun st =>
    let (r, w) := f (world st) in
    (r, {| world := w; events := events st |}).
End Monad.

Declare Scope monad_scope.
Delimit Scope monad_scope with monad.
Notation "x <- m ;; k" := (bind m (fun x => k))
  (at level 61, m at next level, right associativity) : monad_scope.
Notation "m ;; k" := (bind m (fun _ => k))
  (at level 61, right associativity) : monad_scope.

(** ** The client

    [NexposeSession.__init__] stores the base URL and builds the session;
    the session itself (authentication, no TLS verification) is the
    [Platform]'s transport. *)

Record NexposeSession : Type := { api_url : string }.

Section Client.
Context {World : Type} {P : Platform World}.
Local Open Scope monad_scope.

Definition get (url : value) : M World response :=
  emit (EvGet url) ;; on_world (session_get url).

Definition post (url : value) (payload : option value) : M World response :=
  emit (EvPost url payload) ;; on_world (session_post url payload).

Definition print (line : string) : M World unit := emit (EvPrint line).

Definition sleep (seconds : Z) : M World unit := emit (EvSleep seconds).

Definition path_exists (path : value) : M World bool :=
  fun st => (os_path_exists path (world st), st).

Definition makedirs (path : string) : M World unit :=
  emit (EvMakedirs path) ;; on_world (os_makedirs path).

Definition write_to (path : string) (r : response) : M World unit :=
  emit (EvWrite path) ;; on_world (write_stream path r).

Definition parse_failed : string := "Failed to parse JSON response from the server.".

(** *** class Site *)

(** The [for site in ...] loop of [get_site_id]: [Some id] when it
    returns from inside the loop, [None] when it runs to its end. *)
Fixpoint find_site (name : value) (sites : list value) : result (option value) :=
  match sites with
  | [] => Ret None
  | site :: rest =>
      (n <-- py_get site "name" VNone ;;
       if py_eq n name
       then (id <-- py_get site "id" VNone ;; Ret (Some id))
       else find_site name rest)%res
  end.

Definition get_site_id (self : NexposeSession) (name : value) : M World value :=
  let scan_url := VStr (api_url self ++ "/sites") in
  response <- get scan_url ;;
  found <- (if status_ok response then
              try_except_ValueError
                (response_json <- lift (response_json response) ;;
                 resources <- lift (py_get response_json "resources" (VList [])) ;;
                 sites <- lift (py_iter resources) ;;
                 lift (find_site name sites))
                (print parse_failed ;; ret None)
            else ret None) ;;
  match found with
  | Some id => ret id
  | None => ret VNone
  end.

Definition site_data (name description target_ip template_id : value) : value :=
  VDict [("name", name);
         ("description", description);
         ("scan",
           VDict [("assets",
             VDict [("includedTargets",
               VDict [("addresses", VList [target_ip])])])]);
         ("scanTemplateId", template_id)].

Definition create_site (self : NexposeSession)
    (name description target_ip template_id : value) : M World value :=
  site_id <- get_site_id self name ;;
  match site_id with
  | VNone =>
      let sites_url := VStr (api_url self ++ "/sites") in
      response <- post sites_url (Some (site_data name description target_ip template_id)) ;;
      if status_ok response
      then print "Site created successfully" ;; ret VNone
      else print "Failed to create site" ;; ret VNone
  | _ =>
      print ("Site already exists, using existing site id: " ++ py_str site_id) ;;
      ret VNone
  end.

(** *** class Scan *)

(** [next((link["href"] for link in links if link["rel"] == "last"), None)] *)
Fixpoint first_last_href (links : list value) : result value :=
  match links with
  | [] => Ret VNone
  | link :: rest =>
      (rel <-- py_getitem link "rel" ;;
       if py_eq rel (VStr "last")
       then py_getitem link "href"
       else first_last_href rest)%res
  end.

Definition get_last_scan_id (self : NexposeSession) : M World value :=
  let scans_url := VStr (api_url self ++ "/scans") in
  response <- get scans_url ;;
  found <- (if status_ok response then
              try_except_ValueError
                (scan_json <- lift (response_json response) ;;
                 links <- lift (py_get scan_json "links" (VList [])) ;;
                 last_page_url <- lift (ls <-- py_iter links ;; first_last_href ls)%res ;;
                 response_last_page <-
                   match last_page_url with
                   | VNone => get scans_url
                   | _ => get last_page_url
                   end ;;
                 if status_ok response_last_page then
                   last_page_json <- lift (response_json response_last_page) ;;
                   resources <- lift (py_get last_page_json "resources" (VList [])) ;;
                   if truthy resources then
                     last <- lift (py_last resources) ;;
                     id <- lift (py_get last "id" VNone) ;;
                     ret (Some id)
                   else ret None
                 else ret None)
                (print parse_failed ;; ret None)
            else ret None) ;;
  match found with
  | Some id => ret id
  | None => ret VNone
  end.

Definition start_scan (self : NexposeSession) (site_id : value) : M World value :=
  let scan_url := VStr (api_url self ++ "/sites/" ++ py_str site_id ++ "/scans") in
  response <- post scan_url None ;;
  if status_ok response
  then print "Scan started successfully" ;; get_last_scan_id self
  else print "Scan didnt start" ;; ret VNone.

(** The [while True] loop of [wait_for_scan_completion], run for at most
    [polls] iterations: [Some v] when the method returns [v], [None] when
    the loop is still running after them. *)
Fixpoint wait_for_scan_completion_loop (polls : nat) (scan_url : value)
    : M World (option value) :=
  match polls with
  | O => ret None
  | S polls' =>
      response <- get scan_url ;;
      returned <-
        (if status_ok response then
           try_except_ValueError
             (scan_json <- lift (response_json response) ;;
              status <- lift (py_get scan_json "status" VNone) ;;
              print (py_str (VInt (status_code response)) ++ " : " ++ py_str status) ;;
              terminal <- lift (py_in status (VList [VStr "finished"; VStr "stopped"])) ;;
              if (terminal : bool)
              then print ("Scan " ++ py_str status ++ " successfully") ;; ret (Some VNone)
              else ret None)
             (print parse_failed ;; ret None)
         else print (py_str (VInt (status_code response))) ;; ret None) ;;
      match returned with
      | Some v => ret (Some v)
      | None => sleep 150 ;; wait_for_scan_completion_loop polls' scan_url
      end
  end.

Definition wait_for_scan_completion (polls : nat) (self : NexposeSession)
    (scan_id : value) : M World (option value) :=
  wait_for_scan_completion_loop polls
    (VStr (api_url self ++ "/scans/" ++ py_str scan_id)).

(** *** class ReportGeneration *)

(** [site_id in report.get("scope", {}).get("sites", [])] *)
Definition in_scope (site_id report : value) : result bool :=
  (scope <-- py_get report "scope" (VDict []) ;;
   sites <-- py_get scope "sites" (VList []) ;;
   py_in site_id sites)%res.

Fixpoint find_report (site_id : value) (reports : list value) : result (option value) :=
  match reports with
  | [] => Ret None
  | report :: rest =>
      (hit <-- in_scope site_id report ;;
       if (hit : bool)
       then (id <-- py_get report "id" VNone ;; Ret (Some id))
       else find_report site_id rest)%res
  end.

Definition get_existing_report (self : NexposeSession) (site_id : value) : M World value :=
  let report_config_url := VStr (api_url self ++ "/reports") in
  response <- get report_config_url ;;
  found <- (if status_ok response then
              try_except_ValueError
                (response_json <- lift (response_json response) ;;
                 resources <- lift (py_get response_json "resources" (VList [])) ;;
                 reports <- lift (py_iter resources) ;;
                 lift (find_report site_id reports))
                (print parse_failed ;; ret None)
            else ret None) ;;
  match found with
  | Some id => ret id
  | None => ret VNone
  end.

Definition report_data (site_id scan_id name file_format template : value) : value :=
  VDict [("name", VStr (py_str name ++ " report - scan ID " ++ py_str scan_id));
         ("format", file_format);
         ("scope", VDict [("sites", VList [site_id])]);
         ("template", template)].

(** The part of [create_report] after the lookup found nothing to reuse. *)
Definition create_report_config (self : NexposeSession)
    (site_id scan_id name file_format template : value) : M World value :=
  let report_config_url := VStr (api_url self ++ "/reports") in
  response <- post report_config_url
                (Some (report_data site_id scan_id name file_format template)) ;;
  if status_ok response then
    report_config_json <- lift (response_json response) ;;
    report_id <- lift (py_get report_config_json "id" VNone) ;;
    print ("Report configuration created successfully, report ID:" ++ " " ++ py_str report_id) ;;
    ret report_id
  else
    print "Failed to create report configuration" ;;
    ret VNone.

Definition create_report (self : NexposeSession)
    (site_id scan_id name file_format template : value) : M World value :=
  report_id <- get_existing_report self site_id ;;
  if truthy report_id
  then print "Using existing report" ;; ret report_id
  else create_report_config self site_id scan_id name file_format template.

Definition start_report_generation (self : NexposeSession) (report_id : value)
    : M World value :=
  let generate_report_url :=
    VStr (api_url self ++ "/reports/" ++ py_str report_id ++ "/generate") in
  response <- post generate_report_url None ;;
  if status_ok response
  then print "Report generation started successfully." ;; ret VNone
  else print ("Failed to start report generation. Status code: "
              ++ py_str (VInt (status_code response))) ;; ret VNone.

(** The [while True] loop of [wait_for_report_completion], as for scans. *)
Fixpoint wait_for_report_completion_loop (polls : nat) (report_history_url : value)
    : M World (option value) :=
  match polls with
  | O => ret None
  | S polls' =>
      response <- get report_history_url ;;
      returned <-
        (if status_ok response then
           try_except_ValueError
             (report_json <- lift (response_json response) ;;
              status <- lift (py_get report_json "status" VNone) ;;
              timestamp <- lift (py_get report_json "generated" VNone) ;;
              if py_eq status (VStr "complete")
              then print "Report completed successfully" ;; ret (Some timestamp)
              else ret None)
             (print parse_failed ;; ret None)
         else ret None) ;;
      match returned with
      | Some v => ret (Some v)
      | None => sleep 30 ;; wait_for_report_completion_loop polls' report_history_url
      end
  end.

Definition wait_for_report_completion (polls : nat) (self : NexposeSession)
    (report_id : value) : M World (option value) :=
  wait_for_report_completion_loop polls
    (VStr (api_url self ++ "/reports/" ++ py_str report_id ++ "/history/latest")).

(** *** class ReportDownloader *)

(** Lines 314 to 322 of [download_report]: the directory is made, and the
    path to save to is computed. *)
Definition resolve_save_path (directory_name address save_filename : value)
    : M World string :=
  match directory_name, address with
  | VNone, _ | _, VNone =>
      let directory_name := "reports" in
      there <- path_exists (VStr directory_name) ;;
      (if (there : bool) then ret tt else makedirs directory_name) ;;
      lift (os_path_join directory_name save_filename)
  | _, _ =>
      there <- path_exists directory_name ;;
      (if (there : bool) then ret tt
       else makedirs (py_str directory_name ++ "_" ++ py_str address)) ;;
      lift (os_path_join (py_str directory_name ++ "_" ++ py_str address) save_filename)
  end.

Definition download_url (self : NexposeSession) (report_id instance : value) : value :=
  VStr (api_url self ++ "/reports/" ++ py_str report_id
        ++ "/history/" ++ py_str instance ++ "/output").

Definition download_report (self : NexposeSession)
    (report_id instance directory_name address save_filename : value) : M World value :=
  save_path <- resolve_save_path directory_name address save_filename ;;
  response <- get (download_url self report_id instance) ;;
  if Z.eqb (status_code response) 200 then
    write_to save_path response ;;
    print ("Report downloaded and saved to " ++ save_path) ;;
    ret (VStr save_path)
  else
    print ("Failed to download report. Status code: "
           ++ py_str (VInt (status_code response))) ;;
    ret VNone.

(** The defaults of [download_report]'s signature. *)
Definition default_instance : value := VStr "latest".
Definition default_save_filename : value := VStr "report.pdf".
End Client.

(** ** Reading the trace *)

Definition is_post (e : event) : bool :=
  match e with EvPost _ _ => true | _ => false end.

Definition is_get (e : event) : bool :=
  match e with EvGet _ => true | _ => false end.

Definition is_makedirs (e : event) : bool :=
  match e with EvMakedirs _ => true | _ => false end.

(** How many creation (or other POST) requests, and how many GET requests,
    a trace holds. *)
Definition count_posts (es : list event) : nat := List.length (filter is_post es).
Definition count_gets (es : list event) : nat := List.length (filter is_get es).

(** ** What a listing shows *)

(** A 2xx answer whose body parses, and the [items] its [resources]
    collection yields to a [for] loop. *)
Definition lists (r : response) (items : list value) : Prop :=
  status_ok r = true /\
  exists body resources,
    json_body r = Some body /\
    py_get body "resources" (VList []) = Ret resources /\
    py_iter resources = Ret items.

(** A 2xx answer whose body is not JSON. *)
Definition malformed (r : response) : Prop :=
  status_ok r = true /\ json_body r = None.

Definition site_named (name site : value) (yes : bool) : Prop :=
  exists n, py_get site "name" VNone = Ret n /\ py_eq n name = yes.

(** ** The polls a wait loop makes *)

Section Polls.
Context {World : Type} {P : Platform World}.

(** The answers the service gives to [n] successive GETs of [url]. *)
Fixpoint polls (url : value) (n : nat) (w : World) : list (result response) :=
  match n with
  | O => []
  | S n' => let (r, w') := session_get url w in r :: polls url n' w'
  end.

(** The URLs the two wait loops poll. *)
Definition scan_url (self : NexposeSession) (scan_id : value) : value :=
  VStr (api_url self ++ "/scans/" ++ py_str scan_id).

Definition report_history_url (self : NexposeSession) (report_id : value) : value :=
  VStr (api_url self ++ "/reports/" ++ py_str report_id ++ "/history/latest").
End Polls.

Definition body_field (r : response) (key : string) : option value :=
  match json_body r with
  | Some (VDict d) =>
      Some (match dict_lookup key d with Some v => v | None => VNone end)
  | _ => None
  end.

(** A poll of a scan carries a terminal status: 2xx, and [status] is
    ["finished"] or ["stopped"]. *)
Definition scan_terminal (r : response) : bool :=
  status_ok r &&
  match body_field r "status" with
  | Some status => existsb (py_eq status) [VStr "finished"; VStr "stopped"]
  | None => false
  end.

(** A poll of a report carries the terminal status: 2xx, and [status] is
    ["complete"]. *)
Definition report_terminal (r : response) : bool :=
  status_ok r &&
  match body_field r "status" with
  | Some status => py_eq status (VStr "complete")
  | None => false
  end.

(** An answer the loop body runs on without raising: not 2xx, or 2xx with
    a body that is not JSON, or 2xx with a JSON object.  (On a 2xx body
    that is JSON but not an object, [.get] raises AttributeError, which the
    loop does not catch.) *)
Definition well_formed (r : response) : bool :=
  negb (status_ok r) ||
  match json_body r with
  | None => true
  | Some (VDict _) => true
  | Some _ => false
  end.

(** A link of a scan listing, and whether its relation is ["last"]. *)
Definition link_rel_last (link : value) (yes : bool) : Prop :=
  exists rel, py_getitem link "rel" = Ret rel /\ py_eq rel (VStr "last") = yes.

(** ** The directory of a download *)

Section Directory.
Context {World : Type} {P : Platform World}.

(** The path [download_report] tests with [os.path.exists], and the
    directory it makes when the test fails: in the first branch these
    are [directory_name] and [directory_name], an underscore and
    [address]; in the second both are [reports]. *)
Definition directory_checked (directory_name address : value) : value :=
  match directory_name, address with
  | VNone, _ | _, VNone => VStr "reports"
  | _, _ => directory_name
  end.

Definition directory_made (directory_name address : value) : string :=
  match directory_name, address with
  | VNone, _ | _, VNone => "reports"
  | _, _ => py_str directory_name ++ "_" ++ py_str address
  end.

(** What [download_report] prints when the status is not 200. *)
Definition failed_line (r : response) : string :=
  "Failed to download report. Status code: " ++ py_str (VInt (status_code r)).
End Directory.

(** ** Names for the URLs and for the state after some steps *)

Definition sites_url (self : NexposeSession) : value := VStr (api_url self ++ "/sites").
Definition scans_url (self : NexposeSession) : value := VStr (api_url self ++ "/scans").
Definition reports_url (self : NexposeSession) : value := VStr (api_url self ++ "/reports").

(** The state once the platform has moved to [w] and the events [new] have
    been added to the trace. *)
Definition after {World : Type} (st : state World) (w : World) (new : list event)
    : state World :=
  {| world := w; events := events st ++ new |}.

(** What a lookup returns: the id its loop returned, or [None]. *)
Definition or_none (found : option value) : value :=
  match found with Some id => id | None => VNone end.

(** ** A sample platform

    A service that answers each request with the next entry of a script,
    whatever the request, and a file system that is a list of directories
    and a list of files.  It instantiates the theorems below on concrete
    runs. *)

Module Sample.
Record machine : Type := {
  script : list (result response);
  dirs : list string;
  files : list string
}.

Definition answer (w : machine) : result response * machine :=
  match script w with
  | [] => (Raise RequestException, w)
  | r :: rest => (r, {| script := rest; dirs := dirs w; files := files w |})
  end.

Definition exists_ (path : value) (w : machine) : result bool :=
  match path with
  | VStr p => Ret (existsb (String.eqb p) (dirs w))
  | _ => Raise TypeError
  end.

Definition mkdirs (path : string) (w : machine) : result unit * machine :=
  if existsb (String.eqb path) (dirs w) then (Raise OSError, w)
  else (Ret tt, {| script := script w; dirs := path :: dirs w; files := files w |}).

Definition store (path : string) (r : response) (w : machine) : result unit * machine :=
  (Ret tt, {| script := script w; dirs := dirs w; files := path :: files w |}).

(** [str()] on scalars; a container is abbreviated. *)
Definition str (v : value) : string :=
  match v with
  | VNone => "None"
  | VBool true => "True"
  | VBool false => "False"
  | VInt n => DecimalString.NilZero.string_of_int (Z.to_int n)
  | VStr s => s
  | VList _ => "[...]"
  | VDict _ => "{...}"
  end.

#[global] Instance platform : Platform machine := {|
  session_get := fun _ => answer;
  session_post := fun _ _ => answer;
  os_path_exists := exists_;
  os_makedirs := mkdirs;
  write_stream := store;
  py_str := str;
  py_str_VStr := fun s => eq_refl
|}.

Definition json (code : Z) (body : value) : result response :=
  Ret {| status_code := code; json_body := Some body; content := "" |}.

Definition garbage (code : Z) : result response :=
  Ret {| status_code := code; json_body := None; content := "<html>" |}.

Definition start (responses : list (result response)) (directories : list string)
    : state machine :=
  {| world := {| script := responses; dirs := directories; files := [] |};
     events := [] |}.

Definition nexpose : NexposeSession := {| api_url := "https://localhost:3780/api/3" |}.
(** Some resources and pages to script the service with. *)
Definition office : value := VDict [("name", VStr "Office"); ("id", VInt 7)].
Definition lab : value := VDict [("name", VStr "Lab"); ("id", VInt 3)].

Definition page (resources : list value) : value :=
  VDict [("resources", VList resources); ("links", VList [])].

Definition report (id : value) (sites : list value) : value :=
  VDict [("id", id); ("scope", VDict [("sites", VList sites)])].

(** A listing where the first report scoped to site 7 has id 0, then the
    answer to a creation request. *)
Definition falsy_listing : state machine :=
  start [json 200 (page [report (VInt 4) [VInt 3]; report (VInt 0) [VInt 7]]);
         json 201 (VDict [("id", VInt 9)])] [].

(** A service on which [create_report] for site 7 is run twice and the
    report it creates gets id 0: the empty listing, the answer to the
    creation request, the listing with the new report, and the answer to
    one more creation request. *)
Definition twice_with_id_0 : state machine :=
  start [json 200 (page []);
         json 201 (VDict [("id", VInt 0)]);
         json 200 (page [report (VInt 0) [VInt 7]]);
         json 201 (VDict [("id", VInt 1)])] [].

(** The same with id 5 for the report, and the like for a site. *)
Definition twice_with_id_5 : state machine :=
  start [json 200 (page []);
         json 201 (VDict [("id", VInt 5)]);
         json 200 (page [report (VInt 5) [VInt 7]])] [].

Definition twice_office : state machine :=
  start [json 200 (page [lab]);
         json 201 (VDict []);
         json 200 (page [lab; office])] [].

(** Polls of a scan and of a report that end in a terminal status. *)
Definition running : response :=
  {| status_code := 200; json_body := Some (VDict [("status", VStr "running")]);
     content := "" |}.

Definition finished : response :=
  {| status_code := 200; json_body := Some (VDict [("status", VStr "finished")]);
     content := "" |}.

Definition unavailable : response :=
  {| status_code := 503; json_body := None; content := "" |}.

Definition pending : response :=
  {| status_code := 200; json_body := Some (VDict [("status", VStr "started")]);
     content := "" |}.

Definition complete : response :=
  {| status_code := 200;
     json_body := Some (VDict [("status", VStr "complete");
                               ("generated", VStr "2024-01-01T10:00:00Z")]);
     content := "" |}.

Definition scan_run : state machine :=
  start [Ret running; Ret running; Ret finished; Ret running] [].

Definition report_run : state machine :=
  start [Ret pending; Ret unavailable; Ret complete] [].

Definition endless_run : state machine :=
  start [Ret running; Ret unavailable; garbage 200; json 200 (VDict [("status", VInt 3)])] [].

(** A scan listing of two pages: the first links to the last. *)
Definition scan (id : Z) : value := VDict [("id", VInt id); ("status", VStr "finished")].

Definition first_page : value :=
  VDict [("resources", VList [scan 1; scan 2]);
         ("links",
           VList [VDict [("href", VStr "https://localhost:3780/api/3/scans?page=0");
                         ("rel", VStr "self")];
                  VDict [("href", VStr "https://localhost:3780/api/3/scans?page=1");
                         ("rel", VStr "last")]])].

Definition last_page : value :=
  VDict [("resources", VList [scan 10; scan 11; scan 12]);
         ("links",
           VList [VDict [("href", VStr "https://localhost:3780/api/3/scans?page=1");
                         ("rel", VStr "self")]])].

Definition two_pages : state machine := start [json 200 first_page; json 200 last_page] [].

Definition one_page : state machine := start [json 200 last_page; json 200 last_page] [].

(** Downloads: the service answers 200, 201 or 404 to the request. *)
Definition pdf (code : Z) : response :=
  {| status_code := code; json_body := None; content := "%PDF-1.7" |}.

Definition download (code : Z) (directories : list string) : state machine :=
  start [Ret (pdf code)] directories.

(** Polls of a scan where a 2xx answer that is a JSON list comes before the
    terminal one. *)
Definition list_then_finished : state machine :=
  start [json 200 (VList []); Ret finished] [].
End Sample.

(** ** More of the trace *)

(** The seconds a trace has slept, and the directories and files it has
    touched. *)
Definition slept (es : list event) : Z :=
  fold_right (fun e total => match e with EvSleep s => s + total | _ => total end) 0 es.

Definition count_makedirs (es : list event) : nat := List.length (filter is_makedirs es).

Definition is_write (e : event) : bool :=
  match e with EvWrite _ => true | _ => false end.

Definition count_writes (es : list event) : nat := List.length (filter is_write es).

Definition is_print (e : event) : bool :=
  match e with EvPrint _ => true | _ => false end.

(** ** The bodies of the [try] blocks of the two lookups

    Neither has an effect: each reads the answer and runs the loop. *)

Definition lookup_site (name : value) (r : response) : result (option value) :=
  (response_json <-- response_json r ;;
   resources <-- py_get response_json "resources" (VList []) ;;
   sites <-- py_iter resources ;;
   find_site name sites)%res.

Definition lookup_report (site_id : value) (r : response) : result (option value) :=
  (response_json <-- response_json r ;;
   resources <-- py_get response_json "resources" (VList []) ;;
   reports <-- py_iter resources ;;
   find_report site_id reports)%res.

(** What a lookup makes of the answer to its request. *)
Definition lookup_outcome {World : Type} (found : result (option value))
    (st : state World) : result value * state World :=
  match found with
  | Ret id => (Ret (or_none id), st)
  | Raise e =>
      if exn_is_ValueError e
      then (Ret VNone, after st (world st) [EvPrint parse_failed])
      else (Raise e, st)
  end.

(** ** class UtilityFunctions

    [random.choice(seq)] is [seq[randbelow(len(seq))]]; the generator is a
    state [R] and [randbelow n] draws a number below [n] from it. *)

(** [string.ascii_letters + string.digits + string.punctuation] *)
Definition characters : list ascii :=
  map ascii_of_nat
    (seq 97 26 ++ seq 65 26 ++ seq 48 10
     ++ seq 33 15 ++ seq 58 7 ++ seq 91 6 ++ seq 123 4).

Section Password.
Variable R : Type.
Variable randbelow : nat -> R -> nat * R.

Definition choice (chars : list ascii) (r : R) : ascii * R :=
  let (k, r') := randbelow (List.length chars) r in
  (nth k chars Ascii.zero, r').

(** [random.choice(characters) for _ in range(n)] *)
Fixpoint choices (n : nat) (r : R) : list ascii * R :=
  match n with
  | O => ([], r)
  | S n' =>
      let (c, r') := choice characters r in
      let (cs, r'') := choices n' r' in
      (c :: cs, r'')
  end.

Definition generate_password (length : Z) (r : R) : string * R :=
  let (cs, r') := choices (Z.to_nat length) r in
  (string_of_list_ascii cs, r').
End Password.

(** ** The script

    The block under [if __name__ == "__main__"], from the first request on:
    the configuration, the command line and the normalisation of the two
    arguments are its inputs.  Both waits get [polls] turns; [Some tt] when
    the script runs to its end, [None] when a wait is still in its loop. *)

Definition DESCRIPTION : value := VStr "Scan description".

Section Script.
Context {World : Type} {P : Platform World}.
Local Open Scope monad_scope.

Definition main (polls : nat) (self : NexposeSession)
    (TEMPLATE_ID REPORT_FORMAT REPORT_TEMPLATE SAVE_FILENAME SCAN_NAME TARGET_IP : value)
    : M World (option unit) :=
  create_site self SCAN_NAME DESCRIPTION TARGET_IP TEMPLATE_ID ;;
  site_id <- get_site_id self SCAN_NAME ;;
  print (py_str site_id) ;;
  scan_id <- start_scan self site_id ;;
  print (py_str scan_id) ;;
  waited <- wait_for_scan_completion polls self scan_id ;;
  match waited with
  | None => ret None
  | Some _ =>
      report_id <- create_report self site_id scan_id SCAN_NAME REPORT_FORMAT REPORT_TEMPLATE ;;
      print (py_str report_id) ;;
      start_report_generation self report_id ;;
      generated <- wait_for_report_completion polls self report_id ;;
      match generated with
      | None => ret None
      | Some timestamp =>
          download_report self report_id default_instance timestamp TARGET_IP SAVE_FILENAME ;;
          ret (Some tt)
      end
  end.

(** The URLs of the two requests that start something. *)
Definition start_scan_url (self : NexposeSession) (site_id : value) : value :=
  VStr (api_url self ++ "/sites/" ++ py_str site_id ++ "/scans").

Definition generate_report_url (self : NexposeSession) (report_id : value) : value :=
  VStr (api_url self ++ "/reports/" ++ py_str report_id ++ "/generate").
End Script.

(** ** What the requests of [get_last_scan_id] are made of

    Neither has an effect: [last_page_target] is the URL of the second
    request as the first answer gives it, [last_listed_id] what the second
    answer yields. *)

Definition last_page_target (self : NexposeSession) (r : response) : result value :=
  (scan_json <-- response_json r ;;
   links <-- py_get scan_json "links" (VList []) ;;
   items <-- py_iter links ;;
   last_page_url <-- first_last_href items ;;
   Ret (match last_page_url with VNone => scans_url self | _ => last_page_url end))%res.

Definition last_listed_id (r : response) : result (option value) :=
  (last_page_json <-- response_json r ;;
   resources <-- py_get last_page_json "resources" (VList []) ;;
   if truthy resources
   then (last <-- py_last resources ;; id <-- py_get last "id" VNone ;; Ret (Some id))
   else Ret None)%res.

(** The line [create_site] prints after its creation request. *)
Definition site_created_line (rp : response) : string :=
  if status_ok rp then "Site created successfully" else "Failed to create site".

(** The lines the two report requests print. *)
Section ReportLines.
Context {World : Type} {P : Platform World}.

Definition report_created_line (report_id : value) : string :=
  "Report configuration created successfully, report ID:" ++ " " ++ py_str report_id.

Definition generation_line (r : response) : string :=
  if status_ok r then "Report generation started successfully."
  else "Failed to start report generation. Status code: " ++ py_str (VInt (status_code r)).
End ReportLines.

(** ** More sample runs *)

Module Cases.
Import Sample.

Definition office_again : value := VDict [("name", VStr "Office"); ("id", VInt 8)].
Definition office_without_id : value := VDict [("name", VStr "Office")].
Definition office_zero : value := VDict [("name", VStr "Office"); ("id", VInt 0)].
Definition null_scope : value := VDict [("id", VInt 9); ("scope", VNone)].
Definition created : result response := json 201 (VDict [("id", VInt 5)]).
Definition refused : response :=
  {| status_code := 500; json_body := Some (VDict [("id", VInt 5)]); content := "" |}.
Definition missing : response :=
  {| status_code := 404; json_body := None; content := "" |}.

(** Listings with two matches, with an entry that cannot be tested, with a
    site that has no id or id 0. *)
Definition two_offices : state machine :=
  start [json 200 (page [lab; office; office_again; VInt 5])] [].

Definition two_reports : state machine :=
  start [json 200 (page [report (VInt 4) [VInt 3]; report (VInt 5) [VInt 7];
                         report (VInt 6) [VInt 7]])] [].

Definition junk_before_office : state machine :=
  start [json 200 (page [lab; VStr "junk"; office])] [].

Definition null_scope_before_match : state machine :=
  start [json 200 (page [report (VInt 4) [VInt 3]; null_scope;
                         report (VInt 5) [VInt 7]])] [].

Definition office_without_id_listed : state machine :=
  start [json 200 (page [lab; office_without_id]); created] [].

Definition office_zero_listed : state machine :=
  start [json 200 (page [office_zero]); created] [].

(** A lookup that fails, then a creation request that succeeds or not. *)
Definition listing_down : state machine := start [Ret unavailable; created] [].
Definition listing_garbled : state machine := start [garbage 200; created] [].
Definition creation_refused : state machine := start [json 200 (page []); Ret refused] [].
Definition creation_garbled : state machine := start [json 200 (page []); garbage 201] [].
Definition creation_listed : state machine :=
  start [json 200 (page []); json 201 (VList [])] [].
Definition creation_without_id : state machine :=
  start [json 200 (page []); json 201 (VDict [("name", VStr "r")])] [].
Definition request_refused : state machine := start [Ret refused] [].

(** Scan listings. *)
Definition empty_last_page : state machine :=
  start [json 200 first_page; json 200 (page [])] [].
Definition last_page_down : state machine :=
  start [json 200 first_page; Ret unavailable] [].
Definition null_href_page : value :=
  VDict [("resources", VList [scan 1; scan 2]);
         ("links", VList [VDict [("href", VNone); ("rel", VStr "last")]])].
Definition null_href : state machine :=
  start [json 200 null_href_page; json 200 last_page] [].
Definition link_without_rel : value :=
  VDict [("resources", VList [scan 1]);
         ("links", VList [VDict [("href", VStr "https://localhost:3780/api/3/scans?page=1")]])].
Definition no_rel : state machine := start [json 200 link_without_rel; json 200 last_page] [].
Definition bad_href : state machine := start [json 200 first_page; Raise ValueError] [].
Definition unreachable : state machine := start [Raise RequestException] [].
Definition started : state machine :=
  start [json 201 (VDict []); json 200 first_page; json 200 last_page] [].

(** Polls. *)
Definition report_endless : state machine :=
  start [Ret pending; Ret unavailable; garbage 200] [].
Definition scan_cut : state machine :=
  start [Ret running; Ret unavailable; Raise RequestException; Ret finished] [].
Definition report_cut : state machine :=
  start [Ret pending; Raise RequestException] [].

(** The script, when the scan does not start. *)
Definition scan_refused : state machine :=
  start [json 200 (page [office]); json 200 (page [office]); Ret refused;
         Ret missing; Ret missing; Ret missing] [].

(** A file system where a file can only be written into a directory that
    is there. *)
Definition store_strict (path : string) (r : response) (w : machine)
    : result unit * machine :=
  if existsb (fun d => String.prefix (d ++ "/") path) (dirs w)
  then (Ret tt, {| script := script w; dirs := dirs w; files := path :: files w |})
  else (Raise OSError, w).

Definition strict : Platform machine := {|
  session_get := fun _ => answer;
  session_post := fun _ _ => answer;
  os_path_exists := exists_;
  os_makedirs := mkdirs;
  write_stream := store_strict;
  py_str := str;
  py_str_VStr := fun s => eq_refl
|}.

(** A generator: a linear congruence on the natural numbers. *)
Definition lcg (n : nat) (seed : nat) : nat * nat :=
  (Nat.modulo seed n, Nat.modulo (seed * 75 + 74) 4093).
End Cases.

(** ** Tactics for the runs *)

Ltac listing :=
  split; [reflexivity | do 2 eexists; repeat split; reflexivity].

Ltac each_item :=
  repeat (first [ apply Forall_nil
                | apply Forall_cons; [try (eexists; split; reflexivity); try reflexivity|] ]).

Ltac each_link :=
  repeat (first [ apply Forall_nil
                | apply Forall_cons; [eexists; split; reflexivity|] ]).

Ltac settle :=
  unfold bind, try_except_ValueError, lift, response_json, print, sleep, emit, ret, after;
  cbn; rewrite <- ?app_assoc; cbn.

Ltac side :=
  solve [ reflexivity | listing | each_item | each_link
        | eexists; split; reflexivity | discriminate | lia ].

(** ** Running the client, step by step *)

Section Runs.
Context {World : Type} {P : Platform World}.
Variable self : NexposeSession.

Lemma after_after (st : state World) w1 new1 w2 new2 :
  after (after st w1 new1) w2 new2 = after st w2 (new1 ++ new2).
Proof. unfold after; cbn. now rewrite <- app_assoc. Qed.

Lemma get_run url st r w :
  session_get url (world st) = (r, w) ->
  get url st = (r, after st w [EvGet url]).
Proof. intros E. unfold get, bind, emit, on_world, after; cbn. now rewrite E. Qed.

Lemma post_run url payload st r w :
  session_post url payload (world st) = (r, w) ->
  post url payload st = (r, after st w [EvPost url payload]).
Proof. intros E. unfold post, bind, emit, on_world, after; cbn. now rewrite E. Qed.

Lemma print_run line (st : state World) :
  print line st = (Ret tt, after st (world st) [EvPrint line]).
Proof. reflexivity. Qed.

Lemma find_site_none name items :
  Forall (fun site => site_named name site false) items ->
  find_site name items = Ret None.
Proof.
  induction 1 as [|site rest [n [Hn Hneq]] _ IH]; cbn; [reflexivity|].
  now rewrite Hn; cbn; rewrite Hneq.
Qed.

Lemma find_site_first name pre site post id :
  Forall (fun s => site_named name s false) pre ->
  site_named name site true ->
  py_get site "id" VNone = Ret id ->
  find_site name (pre ++ site :: post) = Ret (Some id).
Proof.
  intros Hpre [n [Hn Heq]] Hid.
  induction Hpre as [|s rest [m [Hm Hneq]] _ IH]; cbn.
  - now rewrite Hn; cbn; rewrite Heq, Hid.
  - now rewrite Hm; cbn; rewrite Hneq.
Qed.

Lemma find_report_none site_id items :
  Forall (fun report => in_scope site_id report = Ret false) items ->
  find_report site_id items = Ret None.
Proof.
  induction 1 as [|report rest Hout _ IH]; cbn; [reflexivity|].
  now rewrite Hout.
Qed.

Lemma find_report_first site_id pre report post id :
  Forall (fun r => in_scope site_id r = Ret false) pre ->
  in_scope site_id report = Ret true ->
  py_get report "id" VNone = Ret id ->
  find_report site_id (pre ++ report :: post) = Ret (Some id).
Proof.
  intros Hpre Hin Hid.
  induction Hpre as [|r rest Hout _ IH]; cbn.
  - now rewrite Hin; cbn; rewrite Hid.
  - now rewrite Hout.
Qed.

Lemma get_site_id_listed name st r w items found :
  session_get (sites_url self) (world st) = (Ret r, w) ->
  lists r items ->
  find_site name items = Ret found ->
  get_site_id self name st = (Ret (or_none found), after st w [EvGet (sites_url self)]).
Proof.
  intros Hget [Hok [body [resources [Hbody [Hres Hiter]]]]] Hfind.
  unfold get_site_id, bind at 1. fold (sites_url self).
  rewrite (get_run _ _ _ _ Hget), Hok.
  unfold bind, try_except_ValueError, lift, response_json, ret.
  rewrite Hbody, Hres, Hiter, Hfind.
  now destruct found.
Qed.

Lemma get_site_id_malformed name st r w :
  session_get (sites_url self) (world st) = (Ret r, w) ->
  malformed r ->
  get_site_id self name st
  = (Ret VNone, after st w [EvGet (sites_url self); EvPrint parse_failed]).
Proof.
  intros Hget [Hok Hbody].
  unfold get_site_id, bind at 1. fold (sites_url self).
  rewrite (get_run _ _ _ _ Hget), Hok.
  unfold bind, try_except_ValueError, lift, response_json, ret.
  rewrite Hbody. unfold print, emit, after; cbn. now rewrite <- app_assoc.
Qed.

Lemma get_existing_report_listed site_id st r w items found :
  session_get (reports_url self) (world st) = (Ret r, w) ->
  lists r items ->
  find_report site_id items = Ret found ->
  get_existing_report self site_id st
  = (Ret (or_none found), after st w [EvGet (reports_url self)]).
Proof.
  intros Hget [Hok [body [resources [Hbody [Hres Hiter]]]]] Hfind.
  unfold get_existing_report, bind at 1. fold (reports_url self).
  rewrite (get_run _ _ _ _ Hget), Hok.
  unfold bind, try_except_ValueError, lift, response_json, ret.
  rewrite Hbody, Hres, Hiter, Hfind.
  now destruct found.
Qed.

Lemma get_existing_report_malformed site_id st r w :
  session_get (reports_url self) (world st) = (Ret r, w) ->
  malformed r ->
  get_existing_report self site_id st
  = (Ret VNone, after st w [EvGet (reports_url self); EvPrint parse_failed]).
Proof.
  intros Hget [Hok Hbody].
  unfold get_existing_report, bind at 1. fold (reports_url self).
  rewrite (get_run _ _ _ _ Hget), Hok.
  unfold bind, try_except_ValueError, lift, response_json, ret.
  rewrite Hbody. unfold print, emit, after; cbn. now rewrite <- app_assoc.
Qed.
End Runs.

Section SiteRuns.
Context {World : Type} {P : Platform World}.
Variable self : NexposeSession.

Lemma create_site_existing name description target_ip template_id
    (st : state World) r w items id :
  session_get (sites_url self) (world st) = (Ret r, w) ->
  lists r items ->
  find_site name items = Ret (Some id) ->
  id <> VNone ->
  create_site self name description target_ip template_id st
  = (Ret VNone,
     after st w [EvGet (sites_url self);
                 EvPrint ("Site already exists, using existing site id: " ++ py_str id)]).
Proof.
  intros Hget Hlists Hfind Hid.
  unfold create_site, bind at 1.
  rewrite (get_site_id_listed self name st r w items _ Hget Hlists Hfind); cbn [or_none].
  destruct id; try congruence;
    unfold bind, print, emit, ret, after; cbn; now rewrite <- app_assoc.
Qed.

Lemma create_site_absent name description target_ip template_id
    (st : state World) r w items rp w' :
  session_get (sites_url self) (world st) = (Ret r, w) ->
  lists r items ->
  find_site name items = Ret None ->
  session_post (sites_url self)
    (Some (site_data name description target_ip template_id)) w = (Ret rp, w') ->
  create_site self name description target_ip template_id st
  = (Ret VNone,
     after st w' [EvGet (sites_url self);
                  EvPost (sites_url self)
                    (Some (site_data name description target_ip template_id));
                  EvPrint (if status_ok rp then "Site created successfully"
                           else "Failed to create site")]).
Proof.
  intros Hget Hlists Hfind Hpost.
  unfold create_site, bind at 1.
  rewrite (get_site_id_listed self name st r w items _ Hget Hlists Hfind); cbn [or_none].
  fold (sites_url self). unfold bind at 1.
  rewrite (post_run _ _ (after st w [EvGet (sites_url self)]) (Ret rp) w' Hpost).
  destruct (status_ok rp);
    unfold bind, print, emit, ret, after; cbn; now rewrite <- !app_assoc.
Qed.
End SiteRuns.

Section Lookups.
Context {World : Type} {P : Platform World}.
Variable self : NexposeSession.

(** C7.  A lookup cannot tell a listing without a match from a body that
    is not JSON: [get_site_id] returns [None] when the 2xx listing holds
    no site of that name and when the 2xx body fails to parse, and
    [get_existing_report] returns [None] when the 2xx listing holds no
    report scoped to the site and when the 2xx body fails to parse.  No
    exception and no other value reaches the caller in either case. *)
Theorem lookup_missing_same_as_malformed :
  (forall name (st_missing st_malformed : state World) r_missing r_malformed w w' items,
      session_get (sites_url self) (world st_missing) = (Ret r_missing, w) ->
      lists r_missing items ->
      Forall (fun site => site_named name site false) items ->
      session_get (sites_url self) (world st_malformed) = (Ret r_malformed, w') ->
      malformed r_malformed ->
      fst (get_site_id self name st_missing) = Ret VNone /\
      fst (get_site_id self name st_malformed) = Ret VNone) /\
  (forall site_id (st_missing st_malformed : state World) r_missing r_malformed w w' items,
      session_get (reports_url self) (world st_missing) = (Ret r_missing, w) ->
      lists r_missing items ->
      Forall (fun report => in_scope site_id report = Ret false) items ->
      session_get (reports_url self) (world st_malformed) = (Ret r_malformed, w') ->
      malformed r_malformed ->
      fst (get_existing_report self site_id st_missing) = Ret VNone /\
      fst (get_existing_report self site_id st_malformed) = Ret VNone).
Proof.
  split.
  - intros name st1 st2 r1 r2 w w' items Hget1 Hlists Hnone Hget2 Hbad.
    rewrite (get_site_id_listed self name st1 r1 w items None Hget1 Hlists
               (find_site_none name items Hnone)).
    rewrite (get_site_id_malformed self name st2 r2 w' Hget2 Hbad).
    now split.
  - intros site_id st1 st2 r1 r2 w w' items Hget1 Hlists Hnone Hget2 Hbad.
    rewrite (get_existing_report_listed self site_id st1 r1 w items None Hget1 Hlists
               (find_report_none site_id items Hnone)).
    rewrite (get_existing_report_malformed self site_id st2 r2 w' Hget2 Hbad).
    now split.
Qed.
End Lookups.

Lemma lookup_missing_same_as_malformed_witness :
  (fst (get_site_id Sample.nexpose (VStr "Office")
          (Sample.start [Sample.json 200 (Sample.page [Sample.lab])] [])) = Ret VNone /\
   fst (get_site_id Sample.nexpose (VStr "Office")
          (Sample.start [Sample.garbage 200] [])) = Ret VNone) /\
  (fst (get_existing_report Sample.nexpose (VInt 7)
          (Sample.start [Sample.json 200
                           (Sample.page [Sample.report (VInt 1) [VInt 3]])] [])) = Ret VNone /\
   fst (get_existing_report Sample.nexpose (VInt 7)
          (Sample.start [Sample.garbage 202] [])) = Ret VNone).
Proof.
  split.
  - eapply (proj1 (lookup_missing_same_as_malformed Sample.nexpose)).
    + reflexivity.
    + listing.
    + each_item.
    + reflexivity.
    + split; reflexivity.
  - eapply (proj2 (lookup_missing_same_as_malformed Sample.nexpose)).
    + reflexivity.
    + listing.
    + each_item.
    + reflexivity.
    + split; reflexivity.
Defined.

(** C4.  With a site named "Office" already listed under id 7,
    [create_site] makes no creation request, prints the id it found, and
    returns [None], not the id. *)
Theorem create_site_existing_returns_nothing :
  create_site Sample.nexpose (VStr "Office") (VStr "Scan description")
    (VStr "10.0.0.5") (VStr "full-audit")
    (Sample.start [Sample.json 200 (Sample.page [Sample.lab; Sample.office])] [])
  = (Ret VNone,
     after (Sample.start [] []) (world (Sample.start [] []))
       [EvGet (sites_url Sample.nexpose);
        EvPrint "Site already exists, using existing site id: 7"]).
Proof. reflexivity. Qed.

Section ReportRuns.
Context {World : Type} {P : Platform World}.
Variable self : NexposeSession.

Lemma count_posts_app es new :
  count_posts (es ++ new) = (count_posts es + count_posts new)%nat.
Proof. unfold count_posts. now rewrite filter_app, length_app. Qed.

Lemma count_gets_app es new :
  count_gets (es ++ new) = (count_gets es + count_gets new)%nat.
Proof. unfold count_gets. now rewrite filter_app, length_app. Qed.

Lemma create_report_reuse site_id scan_id name file_format template
    (st : state World) r w items id :
  session_get (reports_url self) (world st) = (Ret r, w) ->
  lists r items ->
  find_report site_id items = Ret (Some id) ->
  truthy id = true ->
  create_report self site_id scan_id name file_format template st
  = (Ret id, after st w [EvGet (reports_url self); EvPrint "Using existing report"]).
Proof.
  intros Hget Hlists Hfind Hid.
  unfold create_report, bind at 1.
  rewrite (get_existing_report_listed self site_id st r w items _ Hget Hlists Hfind).
  cbn [or_none]. rewrite Hid.
  unfold bind, print, emit, ret, after; cbn. now rewrite <- app_assoc.
Qed.

Lemma create_report_no_reuse site_id scan_id name file_format template
    (st : state World) r w items found :
  session_get (reports_url self) (world st) = (Ret r, w) ->
  lists r items ->
  find_report site_id items = Ret found ->
  truthy (or_none found) = false ->
  create_report self site_id scan_id name file_format template st
  = create_report_config self site_id scan_id name file_format template
      (after st w [EvGet (reports_url self)]).
Proof.
  intros Hget Hlists Hfind Hid.
  unfold create_report, bind at 1.
  rewrite (get_existing_report_listed self site_id st r w items _ Hget Hlists Hfind).
  now rewrite Hid.
Qed.

Lemma create_report_config_created site_id scan_id name file_format template
    (st : state World) rp w body id :
  session_post (reports_url self)
    (Some (report_data site_id scan_id name file_format template)) (world st)
  = (Ret rp, w) ->
  status_ok rp = true ->
  json_body rp = Some body ->
  py_get body "id" VNone = Ret id ->
  create_report_config self site_id scan_id name file_format template st
  = (Ret id,
     after st w
       [EvPost (reports_url self)
          (Some (report_data site_id scan_id name file_format template));
        EvPrint ("Report configuration created successfully, report ID:"
                 ++ " " ++ py_str id)]).
Proof.
  intros Hpost Hok Hbody Hid.
  unfold create_report_config, bind at 1. fold (reports_url self).
  rewrite (post_run _ _ st (Ret rp) w Hpost), Hok.
  unfold bind, lift, response_json, print, emit, ret, after; cbn.
  rewrite Hbody, Hid. now rewrite <- app_assoc.
Qed.

Lemma create_report_config_posts site_id scan_id name file_format template
    (st : state World) :
  exists rest,
    events (snd (create_report_config self site_id scan_id name file_format template st))
    = events st
      ++ EvPost (reports_url self)
           (Some (report_data site_id scan_id name file_format template)) :: rest.
Proof.
  unfold create_report_config, bind at 1, post, bind at 1, emit, on_world.
  fold (reports_url self). cbn [world events].
  destruct (session_post _ _ (world st)) as [[rp|e] w]; [|now exists []].
  unfold bind, lift, response_json, print, emit, ret.
  destruct (status_ok rp); [|cbn; rewrite <- app_assoc; now eexists].
  destruct (json_body rp) as [body|]; [|now exists []].
  destruct (py_get body "id" VNone); cbn; [|now exists []].
  rewrite <- app_assoc; now eexists.
Qed.
End ReportRuns.

Section Reconciliation.
Context {World : Type} {P : Platform World}.
Variable self : NexposeSession.

(** C9.  When the first report configuration scoped to the site carries
    a falsy id (0, the empty string, a missing id), [create_report] goes
    on exactly as it does when the listing is empty: the same result, the
    same final state; and the request after the lookup is a creation
    request for a new configuration. *)
Theorem falsy_report_id_not_reused :
  forall site_id scan_id name file_format template
         (st : state World) r w pre report post id,
    session_get (reports_url self) (world st) = (Ret r, w) ->
    lists r (pre ++ report :: post) ->
    Forall (fun other => in_scope site_id other = Ret false) pre ->
    in_scope site_id report = Ret true ->
    py_get report "id" VNone = Ret id ->
    truthy id = false ->
    (forall (st_empty : state World) r_empty,
        events st_empty = events st ->
        session_get (reports_url self) (world st_empty) = (Ret r_empty, w) ->
        lists r_empty [] ->
        create_report self site_id scan_id name file_format template st
        = create_report self site_id scan_id name file_format template st_empty) /\
    exists rest,
      events (snd (create_report self site_id scan_id name file_format template st))
      = events st
        ++ EvGet (reports_url self)
        :: EvPost (reports_url self)
             (Some (report_data site_id scan_id name file_format template))
        :: rest.
Proof.
  intros site_id scan_id name file_format template st r w pre report post id
         Hget Hlists Hpre Hin Hid Hfalsy.
  pose proof (find_report_first site_id pre report post id Hpre Hin Hid) as Hfind.
  rewrite (create_report_no_reuse self site_id scan_id name file_format template
             st r w _ (Some id) Hget Hlists Hfind Hfalsy).
  split.
  - intros st0 r0 Hev Hget0 Hlists0.
    rewrite (create_report_no_reuse self site_id scan_id name file_format template
               st0 r0 w [] None Hget0 Hlists0 eq_refl eq_refl).
    unfold after. now rewrite Hev.
  - destruct (create_report_config_posts self site_id scan_id name file_format template
                (after st w [EvGet (reports_url self)])) as [rest Hrest].
    exists rest. rewrite Hrest. unfold after; cbn. now rewrite <- app_assoc.
Qed.
End Reconciliation.

Lemma falsy_report_id_not_reused_witness :
  exists rest,
    events (snd (create_report Sample.nexpose (VInt 7) (VInt 12) (VStr "Office")
                   (VStr "pdf") (VStr "audit-report") Sample.falsy_listing))
    = events Sample.falsy_listing
      ++ EvGet (reports_url Sample.nexpose)
      :: EvPost (reports_url Sample.nexpose)
           (Some (report_data (VInt 7) (VInt 12) (VStr "Office")
                    (VStr "pdf") (VStr "audit-report")))
      :: rest.
Proof.
  eapply (falsy_report_id_not_reused Sample.nexpose (VInt 7) (VInt 12) (VStr "Office")
            (VStr "pdf") (VStr "audit-report") Sample.falsy_listing _ _
            [Sample.report (VInt 4) [VInt 3]] (Sample.report (VInt 0) [VInt 7]) [] (VInt 0)).
  - reflexivity.
  - listing.
  - each_item.
  - reflexivity.
  - reflexivity.
  - reflexivity.
Defined.

Section Idempotence.
Context {World : Type} {P : Platform World}.
Variable self : NexposeSession.

(** Two reconciliations in a row, where the service behaves as expected.
    Sites: from a state where no site has the name, [create_site] makes
    one creation request; if the service then lists a site of that name
    with an id, a second [create_site] makes no request to create, and
    [get_site_id] returns that id.  Reports: from a state where no report
    is scoped to the site, [create_report] makes one creation request and
    returns the id of the answer; if the service then lists, as the first
    report scoped to the site, one under that id, and the id is truthy, a
    second [create_report] returns the same id and makes no request to
    create. *)
Theorem reconciliation_creates_once :
  (forall name description target_ip template_id (st : state World)
          r1 w1 items1 rp w2 r2 w3 pre site post id,
      session_get (sites_url self) (world st) = (Ret r1, w1) ->
      lists r1 items1 ->
      Forall (fun other => site_named name other false) items1 ->
      session_post (sites_url self)
        (Some (site_data name description target_ip template_id)) w1 = (Ret rp, w2) ->
      session_get (sites_url self) w2 = (Ret r2, w3) ->
      lists r2 (pre ++ site :: post) ->
      Forall (fun other => site_named name other false) pre ->
      site_named name site true ->
      py_get site "id" VNone = Ret id ->
      id <> VNone ->
      exists st1 st2 out1 out2,
        create_site self name description target_ip template_id st = (out1, st1) /\
        create_site self name description target_ip template_id st1 = (out2, st2) /\
        count_posts (events st1) = (count_posts (events st) + 1)%nat /\
        count_posts (events st2) = count_posts (events st1) /\
        fst (get_site_id self name st1) = Ret id) /\
  (forall site_id scan_id name file_format template (st : state World)
          r1 w1 items1 rp w2 body r2 w3 pre report post id,
      session_get (reports_url self) (world st) = (Ret r1, w1) ->
      lists r1 items1 ->
      Forall (fun other => in_scope site_id other = Ret false) items1 ->
      session_post (reports_url self)
        (Some (report_data site_id scan_id name file_format template)) w1 = (Ret rp, w2) ->
      status_ok rp = true ->
      json_body rp = Some body ->
      py_get body "id" VNone = Ret id ->
      session_get (reports_url self) w2 = (Ret r2, w3) ->
      lists r2 (pre ++ report :: post) ->
      Forall (fun other => in_scope site_id other = Ret false) pre ->
      in_scope site_id report = Ret true ->
      py_get report "id" VNone = Ret id ->
      truthy id = true ->
      exists st1 st2,
        create_report self site_id scan_id name file_format template st = (Ret id, st1) /\
        create_report self site_id scan_id name file_format template st1 = (Ret id, st2) /\
        count_posts (events st1) = (count_posts (events st) + 1)%nat /\
        count_posts (events st2) = count_posts (events st1)).
Proof.
  split.
  - intros name description target_ip template_id st r1 w1 items1 rp w2 r2 w3
           pre site post id Hget1 Hlists1 Hnone Hpost Hget2 Hlists2 Hpre Hsite Hid Hsome.
    pose proof (create_site_absent self name description target_ip template_id
                  st r1 w1 items1 rp w2 Hget1 Hlists1
                  (find_site_none name items1 Hnone) Hpost) as Hfirst.
    pose proof (find_site_first name pre site post id Hpre Hsite Hid) as Hfind.
    eexists; eexists; eexists; eexists.
    split; [exact Hfirst|].
    split; [eapply create_site_existing; eauto|].
    split; [|split].
    + unfold after; cbn [events]. now rewrite count_posts_app.
    + unfold after; cbn [events]. rewrite !count_posts_app; cbn. lia.
    + erewrite get_site_id_listed; eauto. reflexivity.
  - intros site_id scan_id name file_format template st r1 w1 items1 rp w2 body r2 w3
           pre report post id Hget1 Hlists1 Hnone Hpost Hok Hbody Hnew
           Hget2 Hlists2 Hpre Hin Hid Htruthy.
    pose proof (find_report_first site_id pre report post id Hpre Hin Hid) as Hfind.
    eexists; eexists.
    split.
    { rewrite (create_report_no_reuse self site_id scan_id name file_format template
                 st r1 w1 items1 None Hget1 Hlists1
                 (find_report_none site_id items1 Hnone) eq_refl).
      eapply create_report_config_created; eauto. }
    split.
    { eapply create_report_reuse; eauto. }
    split.
    + unfold after; cbn [events]. rewrite !count_posts_app; cbn. lia.
    + unfold after; cbn [events]. rewrite !count_posts_app; cbn. lia.
Qed.
End Idempotence.

Lemma reconciliation_creates_once_witness :
  (exists st1 st2 out1 out2,
      create_site Sample.nexpose (VStr "Office") (VStr "Scan description")
        (VStr "10.0.0.5") (VStr "full-audit") Sample.twice_office = (out1, st1) /\
      create_site Sample.nexpose (VStr "Office") (VStr "Scan description")
        (VStr "10.0.0.5") (VStr "full-audit") st1 = (out2, st2) /\
      count_posts (events st1) = (count_posts (events Sample.twice_office) + 1)%nat /\
      count_posts (events st2) = count_posts (events st1) /\
      fst (get_site_id Sample.nexpose (VStr "Office") st1) = Ret (VInt 7)) /\
  (exists st1 st2,
      create_report Sample.nexpose (VInt 7) (VInt 12) (VStr "Office") (VStr "pdf")
        (VStr "audit-report") Sample.twice_with_id_5 = (Ret (VInt 5), st1) /\
      create_report Sample.nexpose (VInt 7) (VInt 12) (VStr "Office") (VStr "pdf")
        (VStr "audit-report") st1 = (Ret (VInt 5), st2) /\
      count_posts (events st1) = (count_posts (events Sample.twice_with_id_5) + 1)%nat /\
      count_posts (events st2) = count_posts (events st1)).
Proof.
  split.
  - eapply (proj1 (reconciliation_creates_once Sample.nexpose)
              (VStr "Office") (VStr "Scan description") (VStr "10.0.0.5") (VStr "full-audit")
              Sample.twice_office _ _ [Sample.lab] _ _ _ _ [Sample.lab] Sample.office []).
    + reflexivity.
    + listing.
    + each_item.
    + reflexivity.
    + reflexivity.
    + listing.
    + each_item.
    + eexists; split; reflexivity.
    + reflexivity.
    + discriminate.
  - eapply (proj2 (reconciliation_creates_once Sample.nexpose)
              (VInt 7) (VInt 12) (VStr "Office") (VStr "pdf") (VStr "audit-report")
              Sample.twice_with_id_5 _ _ [] _ _ _ _ _ [] (Sample.report (VInt 5) [VInt 7]) []).
    + reflexivity.
    + listing.
    + each_item.
    + reflexivity.
    + reflexivity.
    + reflexivity.
    + reflexivity.
    + reflexivity.
    + listing.
    + each_item.
    + reflexivity.
    + reflexivity.
    + reflexivity.
Defined.

(** C1.  Two calls of [create_report] for site 7, against a service that
    gives the report the first call creates the id 0 and lists it after
    that: the first call makes one creation request and returns 0; the
    second call finds the report, but [if report_id:] takes id 0 for
    nothing found, so it makes a second creation request and returns the
    id of the new configuration, 1, where the docstring ("if a report
    already exists returns report_id") and the reuse of id 0 by
    [create_site] call for no request and the id 0. *)
Lemma reconciliation_second_creation_for_id_0 :
  fst (create_report Sample.nexpose (VInt 7) (VInt 12) (VStr "Office") (VStr "pdf")
         (VStr "audit-report") Sample.twice_with_id_0) = Ret (VInt 0) /\
  count_posts
    (events (snd (create_report Sample.nexpose (VInt 7) (VInt 12) (VStr "Office")
                    (VStr "pdf") (VStr "audit-report") Sample.twice_with_id_0))) = 1%nat /\
  count_posts
    (events (snd (create_report Sample.nexpose (VInt 7) (VInt 12) (VStr "Office")
                    (VStr "pdf") (VStr "audit-report")
                    (snd (create_report Sample.nexpose (VInt 7) (VInt 12) (VStr "Office")
                            (VStr "pdf") (VStr "audit-report") Sample.twice_with_id_0)))))
  = 2%nat /\
  fst (create_report Sample.nexpose (VInt 7) (VInt 12) (VStr "Office") (VStr "pdf")
         (VStr "audit-report")
         (snd (create_report Sample.nexpose (VInt 7) (VInt 12) (VStr "Office")
                 (VStr "pdf") (VStr "audit-report") Sample.twice_with_id_0)))
  = Ret (VInt 1).
Proof. repeat split; reflexivity. Qed.

(** ** What the terminal tests say *)

Lemma py_eq_VStr v s : py_eq v (VStr s) = true <-> v = VStr s.
Proof.
  destruct v; cbn; try (split; [discriminate|discriminate]).
  rewrite String.eqb_eq. split; [now intros ->|now intros [= ->]].
Qed.

Lemma scan_terminal_iff r :
  scan_terminal r = true <->
  status_ok r = true /\
  (body_field r "status" = Some (VStr "finished") \/
   body_field r "status" = Some (VStr "stopped")).
Proof.
  unfold scan_terminal. rewrite andb_true_iff.
  destruct (body_field r "status") as [status|]; cbn [existsb].
  - rewrite !orb_true_iff, !py_eq_VStr.
    split.
    + intros [Hok [->|[->|H]]]; [auto | auto | discriminate].
    + intros [Hok [[= ->]|[= ->]]]; auto.
  - split; [intros [_ H]; discriminate|intros [_ [H|H]]; discriminate].
Qed.

Lemma report_terminal_iff r :
  report_terminal r = true <->
  status_ok r = true /\ body_field r "status" = Some (VStr "complete").
Proof.
  unfold report_terminal. rewrite andb_true_iff.
  destruct (body_field r "status") as [status|].
  - rewrite py_eq_VStr. split.
    + now intros [Hok ->].
    + now intros [Hok [= ->]].
  - split; [intros [_ H]; discriminate|intros [_ H]; discriminate].
Qed.

Section Waiting.
Context {World : Type} {P : Platform World}.
Variable self : NexposeSession.

Lemma polls_split url pre r (w : World) :
  polls url (S (List.length pre)) w = map Ret pre ++ [Ret r] ->
  match pre with
  | [] => exists w', session_get url w = (Ret r, w')
  | first :: rest =>
      exists w', session_get url w = (Ret first, w') /\
                 polls url (S (List.length rest)) w' = map Ret rest ++ [Ret r]
  end.
Proof.
  destruct pre as [|first rest]; cbn [List.length polls map app].
  - destruct (session_get url w) as [x w']; intros E.
    injection E as ->. now exists w'.
  - destruct (session_get url w) as [x w']; intros E.
    injection E as -> E. exists w'. split; [reflexivity|].
    cbn [polls]. exact E.
Qed.

(** One turn of the scan loop, by what the poll brought. *)
Lemma scan_loop_step url (st : state World) r w n :
  session_get url (world st) = (Ret r, w) ->
  wait_for_scan_completion_loop (S n) url st
  = if status_ok r then
      match json_body r with
      | None =>
          wait_for_scan_completion_loop n url
            (after st w [EvGet url; EvPrint parse_failed; EvSleep 150])
      | Some (VDict d) =>
          let status := match dict_lookup "status" d with Some v => v | None => VNone end in
          let seen := EvPrint (py_str (VInt (status_code r)) ++ " : " ++ py_str status) in
          if existsb (py_eq status) [VStr "finished"; VStr "stopped"]
          then (Ret (Some VNone),
                after st w [EvGet url; seen;
                            EvPrint ("Scan " ++ py_str status ++ " successfully")])
          else wait_for_scan_completion_loop n url
                 (after st w [EvGet url; seen; EvSleep 150])
      | Some _ => (Raise AttributeError, after st w [EvGet url])
      end
    else
      wait_for_scan_completion_loop n url
        (after st w [EvGet url; EvPrint (py_str (VInt (status_code r))); EvSleep 150]).
Proof.
  intros Hget.
  cbn [wait_for_scan_completion_loop]. unfold bind at 1.
  rewrite (get_run _ _ _ _ Hget).
  destruct (status_ok r).
  - destruct (json_body r) as [[| | | | |d]|] eqn:Hbody;
      unfold bind, try_except_ValueError, lift, response_json; rewrite Hbody;
      try reflexivity.
    + cbn [py_get py_in].
      destruct (existsb _ _); settle; reflexivity.
    + settle; reflexivity.
  - settle; reflexivity.
Qed.

Lemma scan_loop_raise url (st : state World) e w n :
  session_get url (world st) = (Raise e, w) ->
  wait_for_scan_completion_loop (S n) url st = (Raise e, after st w [EvGet url]).
Proof.
  intros Hget.
  cbn [wait_for_scan_completion_loop]. unfold bind at 1.
  now rewrite (get_run _ _ _ _ Hget).
Qed.

Lemma scan_poll_absorbed url (st : state World) r w :
  session_get url (world st) = (Ret r, w) ->
  well_formed r = true ->
  scan_terminal r = false ->
  exists new,
    count_gets new = 1%nat /\
    forall n,
      wait_for_scan_completion_loop (S n) url st
      = wait_for_scan_completion_loop n url (after st w new).
Proof.
  intros Hget Hwf Hnt.
  unfold well_formed in Hwf. unfold scan_terminal, body_field in Hnt.
  destruct (status_ok r) eqn:Hok; cbn [andb negb orb] in Hwf, Hnt.
  - destruct (json_body r) as [[| | | | |d]|] eqn:Hbody; cbn [andb] in Hwf, Hnt;
      try discriminate.
    + eexists; split; [|intros n; rewrite (scan_loop_step _ _ _ _ _ Hget), Hok, Hbody;
                         cbn zeta; rewrite Hnt; reflexivity].
      reflexivity.
    + eexists; split; [|intros n; rewrite (scan_loop_step _ _ _ _ _ Hget), Hok, Hbody;
                         reflexivity].
      reflexivity.
  - eexists; split; [|intros n; rewrite (scan_loop_step _ _ _ _ _ Hget), Hok; reflexivity].
    reflexivity.
Qed.

Lemma scan_poll_returns url (st : state World) r w :
  session_get url (world st) = (Ret r, w) ->
  scan_terminal r = true ->
  exists new,
    count_gets new = 1%nat /\
    forall n,
      wait_for_scan_completion_loop (S n) url st = (Ret (Some VNone), after st w new).
Proof.
  intros Hget Ht.
  unfold scan_terminal, body_field in Ht.
  destruct (status_ok r) eqn:Hok; [cbn [andb] in Ht|discriminate].
  destruct (json_body r) as [[| | | | |d]|] eqn:Hbody; cbn [andb] in Ht; try discriminate.
  eexists; split; [|intros n; rewrite (scan_loop_step _ _ _ _ _ Hget), Hok, Hbody;
                     cbn zeta; rewrite Ht; reflexivity].
  reflexivity.
Qed.

Lemma scan_poll_no_return url (st : state World) x w n :
  session_get url (world st) = (x, w) ->
  (forall r, x = Ret r -> scan_terminal r = false) ->
  (exists e st', wait_for_scan_completion_loop (S n) url st = (Raise e, st')) \/
  (exists new,
      wait_for_scan_completion_loop (S n) url st
      = wait_for_scan_completion_loop n url (after st w new)).
Proof.
  intros Hget Hnt.
  destruct x as [r|e]; [|left; rewrite (scan_loop_raise _ _ _ _ _ Hget); now eauto].
  specialize (Hnt r eq_refl). unfold scan_terminal, body_field in Hnt.
  rewrite (scan_loop_step _ _ _ _ _ Hget).
  destruct (status_ok r) eqn:Hok; cbn [andb] in Hnt; [|right; now eexists].
  destruct (json_body r) as [[| | | | |d]|] eqn:Hbody; cbn [andb] in Hnt;
    try (left; now eauto); [|right; now eexists].
  cbn zeta. rewrite Hnt. right; now eexists.
Qed.
End Waiting.

Section ReportWaiting.
Context {World : Type} {P : Platform World}.

(** One turn of the report loop, by what the poll brought. *)
Lemma report_loop_step url (st : state World) r w n :
  session_get url (world st) = (Ret r, w) ->
  wait_for_report_completion_loop (S n) url st
  = if status_ok r then
      match json_body r with
      | None =>
          wait_for_report_completion_loop n url
            (after st w [EvGet url; EvPrint parse_failed; EvSleep 30])
      | Some (VDict d) =>
          let status := match dict_lookup "status" d with Some v => v | None => VNone end in
          let timestamp :=
            match dict_lookup "generated" d with Some v => v | None => VNone end in
          if py_eq status (VStr "complete")
          then (Ret (Some timestamp),
                after st w [EvGet url; EvPrint "Report completed successfully"])
          else wait_for_report_completion_loop n url (after st w [EvGet url; EvSleep 30])
      | Some _ => (Raise AttributeError, after st w [EvGet url])
      end
    else wait_for_report_completion_loop n url (after st w [EvGet url; EvSleep 30]).
Proof.
  intros Hget.
  cbn [wait_for_report_completion_loop]. unfold bind at 1.
  rewrite (get_run _ _ _ _ Hget).
  destruct (status_ok r).
  - destruct (json_body r) as [[| | | | |d]|] eqn:Hbody;
      unfold bind, try_except_ValueError, lift, response_json; rewrite Hbody;
      try reflexivity.
    + cbn [py_get].
      destruct (py_eq _ _);
        unfold print, sleep, emit, ret, after; cbn; rewrite <- ?app_assoc; reflexivity.
    + unfold print, sleep, emit, ret, after; cbn; rewrite <- ?app_assoc; reflexivity.
  - unfold bind, sleep, emit, ret, after; cbn; rewrite <- ?app_assoc; reflexivity.
Qed.

Lemma report_poll_absorbed url (st : state World) r w :
  session_get url (world st) = (Ret r, w) ->
  well_formed r = true ->
  report_terminal r = false ->
  exists new,
    count_gets new = 1%nat /\
    forall n,
      wait_for_report_completion_loop (S n) url st
      = wait_for_report_completion_loop n url (after st w new).
Proof.
  intros Hget Hwf Hnt.
  unfold well_formed in Hwf. unfold report_terminal, body_field in Hnt.
  destruct (status_ok r) eqn:Hok; cbn [andb negb orb] in Hwf, Hnt.
  - destruct (json_body r) as [[| | | | |d]|] eqn:Hbody; cbn [andb] in Hwf, Hnt;
      try discriminate.
    + eexists; split; [|intros n; rewrite (report_loop_step _ _ _ _ _ Hget), Hok, Hbody;
                         cbn zeta; rewrite Hnt; reflexivity].
      reflexivity.
    + eexists; split; [|intros n; rewrite (report_loop_step _ _ _ _ _ Hget), Hok, Hbody;
                         reflexivity].
      reflexivity.
  - eexists; split; [|intros n; rewrite (report_loop_step _ _ _ _ _ Hget), Hok; reflexivity].
    reflexivity.
Qed.

Lemma report_poll_returns url (st : state World) r w :
  session_get url (world st) = (Ret r, w) ->
  report_terminal r = true ->
  exists new,
    count_gets new = 1%nat /\
    forall n,
      wait_for_report_completion_loop (S n) url st
      = (Ret (Some (or_none (body_field r "generated"))), after st w new).
Proof.
  intros Hget Ht.
  unfold report_terminal, body_field in Ht. unfold body_field.
  destruct (status_ok r) eqn:Hok; [cbn [andb] in Ht|discriminate].
  destruct (json_body r) as [[| | | | |d]|] eqn:Hbody; cbn [andb] in Ht; try discriminate.
  eexists; split; [|intros n; rewrite (report_loop_step _ _ _ _ _ Hget), Hok, Hbody;
                     cbn zeta; rewrite Ht; reflexivity].
  reflexivity.
Qed.
End ReportWaiting.

(** What holds of any loop that polls one URL, takes a poll that is not
    terminal in its stride and returns on a terminal one. *)
Section PollingLoop.
Context {World : Type} {P : Platform World}.
Variable loop : nat -> value -> M World (option value).
Variable terminal : response -> bool.
Variable payload : response -> value.

Hypothesis loop_stops : forall url st, loop O url st = (Ret None, st).

Hypothesis loop_absorbs : forall url (st : state World) r w,
  session_get url (world st) = (Ret r, w) ->
  well_formed r = true ->
  terminal r = false ->
  exists new,
    count_gets new = 1%nat /\
    forall n, loop (S n) url st = loop n url (after st w new).

Hypothesis loop_returns : forall url (st : state World) r w,
  session_get url (world st) = (Ret r, w) ->
  terminal r = true ->
  exists new,
    count_gets new = 1%nat /\
    forall n, loop (S n) url st = (Ret (Some (payload r)), after st w new).

Lemma count_gets_after (st : state World) w new :
  count_gets (events (after st w new)) = (count_gets (events st) + count_gets new)%nat.
Proof. unfold after; cbn [events]. apply count_gets_app. Qed.

Lemma loop_first_terminal url pre r :
  forall st : state World,
    polls url (S (List.length pre)) (world st) = map Ret pre ++ [Ret r] ->
    Forall (fun x => well_formed x = true /\ terminal x = false) pre ->
    terminal r = true ->
    (forall fuel, (fuel <= List.length pre)%nat ->
                  exists st', loop fuel url st = (Ret None, st')) /\
    (forall fuel, (List.length pre < fuel)%nat ->
                  exists st',
                    loop fuel url st = (Ret (Some (payload r)), st') /\
                    count_gets (events st')
                    = (count_gets (events st) + S (List.length pre))%nat).
Proof.
  induction pre as [|first rest IH]; intros st Hpolls Hpre Hterm;
    apply polls_split in Hpolls.
  - destruct Hpolls as [w Hget]. split.
    + intros fuel Hfuel. assert (fuel = O) as -> by (cbn in Hfuel; lia).
      rewrite loop_stops. now eexists.
    + intros [|n] Hfuel; [cbn in Hfuel; lia|].
      destruct (loop_returns url st r w Hget Hterm) as [new [Hone Hrun]].
      rewrite Hrun. eexists; split; [reflexivity|].
      rewrite count_gets_after, Hone. reflexivity.
  - destruct Hpolls as [w [Hget Hrest]].
    inversion Hpre as [|? ? [Hwf Hnt] Hpre']; subst.
    destruct (loop_absorbs url st first w Hget Hwf Hnt) as [new [Hone Hrun]].
    destruct (IH (after st w new) Hrest Hpre' Hterm) as [Hearly Hlate].
    split.
    + intros [|n] Hfuel; [rewrite loop_stops; now eexists|].
      rewrite Hrun. apply Hearly. cbn in Hfuel; lia.
    + intros [|n] Hfuel; [lia|].
      rewrite Hrun.
      destruct (Hlate n) as [st' [Hret Hcount]]; [cbn in Hfuel; lia|].
      exists st'. split; [exact Hret|].
      rewrite Hcount, count_gets_after, Hone. cbn [List.length]. lia.
Qed.

Lemma loop_keeps_polling url :
  forall fuel (st : state World),
    (forall x, In x (polls url fuel (world st)) ->
               exists r, x = Ret r /\ well_formed r = true /\ terminal r = false) ->
    exists st',
      loop fuel url st = (Ret None, st') /\
      count_gets (events st') = (count_gets (events st) + fuel)%nat.
Proof.
  induction fuel as [|n IH]; intros st Hall.
  - rewrite loop_stops. eexists; split; [reflexivity|lia].
  - cbn [polls] in Hall.
    destruct (session_get url (world st)) as [x w] eqn:Hget.
    destruct (Hall x (or_introl eq_refl)) as [r [-> [Hwf Hnt]]].
    destruct (loop_absorbs url st r w Hget Hwf Hnt) as [new [Hone Hrun]].
    rewrite Hrun.
    destruct (IH (after st w new)) as [st' [Hret Hcount]].
    { intros y Hy. apply Hall. now right. }
    exists st'. split; [exact Hret|].
    rewrite Hcount, count_gets_after, Hone. lia.
Qed.
End PollingLoop.

Section NoReturn.
Context {World : Type} {P : Platform World}.

Lemma polls_prefix url :
  forall fuel n (w : World) x,
    (fuel <= n)%nat -> In x (polls url fuel w) -> In x (polls url n w).
Proof.
  induction fuel as [|k IH]; intros n w x Hle Hin; [contradiction|].
  destruct n as [|n]; [lia|].
  cbn [polls] in *.
  destruct (session_get url w) as [y w'].
  destruct Hin as [->|Hin]; [now left|].
  right. apply IH; [lia|exact Hin].
Qed.

Lemma scan_loop_never_returns url :
  forall fuel (st : state World),
    (forall r, In (Ret r) (polls url fuel (world st)) -> scan_terminal r = false) ->
    forall v, fst (wait_for_scan_completion_loop fuel url st) <> Ret (Some v).
Proof.
  induction fuel as [|n IH]; intros st Hall v; [cbn; discriminate|].
  cbn [polls] in Hall.
  destruct (session_get url (world st)) as [x w] eqn:Hget.
  destruct (scan_poll_no_return url st x w n Hget) as [[e [st' Hraise]]|[new Hrun]].
  - intros r ->. apply Hall. now left.
  - rewrite Hraise. cbn. discriminate.
  - rewrite Hrun. apply IH. intros r Hr. apply Hall. now right.
Qed.
End NoReturn.

Section WaitLoops.
Context {World : Type} {P : Platform World}.
Variable self : NexposeSession.

(** C2, as the code has it.  Let the polls of the scan (of the report's
    latest history) be answered by [pre] and then [r], where [r] is the
    first answer with a terminal status and every answer of [pre] is a
    failure status, a body that is not JSON, or a JSON object.  Then the
    wait is still in its loop after [length pre] polls or fewer, and with
    more it returns on poll number [length pre + 1], having made exactly
    that many requests.  [wait_for_scan_completion] returns [None]: the
    status is printed, not returned.  [wait_for_report_completion]
    returns the [generated] field of [r] as it is. *)
Theorem wait_returns_at_first_terminal :
  (forall scan_id (st : state World) pre r,
      polls (scan_url self scan_id) (S (List.length pre)) (world st)
      = map Ret pre ++ [Ret r] ->
      Forall (fun x => well_formed x = true /\ scan_terminal x = false) pre ->
      scan_terminal r = true ->
      (forall fuel, (fuel <= List.length pre)%nat ->
          exists st', wait_for_scan_completion fuel self scan_id st = (Ret None, st')) /\
      (forall fuel, (List.length pre < fuel)%nat ->
          exists st',
            wait_for_scan_completion fuel self scan_id st = (Ret (Some VNone), st') /\
            count_gets (events st')
            = (count_gets (events st) + S (List.length pre))%nat)) /\
  (forall report_id (st : state World) pre r generated,
      polls (report_history_url self report_id) (S (List.length pre)) (world st)
      = map Ret pre ++ [Ret r] ->
      Forall (fun x => well_formed x = true /\ report_terminal x = false) pre ->
      report_terminal r = true ->
      body_field r "generated" = Some generated ->
      (forall fuel, (fuel <= List.length pre)%nat ->
          exists st', wait_for_report_completion fuel self report_id st = (Ret None, st')) /\
      (forall fuel, (List.length pre < fuel)%nat ->
          exists st',
            wait_for_report_completion fuel self report_id st
            = (Ret (Some generated), st') /\
            count_gets (events st')
            = (count_gets (events st) + S (List.length pre))%nat)).
Proof.
  split.
  - intros scan_id st pre r Hpolls Hpre Hterm.
    exact (loop_first_terminal wait_for_scan_completion_loop scan_terminal
             (fun _ => VNone) (fun _ _ => eq_refl)
             scan_poll_absorbed scan_poll_returns
             (scan_url self scan_id) pre r st Hpolls Hpre Hterm).
  - intros report_id st pre r generated Hpolls Hpre Hterm Hgen.
    pose proof (loop_first_terminal wait_for_report_completion_loop report_terminal
                  (fun r => or_none (body_field r "generated")) (fun _ _ => eq_refl)
                  report_poll_absorbed report_poll_returns
                  (report_history_url self report_id) pre r st Hpolls Hpre Hterm) as H.
    cbv beta in H. rewrite Hgen in H. exact H.
Qed.

(** C8.  If none of the first [n] answers to the polls of a scan carries
    a terminal status, [wait_for_scan_completion] has not returned after
    any number of polls up to [n]; and where these answers are failure
    statuses, bodies that are not JSON, or JSON objects with some other
    status, each is taken in, and after [fuel] polls the loop has made
    [fuel] requests and is still running. *)
Theorem scan_wait_polls_on :
  forall scan_id (st : state World) n,
    (forall r, In (Ret r) (polls (scan_url self scan_id) n (world st)) ->
               scan_terminal r = false) ->
    (forall fuel v, (fuel <= n)%nat ->
        fst (wait_for_scan_completion fuel self scan_id st) <> Ret (Some v)) /\
    ((forall x, In x (polls (scan_url self scan_id) n (world st)) ->
                exists r, x = Ret r /\ well_formed r = true) ->
     forall fuel, (fuel <= n)%nat ->
       exists st',
         wait_for_scan_completion fuel self scan_id st = (Ret None, st') /\
         count_gets (events st') = (count_gets (events st) + fuel)%nat).
Proof.
  intros scan_id st n Hnone. split.
  - intros fuel v Hfuel.
    apply scan_loop_never_returns.
    intros r Hr. apply Hnone. eapply polls_prefix; eauto.
  - intros Hwf fuel Hfuel.
    apply (loop_keeps_polling wait_for_scan_completion_loop scan_terminal
             (fun _ _ => eq_refl) scan_poll_absorbed).
    intros x Hx. apply (polls_prefix _ fuel n) in Hx; [|exact Hfuel].
    destruct (Hwf x Hx) as [r [-> Hr]].
    exists r. repeat split; auto.
Qed.
End WaitLoops.

Lemma wait_returns_at_first_terminal_witness :
  (exists st',
      wait_for_scan_completion 3 Sample.nexpose (VInt 12) Sample.scan_run
      = (Ret (Some VNone), st') /\
      count_gets (events st') = (count_gets (events Sample.scan_run) + 3)%nat) /\
  (exists st',
      wait_for_report_completion 5 Sample.nexpose (VInt 4) Sample.report_run
      = (Ret (Some (VStr "2024-01-01T10:00:00Z")), st') /\
      count_gets (events st') = (count_gets (events Sample.report_run) + 3)%nat).
Proof.
  split.
  - apply (proj1 (wait_returns_at_first_terminal Sample.nexpose) (VInt 12) Sample.scan_run
             [Sample.running; Sample.running] Sample.finished).
    + reflexivity.
    + repeat constructor.
    + reflexivity.
    + cbn; lia.
  - apply (proj2 (wait_returns_at_first_terminal Sample.nexpose) (VInt 4) Sample.report_run
             [Sample.pending; Sample.unavailable] Sample.complete).
    + reflexivity.
    + repeat constructor.
    + reflexivity.
    + reflexivity.
    + cbn; lia.
Defined.

(** C2 as stated fails for the scan wait: on the polls running, running,
    finished it returns at the third poll, and what it returns is [None],
    not the status it saw.  And a 2xx answer whose body is a JSON list
    ends the wait with an AttributeError before the terminal poll is
    made. *)
Lemma scan_wait_returns_no_status :
  fst (wait_for_scan_completion 3 Sample.nexpose (VInt 12) Sample.scan_run)
  = Ret (Some VNone) /\
  body_field Sample.finished "status" = Some (VStr "finished") /\
  VNone <> VStr "finished" /\
  fst (wait_for_scan_completion 2 Sample.nexpose (VInt 12) Sample.list_then_finished)
  = Raise AttributeError.
Proof. split; [reflexivity | split; [reflexivity | split; [discriminate | reflexivity]]]. Qed.

Lemma scan_wait_polls_on_witness :
  fst (wait_for_scan_completion 4 Sample.nexpose (VInt 12) Sample.endless_run)
  <> Ret (Some VNone) /\
  exists st',
    wait_for_scan_completion 4 Sample.nexpose (VInt 12) Sample.endless_run
    = (Ret None, st') /\
    count_gets (events st') = (count_gets (events Sample.endless_run) + 4)%nat.
Proof.
  assert (forall r,
             In (Ret r) (polls (scan_url Sample.nexpose (VInt 12)) 4
                           (world Sample.endless_run)) ->
             scan_terminal r = false) as Hnone.
  { intros r H; cbn in H.
    repeat (destruct H as [H|H]; [injection H as <-; reflexivity|]).
    contradiction. }
  destruct (scan_wait_polls_on Sample.nexpose (VInt 12) Sample.endless_run 4 Hnone)
    as [Hnever Hon].
  split.
  - apply Hnever. lia.
  - apply Hon; try lia.
    intros x H; cbn in H.
    repeat (destruct H as [<-|H]; [eexists; split; reflexivity|]).
    contradiction.
Defined.

Section LastScan.
Context {World : Type} {P : Platform World}.
Variable self : NexposeSession.

Lemma first_last_href_none links :
  Forall (fun link => link_rel_last link false) links ->
  first_last_href links = Ret VNone.
Proof.
  induction 1 as [|link rest [rel [Hrel Hneq]] _ IH]; cbn; [reflexivity|].
  now rewrite Hrel; cbn; rewrite Hneq.
Qed.

Lemma first_last_href_found pre link post href :
  Forall (fun l => link_rel_last l false) pre ->
  link_rel_last link true ->
  py_getitem link "href" = Ret href ->
  first_last_href (pre ++ link :: post) = Ret href.
Proof.
  intros Hpre [rel [Hrel Heq]] Hhref.
  induction Hpre as [|l rest [m [Hm Hneq]] _ IH]; cbn.
  - now rewrite Hrel; cbn; rewrite Heq.
  - now rewrite Hm; cbn; rewrite Hneq.
Qed.

Lemma py_last_snoc earlier last : py_last (VList (earlier ++ [last])) = Ret last.
Proof. cbn. now rewrite rev_unit. Qed.

Lemma truthy_snoc earlier last : truthy (VList (earlier ++ [last])) = true.
Proof. now destruct earlier. Qed.

(** [get_last_scan_id] when both requests are answered with a page. *)
Lemma get_last_scan_id_run (st : state World)
    r1 w1 body1 links items url r2 w2 body2 earlier last id :
  session_get (scans_url self) (world st) = (Ret r1, w1) ->
  status_ok r1 = true ->
  json_body r1 = Some body1 ->
  py_get body1 "links" (VList []) = Ret links ->
  py_iter links = Ret items ->
  first_last_href items = Ret url ->
  session_get (match url with VNone => scans_url self | _ => url end) w1 = (Ret r2, w2) ->
  status_ok r2 = true ->
  json_body r2 = Some body2 ->
  py_get body2 "resources" (VList []) = Ret (VList (earlier ++ [last])) ->
  py_get last "id" VNone = Ret id ->
  get_last_scan_id self st
  = (Ret id,
     after st w2 [EvGet (scans_url self);
                  EvGet (match url with VNone => scans_url self | _ => url end)]).
Proof.
  intros Hget1 Hok1 Hbody1 Hlinks Hiter Hhref Hget2 Hok2 Hbody2 Hres Hid.
  unfold get_last_scan_id, bind at 1. fold (scans_url self).
  rewrite (get_run _ _ _ _ Hget1), Hok1.
  unfold bind at 1, try_except_ValueError.
  unfold bind at 1, lift at 1, response_json at 1. rewrite Hbody1.
  unfold bind at 1, lift at 1. rewrite Hlinks.
  unfold bind at 1, lift at 1. rewrite Hiter; cbn [rbind]. rewrite Hhref.
  unfold bind at 1.
  assert (match url with
          | VNone => get (scans_url self)
          | _ => get url
          end (after st w1 [EvGet (scans_url self)])
          = (Ret r2, after st w2
                       [EvGet (scans_url self);
                        EvGet (match url with VNone => scans_url self | _ => url end)]))
    as ->.
  { destruct url;
      (erewrite get_run by exact Hget2); unfold after; cbn;
      now rewrite <- app_assoc. }
  rewrite Hok2.
  unfold bind, lift, response_json, ret. rewrite Hbody2, Hres, truthy_snoc, py_last_snoc, Hid.
  reflexivity.
Qed.

(** C3.  When the first page of the scan listing answers with links of
    which one has relation ["last"] (the relation of those before it is
    something else) and that link has an [href], [get_last_scan_id]
    requests that [href] next and returns the id of the last entry of the
    page it gets; when no link has relation ["last"], it requests the
    scan listing once more and returns the id of the last entry of that
    answer. *)
Theorem last_scan_id_follows_last_link :
  (forall (st : state World) r1 w1 body1 links pre link post href
          r2 w2 body2 earlier last id,
      session_get (scans_url self) (world st) = (Ret r1, w1) ->
      status_ok r1 = true ->
      json_body r1 = Some body1 ->
      py_get body1 "links" (VList []) = Ret links ->
      py_iter links = Ret (pre ++ link :: post) ->
      Forall (fun l => link_rel_last l false) pre ->
      link_rel_last link true ->
      py_getitem link "href" = Ret href ->
      href <> VNone ->
      session_get href w1 = (Ret r2, w2) ->
      status_ok r2 = true ->
      json_body r2 = Some body2 ->
      py_get body2 "resources" (VList []) = Ret (VList (earlier ++ [last])) ->
      py_get last "id" VNone = Ret id ->
      get_last_scan_id self st
      = (Ret id, after st w2 [EvGet (scans_url self); EvGet href])) /\
  (forall (st : state World) r1 w1 body1 links items r2 w2 body2 earlier last id,
      session_get (scans_url self) (world st) = (Ret r1, w1) ->
      status_ok r1 = true ->
      json_body r1 = Some body1 ->
      py_get body1 "links" (VList []) = Ret links ->
      py_iter links = Ret items ->
      Forall (fun l => link_rel_last l false) items ->
      session_get (scans_url self) w1 = (Ret r2, w2) ->
      status_ok r2 = true ->
      json_body r2 = Some body2 ->
      py_get body2 "resources" (VList []) = Ret (VList (earlier ++ [last])) ->
      py_get last "id" VNone = Ret id ->
      get_last_scan_id self st
      = (Ret id, after st w2 [EvGet (scans_url self); EvGet (scans_url self)])).
Proof.
  split.
  - intros st r1 w1 body1 links pre link post href r2 w2 body2 earlier last id
           Hget1 Hok1 Hbody1 Hlinks Hiter Hpre Hlast Hhref Hsome Hget2 Hok2 Hbody2 Hres Hid.
    pose proof (first_last_href_found pre link post href Hpre Hlast Hhref) as Hfound.
    rewrite (get_last_scan_id_run st r1 w1 body1 links _ href r2 w2 body2 earlier last id
               Hget1 Hok1 Hbody1 Hlinks Hiter Hfound).
    + now destruct href.
    + now destruct href.
    + exact Hok2.
    + exact Hbody2.
    + exact Hres.
    + exact Hid.
  - intros st r1 w1 body1 links items r2 w2 body2 earlier last id
           Hget1 Hok1 Hbody1 Hlinks Hiter Hnone Hget2 Hok2 Hbody2 Hres Hid.
    exact (get_last_scan_id_run st r1 w1 body1 links items VNone r2 w2 body2 earlier last id
             Hget1 Hok1 Hbody1 Hlinks Hiter (first_last_href_none items Hnone)
             Hget2 Hok2 Hbody2 Hres Hid).
Qed.
End LastScan.

Lemma last_scan_id_follows_last_link_witness :
  fst (get_last_scan_id Sample.nexpose Sample.two_pages) = Ret (VInt 12) /\
  fst (get_last_scan_id Sample.nexpose Sample.one_page) = Ret (VInt 12).
Proof.
  split.
  - erewrite (proj1 (last_scan_id_follows_last_link Sample.nexpose) Sample.two_pages
                _ _ _ _
                [VDict [("href", VStr "https://localhost:3780/api/3/scans?page=0");
                        ("rel", VStr "self")]]
                (VDict [("href", VStr "https://localhost:3780/api/3/scans?page=1");
                        ("rel", VStr "last")])
                [] _ _ _ _ [Sample.scan 10; Sample.scan 11] (Sample.scan 12) (VInt 12)).
    + reflexivity.
    + reflexivity.
    + reflexivity.
    + reflexivity.
    + reflexivity.
    + reflexivity.
    + each_link.
    + eexists; split; reflexivity.
    + reflexivity.
    + discriminate.
    + reflexivity.
    + reflexivity.
    + reflexivity.
    + reflexivity.
    + reflexivity.
  - erewrite (proj2 (last_scan_id_follows_last_link Sample.nexpose) Sample.one_page
                _ _ _ _ _ _ _ _ [Sample.scan 10; Sample.scan 11] (Sample.scan 12) (VInt 12)).
    + reflexivity.
    + reflexivity.
    + reflexivity.
    + reflexivity.
    + reflexivity.
    + reflexivity.
    + each_link.
    + reflexivity.
    + reflexivity.
    + reflexivity.
    + reflexivity.
    + reflexivity.
Defined.

Section Download.
Context {World : Type} {P : Platform World}.
Variable self : NexposeSession.

(** Lines 314 to 322 in one piece: test, make when the test fails, join. *)
Lemma resolve_save_path_eq directory_name address save_filename (st : state World) :
  resolve_save_path directory_name address save_filename st
  = match os_path_exists (directory_checked directory_name address) (world st) with
    | Raise e => (Raise e, st)
    | Ret true => (os_path_join (directory_made directory_name address) save_filename, st)
    | Ret false =>
        match os_makedirs (directory_made directory_name address) (world st) with
        | (Ret _, w) =>
            (os_path_join (directory_made directory_name address) save_filename,
             after st w [EvMakedirs (directory_made directory_name address)])
        | (Raise e, w) =>
            (Raise e, after st w [EvMakedirs (directory_made directory_name address)])
        end
    end.
Proof.
  unfold resolve_save_path, directory_checked, directory_made.
  destruct directory_name, address;
    unfold bind, path_exists, makedirs, bind, emit, on_world, lift, ret, after;
    cbn [world events];
    (destruct (os_path_exists _ (world st)) as [[|]|e]; [destruct st; reflexivity| |reflexivity]);
    (destruct (os_makedirs _ (world st)) as [[[]|e] w]; reflexivity).
Qed.

Lemma resolve_save_path_events directory_name address save_filename (st : state World) :
  exists made,
    events (snd (resolve_save_path directory_name address save_filename st))
    = events st ++ made /\
    Forall (fun e => is_get e = false) made.
Proof.
  rewrite resolve_save_path_eq.
  destruct (os_path_exists _ (world st)) as [[|]|e].
  - exists []. now rewrite app_nil_r.
  - destruct (os_makedirs _ (world st)) as [[u|e] w];
      (eexists; split; [reflexivity|repeat constructor]).
  - exists []. now rewrite app_nil_r.
Qed.

Lemma download_report_after_resolve report_id instance directory_name address save_filename
    (st : state World) save_path st1 r w2 :
  resolve_save_path directory_name address save_filename st = (Ret save_path, st1) ->
  session_get (download_url self report_id instance) (world st1) = (Ret r, w2) ->
  download_report self report_id instance directory_name address save_filename st
  = if Z.eqb (status_code r) 200 then
      match write_stream save_path r w2 with
      | (Ret _, w3) =>
          (Ret (VStr save_path),
           after st1 w3 [EvGet (download_url self report_id instance);
                         EvWrite save_path;
                         EvPrint ("Report downloaded and saved to " ++ save_path)])
      | (Raise e, w3) =>
          (Raise e,
           after st1 w3 [EvGet (download_url self report_id instance); EvWrite save_path])
      end
    else
      (Ret VNone,
       after st1 w2 [EvGet (download_url self report_id instance);
                     EvPrint (failed_line r)]).
Proof.
  intros Hres Hget.
  unfold download_report, bind at 1. rewrite Hres.
  unfold bind at 1. rewrite (get_run _ _ _ _ Hget).
  destruct (Z.eqb (status_code r) 200).
  - unfold bind, write_to, bind, emit, on_world, print, emit, ret, after; cbn [world events].
    destruct (write_stream save_path r w2) as [[u|e] w3];
      cbn [world events]; rewrite <- ?app_assoc; reflexivity.
  - unfold bind, print, emit, ret, after, failed_line; cbn [world events].
    rewrite <- ?app_assoc; reflexivity.
Qed.

Lemma download_report_get_raises report_id instance directory_name address save_filename
    (st : state World) save_path st1 e w2 :
  resolve_save_path directory_name address save_filename st = (Ret save_path, st1) ->
  session_get (download_url self report_id instance) (world st1) = (Raise e, w2) ->
  download_report self report_id instance directory_name address save_filename st
  = (Raise e, after st1 w2 [EvGet (download_url self report_id instance)]).
Proof.
  intros Hres Hget.
  unfold download_report, bind at 1. rewrite Hres.
  unfold bind at 1. now rewrite (get_run _ _ _ _ Hget).
Qed.

Lemma download_report_resolve_raises report_id instance directory_name address save_filename
    (st : state World) e st1 :
  resolve_save_path directory_name address save_filename st = (Raise e, st1) ->
  download_report self report_id instance directory_name address save_filename st
  = (Raise e, st1).
Proof. intros Hres. unfold download_report, bind at 1. now rewrite Hres. Qed.

(** C5.  Once the directory is settled and the request is answered,
    [download_report] returns the save path when the status is 200 (and
    the file could be written); with any other status, 201 and 202
    included, it prints the failure and returns [None]; so a path comes
    back only for status 200. *)
Theorem download_returns_path_only_for_200 :
  forall report_id instance directory_name address save_filename
         (st : state World) save_path st1 r w2,
    resolve_save_path directory_name address save_filename st = (Ret save_path, st1) ->
    session_get (download_url self report_id instance) (world st1) = (Ret r, w2) ->
    (status_code r = 200 ->
     forall w3, write_stream save_path r w2 = (Ret tt, w3) ->
       download_report self report_id instance directory_name address save_filename st
       = (Ret (VStr save_path),
          after st1 w3 [EvGet (download_url self report_id instance);
                        EvWrite save_path;
                        EvPrint ("Report downloaded and saved to " ++ save_path)])) /\
    (status_code r <> 200 ->
       download_report self report_id instance directory_name address save_filename st
       = (Ret VNone,
          after st1 w2 [EvGet (download_url self report_id instance);
                        EvPrint (failed_line r)])) /\
    (forall path,
        fst (download_report self report_id instance directory_name address
               save_filename st) = Ret (VStr path) ->
        status_code r = 200).
Proof.
  intros report_id instance directory_name address save_filename st save_path st1 r w2
         Hres Hget.
  rewrite (download_report_after_resolve report_id instance directory_name address
             save_filename st save_path st1 r w2 Hres Hget).
  destruct (Z.eqb_spec (status_code r) 200) as [Heq|Hneq].
  - split; [|split].
    + intros _ w3 Hwrite. now rewrite Hwrite.
    + intros Hneq. contradiction.
    + intros _ _. exact Heq.
  - split; [|split].
    + intros Heq. contradiction.
    + intros _. reflexivity.
    + cbn. discriminate.
Qed.

(** C10.  In every call the events of the directory step come first and
    hold no request, and no directory is made after them.  When the
    tested path does not exist, the directory is made, and the service
    then answers with a status other than 200, the call returns [None],
    and the request was made in the world the directory creation left:
    the creation is done although the download failed. *)
Theorem download_makes_directory_first :
  forall report_id instance directory_name address save_filename (st : state World),
    (exists made rest,
        events (snd (resolve_save_path directory_name address save_filename st))
        = events st ++ made /\
        events (snd (download_report self report_id instance directory_name address
                       save_filename st))
        = events st ++ made ++ rest /\
        Forall (fun e => is_get e = false) made /\
        Forall (fun e => is_makedirs e = false) rest) /\
    (forall w1 save_path r w2,
        os_path_exists (directory_checked directory_name address) (world st) = Ret false ->
        os_makedirs (directory_made directory_name address) (world st) = (Ret tt, w1) ->
        os_path_join (directory_made directory_name address) save_filename = Ret save_path ->
        session_get (download_url self report_id instance) w1 = (Ret r, w2) ->
        status_code r <> 200 ->
        download_report self report_id instance directory_name address save_filename st
        = (Ret VNone,
           after st w2 [EvMakedirs (directory_made directory_name address);
                        EvGet (download_url self report_id instance);
                        EvPrint (failed_line r)])).
Proof.
  intros report_id instance directory_name address save_filename st. split.
  - destruct (resolve_save_path_events directory_name address save_filename st)
      as [made [Hmade Hnoget]].
    exists made.
    destruct (resolve_save_path directory_name address save_filename st)
      as [[save_path|e] st1] eqn:Hres; cbn [snd] in Hmade.
    + destruct (session_get (download_url self report_id instance) (world st1))
        as [[r|e] w2] eqn:Hget.
      * rewrite (download_report_after_resolve _ _ _ _ _ _ _ _ _ _ Hres Hget).
        destruct (Z.eqb (status_code r) 200).
        -- destruct (write_stream save_path r w2) as [[u|e] w3];
             (eexists; cbn [snd after events]; rewrite Hmade, <- app_assoc;
              repeat split; [exact Hnoget | repeat constructor]).
        -- eexists; cbn [snd after events]; rewrite Hmade, <- app_assoc;
             repeat split; [exact Hnoget | repeat constructor].
      * rewrite (download_report_get_raises _ _ _ _ _ _ _ _ _ _ Hres Hget).
        eexists; cbn [snd after events]; rewrite Hmade, <- app_assoc;
          repeat split; [exact Hnoget | repeat constructor].
    + rewrite (download_report_resolve_raises _ _ _ _ _ _ _ _ Hres).
      exists []. cbn [snd]. rewrite Hmade, app_nil_r.
      repeat split; [exact Hnoget | constructor].
  - intros w1 save_path r w2 Hexists Hmake Hjoin Hget Hneq.
    assert (resolve_save_path directory_name address save_filename st
            = (Ret save_path,
               after st w1 [EvMakedirs (directory_made directory_name address)])) as Hres.
    { rewrite resolve_save_path_eq, Hexists, Hmake, Hjoin. reflexivity. }
    rewrite (download_report_after_resolve _ _ _ _ _ _ _ _ _ _ Hres Hget).
    destruct (Z.eqb_spec (status_code r) 200) as [Heq|_]; [contradiction|].
    unfold after; cbn [world events]. now rewrite <- app_assoc.
Qed.
End Download.

Section SavePath.
Context {World : Type} {P : Platform World}.

Lemma append_assoc_ (x y z : string) : ((x ++ y) ++ z)%string = (x ++ y ++ z)%string.
Proof. induction x as [|c x IH]; cbn; [reflexivity|now rewrite IH]. Qed.

Lemma ends_with_sep_cons c s :
  s <> EmptyString -> ends_with_sep (String c s) = ends_with_sep s.
Proof. now destruct s. Qed.

Lemma ends_with_sep_append x y :
  y <> EmptyString -> ends_with_sep (x ++ y) = ends_with_sep y.
Proof.
  intros Hy. induction x as [|c x IH]; cbn [append]; [reflexivity|].
  rewrite ends_with_sep_cons; [exact IH|].
  destruct x; cbn; [exact Hy|discriminate].
Qed.

Lemma directory_not_closed d a :
  ends_with_sep a = false ->
  (String.eqb (d ++ "_" ++ a) "" || ends_with_sep (d ++ "_" ++ a))%string = false.
Proof.
  intros Ha.
  assert (String.eqb (d ++ "_" ++ a) "" = false) as -> by now destruct d.
  rewrite ends_with_sep_append by discriminate.
  destruct a; [reflexivity|]. exact Ha.
Qed.

(** C6, as the code has it.  With [directory_name] and [address] both
    given (neither is [None]), a [save_filename] that is a string and does
    not begin with a slash, and an [address] whose text does not end with
    one, the path lines 314 to 322 compute (the one [download_report]
    writes to and returns) is the text of [directory_name], an underscore,
    the text of [address], a slash and [save_filename]; with both omitted
    and the default file name it is [reports/report.pdf].  In both cases
    the directory is there already or is made without an error. *)
Theorem save_path_composition :
  (forall directory_name address f (st : state World),
      directory_name <> VNone ->
      address <> VNone ->
      starts_with_sep f = false ->
      ends_with_sep (py_str address) = false ->
      os_path_exists directory_name (world st) = Ret true \/
      (os_path_exists directory_name (world st) = Ret false /\
       fst (os_makedirs (py_str directory_name ++ "_" ++ py_str address) (world st))
       = Ret tt) ->
      fst (resolve_save_path directory_name address (VStr f) st)
      = Ret (py_str directory_name ++ "_" ++ py_str address ++ "/" ++ f)%string) /\
  (forall st : state World,
      os_path_exists (VStr "reports") (world st) = Ret true \/
      (os_path_exists (VStr "reports") (world st) = Ret false /\
       fst (os_makedirs "reports" (world st)) = Ret tt) ->
      fst (resolve_save_path VNone VNone default_save_filename st)
      = Ret "reports/report.pdf"%string).
Proof.
  split.
  - intros directory_name address f st Hd Ha Hf Hend Hdir.
    assert (os_path_join (py_str directory_name ++ "_" ++ py_str address) (VStr f)
            = Ret (py_str directory_name ++ "_" ++ py_str address ++ "/" ++ f)%string)
      as Hjoin.
    { unfold os_path_join.
      rewrite Hf, (directory_not_closed (py_str directory_name) (py_str address) Hend).
      now rewrite !append_assoc_. }
    rewrite resolve_save_path_eq.
    assert (directory_checked directory_name address = directory_name) as ->
        by (unfold directory_checked; destruct directory_name, address; congruence).
    assert (directory_made directory_name address
            = (py_str directory_name ++ "_" ++ py_str address)%string) as ->
        by (unfold directory_made; destruct directory_name, address; congruence).
    destruct Hdir as [-> | [-> Hmake]]; [exact Hjoin|].
    destruct (os_makedirs _ (world st)) as [[u|e] w]; cbn in Hmake; [exact Hjoin|].
    discriminate.
  - intros st Hdir.
    rewrite resolve_save_path_eq.
    unfold directory_checked, directory_made.
    destruct Hdir as [-> | [-> Hmake]]; [reflexivity|].
    destruct (os_makedirs _ (world st)) as [[u|e] w]; cbn in Hmake; [reflexivity|].
    discriminate.
Qed.
End SavePath.

Lemma save_path_composition_witness :
  fst (resolve_save_path (VStr "2024-01-01") (VStr "10.0.0.5") (VStr "r.pdf")
         (Sample.download 200 []))
  = Ret "2024-01-01_10.0.0.5/r.pdf"%string /\
  fst (resolve_save_path (VStr "2024-01-01") (VInt 5) (VStr "r.pdf")
         (Sample.download 200 ["2024-01-01"%string]))
  = Ret "2024-01-01_5/r.pdf"%string /\
  fst (resolve_save_path VNone VNone default_save_filename (Sample.download 200 ["reports"%string]))
  = Ret "reports/report.pdf"%string.
Proof.
  split; [|split].
  - refine (proj1 save_path_composition (VStr "2024-01-01") (VStr "10.0.0.5")
              "r.pdf"%string (Sample.download 200 []) _ _ _ _ _).
    + discriminate.
    + discriminate.
    + reflexivity.
    + reflexivity.
    + right. split; reflexivity.
  - refine (proj1 save_path_composition (VStr "2024-01-01") (VInt 5)
              "r.pdf"%string (Sample.download 200 ["2024-01-01"%string]) _ _ _ _ _).
    + discriminate.
    + discriminate.
    + reflexivity.
    + reflexivity.
    + left. reflexivity.
  - apply (proj2 save_path_composition (Sample.download 200 ["reports"%string])).
    left. reflexivity.
Defined.

(** C6 as stated fails for an absolute file name: [os.path.join] drops the
    directory, and the path is the file name alone.  After an address
    that ends with a slash no second slash is put.  And a file name that
    is not a string gives no path at all: [os.path.join] raises
    TypeError. *)
Lemma save_path_of_absolute_filename :
  fst (resolve_save_path (VStr "2024-01-01") (VStr "10.0.0.5") (VStr "/tmp/r.pdf")
         (Sample.download 200 []))
  = Ret "/tmp/r.pdf"%string /\
  "/tmp/r.pdf"%string <> "2024-01-01_10.0.0.5//tmp/r.pdf"%string /\
  fst (resolve_save_path (VStr "2024-01-01") (VStr "Example.Org/") (VStr "r.pdf")
         (Sample.download 200 []))
  = Ret "2024-01-01_Example.Org/r.pdf"%string /\
  "2024-01-01_Example.Org/r.pdf"%string <> "2024-01-01_Example.Org//r.pdf"%string /\
  fst (resolve_save_path (VStr "2024-01-01") (VStr "10.0.0.5") (VInt 5)
         (Sample.download 200 []))
  = Raise TypeError.
Proof.
  split; [reflexivity | split; [discriminate | split; [reflexivity | split;
    [discriminate | reflexivity]]]].
Qed.

Lemma download_returns_path_only_for_200_witness :
  fst (download_report Sample.nexpose (VInt 4) default_instance
         (VStr "2024-01-01") (VStr "10.0.0.5") (VStr "r.pdf") (Sample.download 200 []))
  = Ret (VStr "2024-01-01_10.0.0.5/r.pdf") /\
  fst (download_report Sample.nexpose (VInt 4) default_instance
         (VStr "2024-01-01") (VStr "10.0.0.5") (VStr "r.pdf") (Sample.download 201 []))
  = Ret VNone /\
  fst (download_report Sample.nexpose (VInt 4) default_instance
         (VStr "2024-01-01") (VStr "10.0.0.5") (VStr "r.pdf") (Sample.download 202 []))
  = Ret VNone.
Proof.
  split; [|split].
  - edestruct (download_returns_path_only_for_200 Sample.nexpose (VInt 4) default_instance
                 (VStr "2024-01-01") (VStr "10.0.0.5") (VStr "r.pdf")
                 (Sample.download 200 [])) as [H200 _]; [reflexivity | reflexivity |].
    erewrite H200; reflexivity.
  - edestruct (download_returns_path_only_for_200 Sample.nexpose (VInt 4) default_instance
                 (VStr "2024-01-01") (VStr "10.0.0.5") (VStr "r.pdf")
                 (Sample.download 201 [])) as [_ [Hother _]]; [reflexivity | reflexivity |].
    rewrite Hother; [reflexivity | discriminate].
  - edestruct (download_returns_path_only_for_200 Sample.nexpose (VInt 4) default_instance
                 (VStr "2024-01-01") (VStr "10.0.0.5") (VStr "r.pdf")
                 (Sample.download 202 [])) as [_ [Hother _]]; [reflexivity | reflexivity |].
    rewrite Hother; [reflexivity | discriminate].
Defined.

Lemma download_makes_directory_first_witness :
  download_report Sample.nexpose (VInt 4) default_instance
    (VStr "2024-01-01") (VStr "10.0.0.5") (VStr "r.pdf") (Sample.download 404 [])
  = (Ret VNone,
     after (Sample.download 404 [])
       {| Sample.script := [];
          Sample.dirs := ["2024-01-01_10.0.0.5"%string];
          Sample.files := [] |}
       [EvMakedirs (directory_made (VStr "2024-01-01") (VStr "10.0.0.5"));
        EvGet (download_url Sample.nexpose (VInt 4) default_instance);
        EvPrint (failed_line (Sample.pdf 404))]).
Proof.
  apply (proj2 (download_makes_directory_first Sample.nexpose (VInt 4) default_instance
                  (VStr "2024-01-01") (VStr "10.0.0.5") (VStr "r.pdf")
                  (Sample.download 404 []))
           {| Sample.script := [Ret (Sample.pdf 404)];
              Sample.dirs := ["2024-01-01_10.0.0.5"%string];
              Sample.files := [] |}
           "2024-01-01_10.0.0.5/r.pdf"%string (Sample.pdf 404)).
  - reflexivity.
  - reflexivity.
  - reflexivity.
  - reflexivity.
  - discriminate.
Defined.

(** * More of the client *)

(** ** The lookups, whatever the answer *)

Section LookupShape.
Context {World : Type} {P : Platform World}.
Variable self : NexposeSession.

Lemma get_site_id_eq name (st : state World) :
  get_site_id self name st
  = let (x, w) := session_get (sites_url self) (world st) in
    match x with
    | Raise e => (Raise e, after st w [EvGet (sites_url self)])
    | Ret r =>
        if status_ok r
        then lookup_outcome (lookup_site name r) (after st w [EvGet (sites_url self)])
        else (Ret VNone, after st w [EvGet (sites_url self)])
    end.
Proof.
  unfold get_site_id, bind at 1. fold (sites_url self).
  destruct (session_get (sites_url self) (world st)) as [x w] eqn:Hget.
  rewrite (get_run _ _ _ _ Hget).
  destruct x as [r|e]; [|reflexivity].
  destruct (status_ok r); [|reflexivity].
  unfold lookup_site, lookup_outcome, bind, try_except_ValueError, lift, ret, rbind.
  destruct (response_json r) as [body|e]; [|destruct e; reflexivity].
  destruct (py_get body "resources" (VList [])) as [resources|e]; [|destruct e; reflexivity].
  destruct (py_iter resources) as [sites|e]; [|destruct e; reflexivity].
  destruct (find_site name sites) as [[id|]|e]; try reflexivity.
  destruct e; reflexivity.
Qed.

Lemma get_existing_report_eq site_id (st : state World) :
  get_existing_report self site_id st
  = let (x, w) := session_get (reports_url self) (world st) in
    match x with
    | Raise e => (Raise e, after st w [EvGet (reports_url self)])
    | Ret r =>
        if status_ok r
        then lookup_outcome (lookup_report site_id r) (after st w [EvGet (reports_url self)])
        else (Ret VNone, after st w [EvGet (reports_url self)])
    end.
Proof.
  unfold get_existing_report, bind at 1. fold (reports_url self).
  destruct (session_get (reports_url self) (world st)) as [x w] eqn:Hget.
  rewrite (get_run _ _ _ _ Hget).
  destruct x as [r|e]; [|reflexivity].
  destruct (status_ok r); [|reflexivity].
  unfold lookup_report, lookup_outcome, bind, try_except_ValueError, lift, ret, rbind.
  destruct (response_json r) as [body|e]; [|destruct e; reflexivity].
  destruct (py_get body "resources" (VList [])) as [resources|e]; [|destruct e; reflexivity].
  destruct (py_iter resources) as [reports|e]; [|destruct e; reflexivity].
  destruct (find_report site_id reports) as [[id|]|e]; try reflexivity.
  destruct e; reflexivity.
Qed.
End LookupShape.

Section LookupEdges.
Context {World : Type} {P : Platform World}.
Variable self : NexposeSession.

Lemma find_site_raises name sites e :
  find_site name sites = Raise e -> e = AttributeError.
Proof.
  induction sites as [|site rest IH]; cbn; [discriminate|].
  destruct site; cbn; try (now intros [= <-]).
  destruct (py_eq _ name); [now intros [= <-] | exact IH].
Qed.

Lemma in_scope_raises site_id report e :
  in_scope site_id report = Raise e -> e = AttributeError \/ e = TypeError.
Proof.
  unfold in_scope.
  destruct report; cbn; try (intros [= <-]; now left).
  destruct (match dict_lookup "scope" items with Some v => v | None => VDict [] end);
    cbn; try (intros [= <-]; now left).
  destruct (match dict_lookup "sites" items0 with Some v => v | None => VList [] end);
    cbn; try (intros [= <-]; now right); try discriminate;
    destruct site_id; cbn; try discriminate; intros [= <-]; now right.
Qed.

Lemma find_report_raises site_id reports e :
  find_report site_id reports = Raise e -> e = AttributeError \/ e = TypeError.
Proof.
  induction reports as [|report rest IH]; cbn; [discriminate|].
  destruct (in_scope site_id report) as [[|]|e'] eqn:Hin; cbn.
  - destruct report; cbn; intros [= <-]; now left.
  - exact IH.
  - intros [= <-]. eapply in_scope_raises; eauto.
Qed.

Lemma find_site_stops_at name pre bad post :
  Forall (fun s => site_named name s false) pre ->
  (forall d, bad <> VDict d) ->
  find_site name (pre ++ bad :: post) = Raise AttributeError.
Proof.
  intros Hpre Hbad.
  induction Hpre as [|s rest [m [Hm Hneq]] _ IH]; cbn.
  - destruct bad; try reflexivity. now destruct (Hbad items).
  - now rewrite Hm; cbn; rewrite Hneq.
Qed.

Lemma find_report_stops_at site_id pre bad post e :
  Forall (fun r => in_scope site_id r = Ret false) pre ->
  in_scope site_id bad = Raise e ->
  find_report site_id (pre ++ bad :: post) = Raise e.
Proof.
  intros Hpre Hbad.
  induction Hpre as [|r rest Hout _ IH]; cbn.
  - now rewrite Hbad.
  - now rewrite Hout.
Qed.

Lemma lookup_site_listed name r items :
  lists r items -> lookup_site name r = find_site name items.
Proof.
  intros [_ [body [resources [Hbody [Hres Hiter]]]]].
  unfold lookup_site, response_json. now rewrite Hbody; cbn; rewrite Hres; cbn; rewrite Hiter.
Qed.

Lemma lookup_report_listed site_id r items :
  lists r items -> lookup_report site_id r = find_report site_id items.
Proof.
  intros [_ [body [resources [Hbody [Hres Hiter]]]]].
  unfold lookup_report, response_json. now rewrite Hbody; cbn; rewrite Hres; cbn; rewrite Hiter.
Qed.

(** X1.  The first match wins.  When the listing holds an entry that
    matches (a site of that name, a report scoped to the site) after
    entries that do not, the lookup returns the id of that entry, whatever
    comes after it in the listing: a second match, or an entry that is no
    object at all. *)
Theorem lookup_first_match_wins :
  (forall name (st : state World) r w pre site post id,
      session_get (sites_url self) (world st) = (Ret r, w) ->
      lists r (pre ++ site :: post) ->
      Forall (fun other => site_named name other false) pre ->
      site_named name site true ->
      py_get site "id" VNone = Ret id ->
      get_site_id self name st = (Ret id, after st w [EvGet (sites_url self)])) /\
  (forall site_id (st : state World) r w pre report post id,
      session_get (reports_url self) (world st) = (Ret r, w) ->
      lists r (pre ++ report :: post) ->
      Forall (fun other => in_scope site_id other = Ret false) pre ->
      in_scope site_id report = Ret true ->
      py_get report "id" VNone = Ret id ->
      get_existing_report self site_id st
      = (Ret id, after st w [EvGet (reports_url self)])).
Proof.
  split.
  - intros name st r w pre site post id Hget Hlists Hpre Hsite Hid.
    exact (get_site_id_listed self name st r w _ (Some id) Hget Hlists
             (find_site_first name pre site post id Hpre Hsite Hid)).
  - intros site_id st r w pre report post id Hget Hlists Hpre Hin Hid.
    exact (get_existing_report_listed self site_id st r w _ (Some id) Hget Hlists
             (find_report_first site_id pre report post id Hpre Hin Hid)).
Qed.

(** X2.  An entry the match test cannot run on, met before any match,
    ends the lookup with an exception instead of [None]: [get_site_id]
    raises AttributeError on an entry that is not an object, and
    [get_existing_report] raises what the scope test raised (AttributeError
    for a scope that is not an object, TypeError for sites that are not a
    collection).  Only the request is in the trace; nothing is printed. *)
Theorem lookup_raises_on_entry_before_match :
  (forall name (st : state World) r w pre bad post,
      session_get (sites_url self) (world st) = (Ret r, w) ->
      lists r (pre ++ bad :: post) ->
      Forall (fun other => site_named name other false) pre ->
      (forall d, bad <> VDict d) ->
      get_site_id self name st
      = (Raise AttributeError, after st w [EvGet (sites_url self)])) /\
  (forall site_id (st : state World) r w pre bad post e,
      session_get (reports_url self) (world st) = (Ret r, w) ->
      lists r (pre ++ bad :: post) ->
      Forall (fun other => in_scope site_id other = Ret false) pre ->
      in_scope site_id bad = Raise e ->
      get_existing_report self site_id st
      = (Raise e, after st w [EvGet (reports_url self)])).
Proof.
  split.
  - intros name st r w pre bad post Hget Hlists Hpre Hbad.
    rewrite get_site_id_eq, Hget. destruct Hlists as [Hok Hrest].
    rewrite Hok, (lookup_site_listed name r _ (conj Hok Hrest)).
    now rewrite (find_site_stops_at name pre bad post Hpre Hbad).
  - intros site_id st r w pre bad post e Hget Hlists Hpre Hbad.
    rewrite get_existing_report_eq, Hget. destruct Hlists as [Hok Hrest].
    rewrite Hok, (lookup_report_listed site_id r _ (conj Hok Hrest)).
    rewrite (find_report_stops_at site_id pre bad post e Hpre Hbad).
    destruct (in_scope_raises _ _ _ Hbad) as [-> | ->]; reflexivity.
Qed.
End LookupEdges.

(** ** Creating a site *)

Section CreateSite.
Context {World : Type} {P : Platform World}.
Variable self : NexposeSession.

Lemma create_site_when_none name description target_ip template_id
    (st st1 : state World) :
  get_site_id self name st = (Ret VNone, st1) ->
  create_site self name description target_ip template_id st
  = let payload := Some (site_data name description target_ip template_id) in
    let (x, w) := session_post (sites_url self) payload (world st1) in
    match x with
    | Raise e => (Raise e, after st1 w [EvPost (sites_url self) payload])
    | Ret rp =>
        (Ret VNone,
         after st1 w [EvPost (sites_url self) payload; EvPrint (site_created_line rp)])
    end.
Proof.
  intros Hlookup. unfold create_site, bind at 1. rewrite Hlookup.
  fold (sites_url self). unfold bind at 1. cbn zeta.
  destruct (session_post _ _ (world st1)) as [x w] eqn:Hpost.
  rewrite (post_run _ _ _ _ _ Hpost).
  destruct x as [rp|e]; [|reflexivity].
  unfold site_created_line.
  destruct (status_ok rp);
    unfold bind, print, emit, ret, after; cbn [world events];
    now rewrite <- app_assoc.
Qed.

Lemma create_site_when_found name description target_ip template_id
    (st st1 : state World) id :
  get_site_id self name st = (Ret id, st1) ->
  id <> VNone ->
  create_site self name description target_ip template_id st
  = (Ret VNone,
     after st1 (world st1)
       [EvPrint ("Site already exists, using existing site id: " ++ py_str id)]).
Proof.
  intros Hlookup Hid. unfold create_site, bind at 1. rewrite Hlookup.
  destruct id; try congruence; reflexivity.
Qed.

Lemma create_site_when_raises name description target_ip template_id
    (st st1 : state World) e :
  get_site_id self name st = (Raise e, st1) ->
  create_site self name description target_ip template_id st = (Raise e, st1).
Proof. intros Hlookup. unfold create_site, bind at 1. now rewrite Hlookup. Qed.

Lemma get_site_id_trace name (st : state World) :
  exists w prints,
    snd (get_site_id self name st) = after st w (EvGet (sites_url self) :: prints) /\
    (prints = [] \/ prints = [EvPrint parse_failed]).
Proof.
  rewrite get_site_id_eq.
  destruct (session_get (sites_url self) (world st)) as [[r|e] w].
  - destruct (status_ok r); [|exists w, []; now split; [|left]].
    unfold lookup_outcome.
    destruct (lookup_site name r) as [found|e].
    + exists w, []; now split; [|left].
    + destruct (exn_is_ValueError e).
      * exists w, [EvPrint parse_failed]. split; [|now right].
        cbn [snd]. unfold after; cbn [world events]. now rewrite <- app_assoc.
      * exists w, []; now split; [|left].
  - exists w, []; now split; [|left].
Qed.

(** X3.  A site is reused when, and only when, the id of the first site of
    that name is not [None].  If that entry has no [id] (or a null one),
    [create_site] sends a creation request although a site of the name is
    listed; if it has any other id, [0] and the empty string included, no
    creation request is sent.  ([create_report] differs: see C9.) *)
Theorem create_site_reuses_unless_id_is_none :
  forall name description target_ip template_id (st : state World)
         r w pre site post id,
    session_get (sites_url self) (world st) = (Ret r, w) ->
    lists r (pre ++ site :: post) ->
    Forall (fun other => site_named name other false) pre ->
    site_named name site true ->
    py_get site "id" VNone = Ret id ->
    (id = VNone ->
     forall rp w',
       session_post (sites_url self)
         (Some (site_data name description target_ip template_id)) w = (Ret rp, w') ->
       create_site self name description target_ip template_id st
       = (Ret VNone,
          after st w' [EvGet (sites_url self);
                       EvPost (sites_url self)
                         (Some (site_data name description target_ip template_id));
                       EvPrint (site_created_line rp)])) /\
    (id <> VNone ->
     create_site self name description target_ip template_id st
     = (Ret VNone,
        after st w [EvGet (sites_url self);
                    EvPrint ("Site already exists, using existing site id: "
                             ++ py_str id)])).
Proof.
  intros name description target_ip template_id st r w pre site post id
         Hget Hlists Hpre Hsite Hid.
  pose proof (get_site_id_listed self name st r w _ (Some id) Hget Hlists
                (find_site_first name pre site post id Hpre Hsite Hid)) as Hlookup.
  cbn [or_none] in Hlookup.
  split.
  - intros -> rp w' Hpost.
    rewrite (create_site_when_none _ _ _ _ _ _ Hlookup). cbn zeta.
    cbn [world after]. rewrite Hpost.
    unfold after; cbn [world events]. now rewrite <- app_assoc.
  - intros Hsome.
    rewrite (create_site_when_found _ _ _ _ _ _ _ Hlookup Hsome).
    unfold after; cbn [world events]. now rewrite <- app_assoc.
Qed.

(** X4.  A lookup that failed is taken for "no such site".  When the
    listing request is answered with a status outside 200, 201, 202, or
    with a 2xx body that is not JSON, [create_site] sends the creation
    request all the same. *)
Theorem create_site_posts_after_failed_lookup :
  forall name description target_ip template_id (st : state World) r w rp w',
    session_get (sites_url self) (world st) = (Ret r, w) ->
    session_post (sites_url self)
      (Some (site_data name description target_ip template_id)) w = (Ret rp, w') ->
    (status_ok r = false ->
     create_site self name description target_ip template_id st
     = (Ret VNone,
        after st w' [EvGet (sites_url self);
                     EvPost (sites_url self)
                       (Some (site_data name description target_ip template_id));
                     EvPrint (site_created_line rp)])) /\
    (malformed r ->
     create_site self name description target_ip template_id st
     = (Ret VNone,
        after st w' [EvGet (sites_url self);
                     EvPrint parse_failed;
                     EvPost (sites_url self)
                       (Some (site_data name description target_ip template_id));
                     EvPrint (site_created_line rp)])).
Proof.
  intros name description target_ip template_id st r w rp w' Hget Hpost.
  split.
  - intros Hko.
    assert (get_site_id self name st = (Ret VNone, after st w [EvGet (sites_url self)]))
      as Hlookup by now rewrite get_site_id_eq, Hget, Hko.
    rewrite (create_site_when_none _ _ _ _ _ _ Hlookup). cbn zeta.
    cbn [world after]. rewrite Hpost.
    unfold after; cbn [world events]. now rewrite <- app_assoc.
  - intros Hbad.
    pose proof (get_site_id_malformed self name st r w Hget Hbad) as Hlookup.
    rewrite (create_site_when_none _ _ _ _ _ _ Hlookup). cbn zeta.
    cbn [world after]. rewrite Hpost.
    unfold after; cbn [world events]. now rewrite <- app_assoc.
Qed.

(** X5.  Whatever the service answers, [create_site] makes one listing
    request first, then at most one creation request and no other request,
    and when it returns, it returns [None]: the id of the site never comes
    back from it. *)
Theorem create_site_footprint :
  forall name description target_ip template_id (st : state World),
  exists w new,
    snd (create_site self name description target_ip template_id st)
    = after st w (EvGet (sites_url self) :: new) /\
    (count_posts new <= 1)%nat /\
    count_gets new = O /\
    forall v,
      fst (create_site self name description target_ip template_id st) = Ret v ->
      v = VNone.
Proof.
  intros name description target_ip template_id st.
  destruct (get_site_id_trace name st) as [w [prints [Htrace Hprints]]].
  destruct (get_site_id self name st) as [[id|e] st1] eqn:Hlookup; cbn [snd] in Htrace.
  - assert (id = VNone \/ id <> VNone) as [-> | Hsome]
        by (destruct id; (now left) || (right; discriminate)).
    + rewrite (create_site_when_none _ _ _ _ _ _ Hlookup). cbn zeta.
      destruct (session_post _ _ (world st1)) as [[rp|e] w'];
        (exists w'; eexists; split;
         [cbn [snd]; rewrite Htrace, after_after; reflexivity|]);
        (destruct Hprints as [-> | ->]; cbn; repeat split; auto; congruence).
    + rewrite (create_site_when_found _ _ _ _ _ _ _ Hlookup Hsome).
      exists w; eexists; split;
        [cbn [snd]; rewrite Htrace; cbn [world after]; rewrite after_after; reflexivity|].
      destruct Hprints as [-> | ->]; cbn; repeat split; auto; congruence.
  - rewrite (create_site_when_raises _ _ _ _ _ _ _ Hlookup).
    exists w, prints. split; [exact Htrace|].
    destruct Hprints as [-> | ->]; cbn; repeat split; auto; discriminate.
Qed.
End CreateSite.

(** ** Starting a scan and finding its id *)

Section LastScanShape.
Context {World : Type} {P : Platform World}.
Variable self : NexposeSession.

Lemma get_last_scan_id_eq (st : state World) :
  get_last_scan_id self st
  = let (x, w1) := session_get (scans_url self) (world st) in
    match x with
    | Raise e => (Raise e, after st w1 [EvGet (scans_url self)])
    | Ret r1 =>
        if status_ok r1 then
          match last_page_target self r1 with
          | Raise e => lookup_outcome (Raise e) (after st w1 [EvGet (scans_url self)])
          | Ret target =>
              let (y, w2) := session_get target w1 in
              let st2 := after st w2 [EvGet (scans_url self); EvGet target] in
              match y with
              | Raise e => lookup_outcome (Raise e) st2
              | Ret r2 =>
                  if status_ok r2
                  then lookup_outcome (last_listed_id r2) st2
                  else (Ret VNone, st2)
              end
          end
        else (Ret VNone, after st w1 [EvGet (scans_url self)])
    end.
Proof.
  unfold get_last_scan_id, bind at 1. fold (scans_url self).
  destruct (session_get (scans_url self) (world st)) as [x w1] eqn:Hget1.
  rewrite (get_run _ _ _ _ Hget1).
  destruct x as [r1|e]; [|reflexivity].
  destruct (status_ok r1); [|reflexivity].
  unfold last_page_target, lookup_outcome.
  unfold bind at 1, try_except_ValueError.
  unfold bind at 1, lift at 1.
  destruct (response_json r1) as [body1|e]; [|destruct e; reflexivity].
  unfold bind at 1, lift at 1. cbn [rbind].
  destruct (py_get body1 "links" (VList [])) as [links|e]; [|destruct e; reflexivity].
  unfold bind at 1, lift at 1. cbn [rbind].
  destruct (py_iter links) as [items|e]; [|destruct e; reflexivity].
  cbn [rbind].
  destruct (first_last_href items) as [url|e]; [|destruct e; reflexivity].
  cbn [rbind].
  set (target := match url with VNone => scans_url self | _ => url end).
  assert (match url with
          | VNone => get (scans_url self)
          | _ => get url
          end = get target) as -> by (subst target; now destruct url).
  unfold bind at 1.
  destruct (session_get target w1) as [y w2] eqn:Hget2.
  rewrite (get_run target (after st w1 [EvGet (scans_url self)]) y w2 Hget2), after_after.
  cbn [app].
  destruct y as [r2|e]; [|destruct e; reflexivity].
  destruct (status_ok r2); [|reflexivity].
  unfold last_listed_id, bind, lift, ret.
  destruct (response_json r2) as [body2|e]; [|destruct e; reflexivity].
  cbn [rbind].
  destruct (py_get body2 "resources" (VList [])) as [resources|e];
    [|destruct e; reflexivity].
  cbn [rbind].
  destruct (truthy resources); [|reflexivity].
  destruct (py_last resources) as [last|e]; [|destruct e; reflexivity].
  cbn [rbind].
  destruct (py_get last "id" VNone) as [id|e]; [|destruct e; reflexivity].
  reflexivity.
Qed.

Lemma start_scan_eq site_id (st : state World) :
  start_scan self site_id st
  = let (x, w) := session_post (start_scan_url self site_id) None (world st) in
    match x with
    | Raise e => (Raise e, after st w [EvPost (start_scan_url self site_id) None])
    | Ret r =>
        if status_ok r
        then get_last_scan_id self
               (after st w [EvPost (start_scan_url self site_id) None;
                            EvPrint "Scan started successfully"])
        else (Ret VNone,
              after st w [EvPost (start_scan_url self site_id) None;
                          EvPrint "Scan didnt start"])
    end.
Proof.
  unfold start_scan, bind at 1. fold (start_scan_url self site_id).
  destruct (session_post _ None (world st)) as [x w] eqn:Hpost.
  rewrite (post_run _ _ _ _ _ Hpost).
  destruct x as [r|e]; [|reflexivity].
  destruct (status_ok r);
    unfold bind, print, emit, ret, after; cbn [world events];
    now rewrite <- app_assoc.
Qed.
End LastScanShape.

Section LastScanEdges.
Context {World : Type} {P : Platform World}.
Variable self : NexposeSession.

Lemma py_getitem_raises obj key e :
  py_getitem obj key = Raise e -> exn_is_ValueError e = false.
Proof.
  destruct obj; cbn; try (now intros [= <-]).
  destruct (dict_lookup key items); [discriminate|now intros [= <-]].
Qed.

Lemma first_last_href_stops_at pre bad post e :
  Forall (fun l => link_rel_last l false) pre ->
  py_getitem bad "rel" = Raise e \/
  (link_rel_last bad true /\ py_getitem bad "href" = Raise e) ->
  first_last_href (pre ++ bad :: post) = Raise e.
Proof.
  intros Hpre Hbad.
  induction Hpre as [|l rest [m [Hm Hneq]] _ IH]; cbn.
  - destruct Hbad as [Hrel | [[rel [Hrel Hlast]] Hhref]].
    + now rewrite Hrel.
    + now rewrite Hrel; cbn; rewrite Hlast.
  - now rewrite Hm; cbn; rewrite Hneq.
Qed.

Lemma last_page_target_of_links r body links items :
  json_body r = Some body ->
  py_get body "links" (VList []) = Ret links ->
  py_iter links = Ret items ->
  last_page_target self r
  = rbind (first_last_href items)
      (fun url => Ret (match url with VNone => scans_url self | _ => url end)).
Proof.
  intros Hbody Hlinks Hiter.
  unfold last_page_target, response_json.
  now rewrite Hbody; cbn; rewrite Hlinks; cbn; rewrite Hiter.
Qed.

(** X6.  [get_last_scan_id] returns [None], and raises nothing, when the
    first answer has a failure status or a body that is not JSON, when the
    answer to the second request has a failure status or a body that is not
    JSON, and when the page it gets has no [resources] or an empty one.  A
    failure status prints nothing; a body that is not JSON prints the parse
    message. *)
Theorem last_scan_id_is_none_on_failure :
  forall (st : state World) r1 w1,
    session_get (scans_url self) (world st) = (Ret r1, w1) ->
    (status_ok r1 = false ->
     get_last_scan_id self st = (Ret VNone, after st w1 [EvGet (scans_url self)])) /\
    (malformed r1 ->
     get_last_scan_id self st
     = (Ret VNone, after st w1 [EvGet (scans_url self); EvPrint parse_failed])) /\
    (forall target r2 w2,
        status_ok r1 = true ->
        last_page_target self r1 = Ret target ->
        session_get target w1 = (Ret r2, w2) ->
        (status_ok r2 = false ->
         get_last_scan_id self st
         = (Ret VNone, after st w2 [EvGet (scans_url self); EvGet target])) /\
        (malformed r2 ->
         get_last_scan_id self st
         = (Ret VNone,
            after st w2 [EvGet (scans_url self); EvGet target; EvPrint parse_failed])) /\
        (forall body resources,
            status_ok r2 = true ->
            json_body r2 = Some body ->
            py_get body "resources" (VList []) = Ret resources ->
            truthy resources = false ->
            get_last_scan_id self st
            = (Ret VNone, after st w2 [EvGet (scans_url self); EvGet target]))).
Proof.
  intros st r1 w1 Hget1. rewrite get_last_scan_id_eq, Hget1.
  split; [|split].
  - now intros ->.
  - intros [Hok Hbody]. rewrite Hok.
    unfold last_page_target, response_json. rewrite Hbody. cbn.
    unfold after; cbn. now rewrite <- app_assoc.
  - intros target r2 w2 Hok1 Htarget Hget2. rewrite Hok1, Htarget, Hget2. cbn zeta.
    split; [|split].
    + now intros ->.
    + intros [Hok Hbody]. rewrite Hok.
      unfold last_listed_id, response_json. rewrite Hbody. cbn.
      unfold after; cbn. now rewrite <- app_assoc.
    + intros body resources Hok Hbody Hres Hfalsy. rewrite Hok.
      unfold last_listed_id, response_json. rewrite Hbody. cbn [rbind].
      rewrite Hres. cbn [rbind]. rewrite Hfalsy. reflexivity.
Qed.

(** X7.  A link with relation ["last"] whose [href] is null counts as no
    link at all: the second request goes to the scan listing again, and
    the id returned is that of the last entry of the answer to it. *)
Theorem last_scan_id_null_href_rereads_listing :
  forall (st : state World) r1 w1 body1 links pre link post
         r2 w2 body2 earlier last id,
    session_get (scans_url self) (world st) = (Ret r1, w1) ->
    status_ok r1 = true ->
    json_body r1 = Some body1 ->
    py_get body1 "links" (VList []) = Ret links ->
    py_iter links = Ret (pre ++ link :: post) ->
    Forall (fun l => link_rel_last l false) pre ->
    link_rel_last link true ->
    py_getitem link "href" = Ret VNone ->
    session_get (scans_url self) w1 = (Ret r2, w2) ->
    status_ok r2 = true ->
    json_body r2 = Some body2 ->
    py_get body2 "resources" (VList []) = Ret (VList (earlier ++ [last])) ->
    py_get last "id" VNone = Ret id ->
    get_last_scan_id self st
    = (Ret id, after st w2 [EvGet (scans_url self); EvGet (scans_url self)]).
Proof.
  intros st r1 w1 body1 links pre link post r2 w2 body2 earlier last id
         Hget1 Hok1 Hbody1 Hlinks Hiter Hpre Hlast Hhref Hget2 Hok2 Hbody2 Hres Hid.
  exact (get_last_scan_id_run self st r1 w1 body1 links _ VNone r2 w2 body2 earlier last id
           Hget1 Hok1 Hbody1 Hlinks Hiter
           (first_last_href_found pre link post VNone Hpre Hlast Hhref)
           Hget2 Hok2 Hbody2 Hres Hid).
Qed.

(** X8.  A link that cannot be read, met before any link with relation
    ["last"], ends [get_last_scan_id] with an exception after the first
    request: KeyError for a link without [rel] (or a ["last"] link without
    [href]), TypeError for a link that is not an object.  These are not
    caught: only ValueError is. *)
Theorem last_scan_id_raises_on_unreadable_link :
  forall (st : state World) r1 w1 body1 links pre bad post e,
    session_get (scans_url self) (world st) = (Ret r1, w1) ->
    status_ok r1 = true ->
    json_body r1 = Some body1 ->
    py_get body1 "links" (VList []) = Ret links ->
    py_iter links = Ret (pre ++ bad :: post) ->
    Forall (fun l => link_rel_last l false) pre ->
    py_getitem bad "rel" = Raise e \/
    (link_rel_last bad true /\ py_getitem bad "href" = Raise e) ->
    (e = KeyError \/ e = TypeError) /\
    get_last_scan_id self st = (Raise e, after st w1 [EvGet (scans_url self)]).
Proof.
  intros st r1 w1 body1 links pre bad post e Hget1 Hok1 Hbody1 Hlinks Hiter Hpre Hbad.
  assert (exn_is_ValueError e = false) as Hnot
      by (destruct Hbad as [H | [_ H]]; exact (py_getitem_raises _ _ _ H)).
  split.
  - destruct Hbad as [H | [_ H]];
      (destruct bad; cbn in H; try (injection H as <-; now right);
       destruct (dict_lookup _ items); [discriminate|injection H as <-; now left]).
  - rewrite get_last_scan_id_eq, Hget1, Hok1.
    rewrite (last_page_target_of_links r1 body1 links _ Hbody1 Hlinks Hiter).
    rewrite (first_last_href_stops_at pre bad post e Hpre Hbad). cbn [rbind].
    unfold lookup_outcome. now rewrite Hnot.
Qed.

(** X9.  The second request is made inside the [try], the first outside
    it.  A ValueError raised by the transport on the second request (as for
    an [href] that is no URL) is caught: the parse message is printed and
    [None] returned.  Any other exception there, and any exception at all on
    the first request, leaves [get_last_scan_id]. *)
Theorem last_scan_id_catches_second_request_only :
  forall (st : state World),
    (forall e w1,
        session_get (scans_url self) (world st) = (Raise e, w1) ->
        get_last_scan_id self st = (Raise e, after st w1 [EvGet (scans_url self)])) /\
    (forall r1 w1 target e w2,
        session_get (scans_url self) (world st) = (Ret r1, w1) ->
        status_ok r1 = true ->
        last_page_target self r1 = Ret target ->
        session_get target w1 = (Raise e, w2) ->
        get_last_scan_id self st
        = if exn_is_ValueError e
          then (Ret VNone,
                after st w2 [EvGet (scans_url self); EvGet target; EvPrint parse_failed])
          else (Raise e, after st w2 [EvGet (scans_url self); EvGet target])).
Proof.
  intros st. split.
  - intros e w1 Hget1. now rewrite get_last_scan_id_eq, Hget1.
  - intros r1 w1 target e w2 Hget1 Hok1 Htarget Hget2.
    rewrite get_last_scan_id_eq, Hget1, Hok1, Htarget, Hget2. cbn zeta.
    unfold lookup_outcome. destruct (exn_is_ValueError e); [|reflexivity].
    unfold after; cbn. now rewrite <- app_assoc.
Qed.

(** X10.  A scan that starts is identified by the listing alone.  When the
    request that starts the scan is answered 2xx, [start_scan] returns what
    [get_last_scan_id] finds next: with a listing whose last page ends in
    an entry with id [id], it returns [id] after three requests, the POST
    without a payload and the two GETs; the site the scan was started on
    plays no part in the choice. *)
Theorem start_scan_returns_last_listed :
  forall site_id (st : state World) r0 w0
         r1 w1 body1 links items url r2 w2 body2 earlier last id,
    session_post (start_scan_url self site_id) None (world st) = (Ret r0, w0) ->
    status_ok r0 = true ->
    session_get (scans_url self) w0 = (Ret r1, w1) ->
    status_ok r1 = true ->
    json_body r1 = Some body1 ->
    py_get body1 "links" (VList []) = Ret links ->
    py_iter links = Ret items ->
    first_last_href items = Ret url ->
    session_get (match url with VNone => scans_url self | _ => url end) w1 = (Ret r2, w2) ->
    status_ok r2 = true ->
    json_body r2 = Some body2 ->
    py_get body2 "resources" (VList []) = Ret (VList (earlier ++ [last])) ->
    py_get last "id" VNone = Ret id ->
    start_scan self site_id st
    = (Ret id,
       after st w2 [EvPost (start_scan_url self site_id) None;
                    EvPrint "Scan started successfully";
                    EvGet (scans_url self);
                    EvGet (match url with VNone => scans_url self | _ => url end)]).
Proof.
  intros site_id st r0 w0 r1 w1 body1 links items url r2 w2 body2 earlier last id
         Hpost Hok0 Hget1 Hok1 Hbody1 Hlinks Hiter Hhref Hget2 Hok2 Hbody2 Hres Hid.
  rewrite start_scan_eq, Hpost, Hok0.
  rewrite (get_last_scan_id_run self
             (after st w0 [EvPost (start_scan_url self site_id) None;
                           EvPrint "Scan started successfully"])
             r1 w1 body1 links items url r2 w2 body2
             earlier last id Hget1 Hok1 Hbody1 Hlinks Hiter Hhref Hget2 Hok2 Hbody2 Hres Hid).
  now rewrite after_after.
Qed.
End LastScanEdges.

(** ** Report configurations and their generation *)

Section ReportShape.
Context {World : Type} {P : Platform World}.
Variable self : NexposeSession.

Lemma create_report_config_eq site_id scan_id name file_format template (st : state World) :
  create_report_config self site_id scan_id name file_format template st
  = let payload := Some (report_data site_id scan_id name file_format template) in
    let (x, w) := session_post (reports_url self) payload (world st) in
    match x with
    | Raise e => (Raise e, after st w [EvPost (reports_url self) payload])
    | Ret rp =>
        if status_ok rp then
          match rbind (response_json rp) (fun body => py_get body "id" VNone) with
          | Ret id =>
              (Ret id,
               after st w [EvPost (reports_url self) payload;
                           EvPrint (report_created_line id)])
          | Raise e => (Raise e, after st w [EvPost (reports_url self) payload])
          end
        else
          (Ret VNone,
           after st w [EvPost (reports_url self) payload;
                       EvPrint "Failed to create report configuration"])
    end.
Proof.
  unfold create_report_config, bind at 1. fold (reports_url self). cbn zeta.
  destruct (session_post _ _ (world st)) as [x w] eqn:Hpost.
  rewrite (post_run _ _ _ _ _ Hpost).
  destruct x as [rp|e]; [|reflexivity].
  destruct (status_ok rp).
  - unfold bind, lift, print, emit, ret, after, report_created_line.
    destruct (response_json rp) as [body|e]; [|reflexivity]. cbn [rbind].
    destruct (py_get body "id" VNone) as [id|e]; [|reflexivity].
    cbn [world events]. now rewrite <- app_assoc.
  - unfold bind, print, emit, ret, after. cbn [world events]. now rewrite <- app_assoc.
Qed.

Lemma create_report_eq site_id scan_id name file_format template (st : state World) :
  create_report self site_id scan_id name file_format template st
  = let (x, st1) := get_existing_report self site_id st in
    match x with
    | Raise e => (Raise e, st1)
    | Ret report_id =>
        if truthy report_id
        then (Ret report_id, after st1 (world st1) [EvPrint "Using existing report"])
        else create_report_config self site_id scan_id name file_format template st1
    end.
Proof.
  unfold create_report, bind at 1.
  destruct (get_existing_report self site_id st) as [[report_id|e] st1]; [|reflexivity].
  now destruct (truthy report_id).
Qed.

Lemma start_report_generation_eq report_id (st : state World) :
  start_report_generation self report_id st
  = let (x, w) := session_post (generate_report_url self report_id) None (world st) in
    match x with
    | Raise e => (Raise e, after st w [EvPost (generate_report_url self report_id) None])
    | Ret r =>
        (Ret VNone,
         after st w [EvPost (generate_report_url self report_id) None;
                     EvPrint (generation_line r)])
    end.
Proof.
  unfold start_report_generation, bind at 1. fold (generate_report_url self report_id).
  destruct (session_post _ None (world st)) as [x w] eqn:Hpost.
  rewrite (post_run _ _ _ _ _ Hpost).
  destruct x as [r|e]; [|reflexivity].
  unfold generation_line.
  destruct (status_ok r);
    unfold bind, print, emit, ret, after; cbn [world events];
    now rewrite <- app_assoc.
Qed.

Lemma get_existing_report_trace site_id (st : state World) :
  exists w prints,
    snd (get_existing_report self site_id st)
    = after st w (EvGet (reports_url self) :: prints) /\
    (prints = [] \/ prints = [EvPrint parse_failed]).
Proof.
  rewrite get_existing_report_eq.
  destruct (session_get (reports_url self) (world st)) as [[r|e] w].
  - destruct (status_ok r); [|exists w, []; now split; [|left]].
    unfold lookup_outcome.
    destruct (lookup_report site_id r) as [found|e].
    + exists w, []; now split; [|left].
    + destruct (exn_is_ValueError e).
      * exists w, [EvPrint parse_failed]. split; [|now right].
        cbn [snd]. unfold after; cbn [world events]. now rewrite <- app_assoc.
      * exists w, []; now split; [|left].
  - exists w, []; now split; [|left].
Qed.

(** X11.  A request that creates or starts something and is answered with
    a status outside 200, 201, 202 ends the call: [None] is returned, the
    failure is printed, the body of the answer is not read, and no further
    request is made.  This holds of the creation request of [create_site]
    and of [create_report] (after a lookup that found nothing to reuse), of
    [start_scan] and of [start_report_generation]. *)
Theorem failed_creation_ends_the_call :
  (forall name description target_ip template_id (st st1 : state World) rp w,
      get_site_id self name st = (Ret VNone, st1) ->
      session_post (sites_url self)
        (Some (site_data name description target_ip template_id)) (world st1)
      = (Ret rp, w) ->
      status_ok rp = false ->
      create_site self name description target_ip template_id st
      = (Ret VNone,
         after st1 w [EvPost (sites_url self)
                        (Some (site_data name description target_ip template_id));
                      EvPrint "Failed to create site"])) /\
  (forall site_id (st : state World) r w,
      session_post (start_scan_url self site_id) None (world st) = (Ret r, w) ->
      status_ok r = false ->
      start_scan self site_id st
      = (Ret VNone,
         after st w [EvPost (start_scan_url self site_id) None;
                     EvPrint "Scan didnt start"])) /\
  (forall site_id scan_id name file_format template (st st1 : state World)
          found rp w,
      get_existing_report self site_id st = (Ret found, st1) ->
      truthy found = false ->
      session_post (reports_url self)
        (Some (report_data site_id scan_id name file_format template)) (world st1)
      = (Ret rp, w) ->
      status_ok rp = false ->
      create_report self site_id scan_id name file_format template st
      = (Ret VNone,
         after st1 w [EvPost (reports_url self)
                        (Some (report_data site_id scan_id name file_format template));
                      EvPrint "Failed to create report configuration"])) /\
  (forall report_id (st : state World) r w,
      session_post (generate_report_url self report_id) None (world st) = (Ret r, w) ->
      status_ok r = false ->
      start_report_generation self report_id st
      = (Ret VNone,
         after st w [EvPost (generate_report_url self report_id) None;
                     EvPrint ("Failed to start report generation. Status code: "
                              ++ py_str (VInt (status_code r)))])).
Proof.
  split; [|split; [|split]].
  - intros name description target_ip template_id st st1 rp w Hlookup Hpost Hko.
    rewrite (create_site_when_none self _ _ _ _ _ _ Hlookup). cbn zeta.
    rewrite Hpost. unfold site_created_line. now rewrite Hko.
  - intros site_id st r w Hpost Hko.
    now rewrite start_scan_eq, Hpost, Hko.
  - intros site_id scan_id name file_format template st st1 found rp w
           Hlookup Hfalsy Hpost Hko.
    rewrite create_report_eq, Hlookup, Hfalsy, create_report_config_eq. cbn zeta.
    now rewrite Hpost, Hko.
  - intros report_id st r w Hpost Hko.
    rewrite start_report_generation_eq, Hpost. unfold generation_line. now rewrite Hko.
Qed.

(** X12.  The answer to the creation request of [create_report] is read
    without a [try].  When it is 2xx, a body that is not JSON makes
    [create_report] raise ValueError, a JSON body that is not an object
    makes it raise AttributeError, and an object without [id] makes it
    return [None] although the configuration was created. *)
Theorem create_report_reads_creation_answer_unguarded :
  forall site_id scan_id name file_format template (st st1 : state World) found rp w,
    get_existing_report self site_id st = (Ret found, st1) ->
    truthy found = false ->
    session_post (reports_url self)
      (Some (report_data site_id scan_id name file_format template)) (world st1)
    = (Ret rp, w) ->
    status_ok rp = true ->
    (json_body rp = None ->
     create_report self site_id scan_id name file_format template st
     = (Raise ValueError,
        after st1 w [EvPost (reports_url self)
                       (Some (report_data site_id scan_id name file_format template))])) /\
    (forall body,
        json_body rp = Some body ->
        (forall d, body <> VDict d) ->
        create_report self site_id scan_id name file_format template st
        = (Raise AttributeError,
           after st1 w [EvPost (reports_url self)
                          (Some (report_data site_id scan_id name file_format template))])) /\
    (forall d,
        json_body rp = Some (VDict d) ->
        dict_lookup "id" d = None ->
        create_report self site_id scan_id name file_format template st
        = (Ret VNone,
           after st1 w [EvPost (reports_url self)
                          (Some (report_data site_id scan_id name file_format template));
                        EvPrint (report_created_line VNone)])).
Proof.
  intros site_id scan_id name file_format template st st1 found rp w
         Hlookup Hfalsy Hpost Hok.
  rewrite create_report_eq, Hlookup, Hfalsy, create_report_config_eq. cbn zeta.
  rewrite Hpost, Hok. unfold response_json.
  split; [|split].
  - now intros ->.
  - intros body -> Hbody. cbn [rbind].
    destruct body; try reflexivity. now destruct (Hbody items).
  - intros d -> Hid. cbn [rbind py_get]. now rewrite Hid.
Qed.

(** X13.  Whatever the service answers, [create_report] makes one listing
    request first, then at most one creation request and no other request;
    [start_report_generation] makes its one request and nothing else, and
    when it returns it returns [None] for a success as for a failure. *)
Theorem report_requests_footprint :
  (forall site_id scan_id name file_format template (st : state World),
    exists w new,
      snd (create_report self site_id scan_id name file_format template st)
      = after st w (EvGet (reports_url self) :: new) /\
      (count_posts new <= 1)%nat /\
      count_gets new = O) /\
  (forall report_id (st : state World),
    exists w new,
      snd (start_report_generation self report_id st)
      = after st w (EvPost (generate_report_url self report_id) None :: new) /\
      count_posts new = O /\
      count_gets new = O /\
      forall v, fst (start_report_generation self report_id st) = Ret v -> v = VNone).
Proof.
  split.
  - intros site_id scan_id name file_format template st.
    destruct (get_existing_report_trace site_id st) as [w [prints [Htrace Hprints]]].
    rewrite create_report_eq.
    destruct (get_existing_report self site_id st) as [[found|e] st1];
      cbn [snd] in Htrace.
    + destruct (truthy found).
      * exists w; eexists; split;
          [cbn [snd]; rewrite Htrace; cbn [world after]; rewrite after_after; reflexivity|].
        destruct Hprints as [-> | ->]; cbn; auto.
      * rewrite create_report_config_eq. cbn zeta.
        destruct (session_post _ _ (world st1)) as [[rp|e] w'].
        -- destruct (status_ok rp);
             [destruct (rbind _ _)|];
             (exists w'; eexists; split;
              [cbn [snd]; rewrite Htrace, after_after; reflexivity|]);
             (destruct Hprints as [-> | ->]; cbn; auto).
        -- exists w'; eexists; split;
             [cbn [snd]; rewrite Htrace, after_after; reflexivity|].
           destruct Hprints as [-> | ->]; cbn; auto.
    + exists w, prints. split; [exact Htrace|].
      destruct Hprints as [-> | ->]; cbn; auto.
  - intros report_id st. rewrite start_report_generation_eq.
    destruct (session_post _ None (world st)) as [[r|e] w].
    + exists w; eexists; split; [reflexivity|].
      cbn. repeat split; auto. congruence.
    + exists w, []. split; [reflexivity|].
      cbn. repeat split; auto. discriminate.
Qed.
End ReportShape.

(** ** The two waits: exceptions and sleep *)

Section Timing.
Context {World : Type} {P : Platform World}.

Lemma slept_app es new : slept (es ++ new) = slept es + slept new.
Proof.
  unfold slept. induction es as [|e es IH]; cbn [app fold_right]; [reflexivity|].
  destruct e; rewrite ?IH; lia.
Qed.

Lemma slept_after (st : state World) w new :
  slept (events (after st w new)) = slept (events st) + slept new.
Proof. unfold after; cbn [events]. apply slept_app. Qed.

Lemma polls_split_any url pre x (w : World) :
  polls url (S (List.length pre)) w = map Ret pre ++ [x] ->
  match pre with
  | [] => exists w', session_get url w = (x, w')
  | first :: rest =>
      exists w', session_get url w = (Ret first, w') /\
                 polls url (S (List.length rest)) w' = map Ret rest ++ [x]
  end.
Proof.
  destruct pre as [|first rest]; cbn [List.length polls map app].
  - destruct (session_get url w) as [y w']; intros E.
    injection E as ->. now exists w'.
  - destruct (session_get url w) as [y w']; intros E.
    injection E as -> E. exists w'. split; [reflexivity|].
    cbn [polls]. exact E.
Qed.

Lemma scan_poll_absorbed_timed url (st : state World) r w :
  session_get url (world st) = (Ret r, w) ->
  well_formed r = true ->
  scan_terminal r = false ->
  exists new,
    count_gets new = 1%nat /\ slept new = 150 /\
    forall n,
      wait_for_scan_completion_loop (S n) url st
      = wait_for_scan_completion_loop n url (after st w new).
Proof.
  intros Hget Hwf Hnt.
  unfold well_formed in Hwf. unfold scan_terminal, body_field in Hnt.
  destruct (status_ok r) eqn:Hok; cbn [andb negb orb] in Hwf, Hnt.
  - destruct (json_body r) as [[| | | | |d]|] eqn:Hbody; cbn [andb] in Hwf, Hnt;
      try discriminate.
    + eexists; split; [|split; [|intros n; rewrite (scan_loop_step _ _ _ _ _ Hget), Hok, Hbody;
                         cbn zeta; rewrite Hnt; reflexivity]]; reflexivity.
    + eexists; split; [|split; [|intros n; rewrite (scan_loop_step _ _ _ _ _ Hget), Hok, Hbody;
                         reflexivity]]; reflexivity.
  - eexists; split; [|split; [|intros n; rewrite (scan_loop_step _ _ _ _ _ Hget), Hok;
                       reflexivity]]; reflexivity.
Qed.

Lemma scan_poll_returns_timed url (st : state World) r w :
  session_get url (world st) = (Ret r, w) ->
  scan_terminal r = true ->
  exists new,
    count_gets new = 1%nat /\ slept new = 0 /\
    forall n,
      wait_for_scan_completion_loop (S n) url st = (Ret (Some VNone), after st w new).
Proof.
  intros Hget Ht.
  unfold scan_terminal, body_field in Ht.
  destruct (status_ok r) eqn:Hok; [cbn [andb] in Ht|discriminate].
  destruct (json_body r) as [[| | | | |d]|] eqn:Hbody; cbn [andb] in Ht; try discriminate.
  eexists; split; [|split; [|intros n; rewrite (scan_loop_step _ _ _ _ _ Hget), Hok, Hbody;
                     cbn zeta; rewrite Ht; reflexivity]]; reflexivity.
Qed.

Lemma report_loop_raise url (st : state World) e w n :
  session_get url (world st) = (Raise e, w) ->
  wait_for_report_completion_loop (S n) url st = (Raise e, after st w [EvGet url]).
Proof.
  intros Hget.
  cbn [wait_for_report_completion_loop]. unfold bind at 1.
  now rewrite (get_run _ _ _ _ Hget).
Qed.

Lemma report_poll_absorbed_timed url (st : state World) r w :
  session_get url (world st) = (Ret r, w) ->
  well_formed r = true ->
  report_terminal r = false ->
  exists new,
    count_gets new = 1%nat /\ slept new = 30 /\
    forall n,
      wait_for_report_completion_loop (S n) url st
      = wait_for_report_completion_loop n url (after st w new).
Proof.
  intros Hget Hwf Hnt.
  unfold well_formed in Hwf. unfold report_terminal, body_field in Hnt.
  destruct (status_ok r) eqn:Hok; cbn [andb negb orb] in Hwf, Hnt.
  - destruct (json_body r) as [[| | | | |d]|] eqn:Hbody; cbn [andb] in Hwf, Hnt;
      try discriminate.
    + eexists; split; [|split; [|intros n; rewrite (report_loop_step _ _ _ _ _ Hget), Hok, Hbody;
                         cbn zeta; rewrite Hnt; reflexivity]]; reflexivity.
    + eexists; split; [|split; [|intros n; rewrite (report_loop_step _ _ _ _ _ Hget), Hok, Hbody;
                         reflexivity]]; reflexivity.
  - eexists; split; [|split; [|intros n; rewrite (report_loop_step _ _ _ _ _ Hget), Hok;
                       reflexivity]]; reflexivity.
Qed.

Lemma report_poll_returns_timed url (st : state World) r w :
  session_get url (world st) = (Ret r, w) ->
  report_terminal r = true ->
  exists new,
    count_gets new = 1%nat /\ slept new = 0 /\
    forall n,
      wait_for_report_completion_loop (S n) url st
      = (Ret (Some (or_none (body_field r "generated"))), after st w new).
Proof.
  intros Hget Ht.
  unfold report_terminal, body_field in Ht. unfold body_field.
  destruct (status_ok r) eqn:Hok; [cbn [andb] in Ht|discriminate].
  destruct (json_body r) as [[| | | | |d]|] eqn:Hbody; cbn [andb] in Ht; try discriminate.
  eexists; split; [|split; [|intros n; rewrite (report_loop_step _ _ _ _ _ Hget), Hok, Hbody;
                     cbn zeta; rewrite Ht; reflexivity]]; reflexivity.
Qed.

Lemma report_poll_no_return url (st : state World) x w n :
  session_get url (world st) = (x, w) ->
  (forall r, x = Ret r -> report_terminal r = false) ->
  (exists e st', wait_for_report_completion_loop (S n) url st = (Raise e, st')) \/
  (exists new,
      wait_for_report_completion_loop (S n) url st
      = wait_for_report_completion_loop n url (after st w new)).
Proof.
  intros Hget Hnt.
  destruct x as [r|e]; [|left; rewrite (report_loop_raise _ _ _ _ _ Hget); now eauto].
  specialize (Hnt r eq_refl). unfold report_terminal, body_field in Hnt.
  rewrite (report_loop_step _ _ _ _ _ Hget).
  destruct (status_ok r) eqn:Hok; cbn [andb] in Hnt; [|right; now eexists].
  destruct (json_body r) as [[| | | | |d]|] eqn:Hbody; cbn [andb] in Hnt;
    try (left; now eauto); [|right; now eexists].
  cbn zeta. rewrite Hnt. right; now eexists.
Qed.

Lemma report_loop_never_returns url :
  forall fuel (st : state World),
    (forall r, In (Ret r) (polls url fuel (world st)) -> report_terminal r = false) ->
    forall v, fst (wait_for_report_completion_loop fuel url st) <> Ret (Some v).
Proof.
  induction fuel as [|n IH]; intros st Hall v; [cbn; discriminate|].
  cbn [polls] in Hall.
  destruct (session_get url (world st)) as [x w] eqn:Hget.
  destruct (report_poll_no_return url st x w n Hget) as [[e [st' Hraise]]|[new Hrun]].
  - intros r ->. apply Hall. now left.
  - rewrite Hraise. cbn. discriminate.
  - rewrite Hrun. apply IH. intros r Hr. apply Hall. now right.
Qed.
End Timing.

(** What holds of a loop that sleeps [delay] after each poll it takes in,
    returns on a terminal poll without sleeping and lets an exception of
    the transport through. *)
Section TimedLoop.
Context {World : Type} {P : Platform World}.
Variable loop : nat -> value -> M World (option value).
Variable terminal : response -> bool.
Variable payload : response -> value.
Variable delay : Z.

Hypothesis loop_absorbs : forall url (st : state World) r w,
  session_get url (world st) = (Ret r, w) ->
  well_formed r = true ->
  terminal r = false ->
  exists new,
    count_gets new = 1%nat /\ slept new = delay /\
    forall n, loop (S n) url st = loop n url (after st w new).

Hypothesis loop_returns : forall url (st : state World) r w,
  session_get url (world st) = (Ret r, w) ->
  terminal r = true ->
  exists new,
    count_gets new = 1%nat /\ slept new = 0 /\
    forall n, loop (S n) url st = (Ret (Some (payload r)), after st w new).

Hypothesis loop_raises : forall url (st : state World) e w n,
  session_get url (world st) = (Raise e, w) ->
  loop (S n) url st = (Raise e, after st w [EvGet url]).

Lemma loop_sleeps_between url pre r :
  forall st : state World,
    polls url (S (List.length pre)) (world st) = map Ret pre ++ [Ret r] ->
    Forall (fun x => well_formed x = true /\ terminal x = false) pre ->
    terminal r = true ->
    forall fuel, (List.length pre < fuel)%nat ->
      exists st',
        loop fuel url st = (Ret (Some (payload r)), st') /\
        slept (events st') = slept (events st) + delay * Z.of_nat (List.length pre).
Proof.
  induction pre as [|first rest IH]; intros st Hpolls Hpre Hterm fuel Hfuel;
    apply polls_split_any in Hpolls;
    (destruct fuel as [|n]; [lia|]).
  - destruct Hpolls as [w Hget].
    destruct (loop_returns url st r w Hget Hterm) as [new [_ [Hzero Hrun]]].
    rewrite Hrun. eexists; split; [reflexivity|].
    rewrite slept_after, Hzero. cbn [List.length]. lia.
  - destruct Hpolls as [w [Hget Hrest]].
    inversion Hpre as [|? ? [Hwf Hnt] Hpre']; subst.
    destruct (loop_absorbs url st first w Hget Hwf Hnt) as [new [_ [Hdelay Hrun]]].
    rewrite Hrun.
    destruct (IH (after st w new) Hrest Hpre' Hterm n) as [st' [Hret Hslept]];
      [cbn in Hfuel; lia|].
    exists st'. split; [exact Hret|].
    rewrite Hslept, slept_after, Hdelay. cbn [List.length]. lia.
Qed.

Lemma loop_aborts url pre e :
  forall st : state World,
    polls url (S (List.length pre)) (world st) = map Ret pre ++ [Raise e] ->
    Forall (fun x => well_formed x = true /\ terminal x = false) pre ->
    forall fuel, (List.length pre < fuel)%nat ->
      exists st',
        loop fuel url st = (Raise e, st') /\
        count_gets (events st') = (count_gets (events st) + S (List.length pre))%nat.
Proof.
  induction pre as [|first rest IH]; intros st Hpolls Hpre fuel Hfuel;
    apply polls_split_any in Hpolls;
    (destruct fuel as [|n]; [lia|]).
  - destruct Hpolls as [w Hget].
    rewrite (loop_raises url st e w n Hget). eexists; split; [reflexivity|].
    unfold after; cbn [events]. rewrite count_gets_app. reflexivity.
  - destruct Hpolls as [w [Hget Hrest]].
    inversion Hpre as [|? ? [Hwf Hnt] Hpre']; subst.
    destruct (loop_absorbs url st first w Hget Hwf Hnt) as [new [Hone [_ Hrun]]].
    rewrite Hrun.
    destruct (IH (after st w new) Hrest Hpre' n) as [st' [Hret Hcount]];
      [cbn in Hfuel; lia|].
    exists st'. split; [exact Hret|].
    rewrite Hcount. unfold after; cbn [events]. rewrite count_gets_app, Hone.
    cbn [List.length]. lia.
Qed.
End TimedLoop.

Section WaitEdges.
Context {World : Type} {P : Platform World}.
Variable self : NexposeSession.

(** X14.  The report wait has no way out but the status ["complete"].  If
    none of the first [n] answers to its polls carries it, then
    [wait_for_report_completion] has not returned after any number of
    polls up to [n]; and where these answers are failure statuses, bodies
    that are not JSON, or JSON objects, after [fuel] polls the loop has
    made [fuel] requests and is still running. *)
Theorem report_wait_polls_on :
  forall report_id (st : state World) n,
    (forall r, In (Ret r) (polls (report_history_url self report_id) n (world st)) ->
               report_terminal r = false) ->
    (forall fuel v, (fuel <= n)%nat ->
        fst (wait_for_report_completion fuel self report_id st) <> Ret (Some v)) /\
    ((forall x, In x (polls (report_history_url self report_id) n (world st)) ->
                exists r, x = Ret r /\ well_formed r = true) ->
     forall fuel, (fuel <= n)%nat ->
       exists st',
         wait_for_report_completion fuel self report_id st = (Ret None, st') /\
         count_gets (events st') = (count_gets (events st) + fuel)%nat).
Proof.
  intros report_id st n Hnone. split.
  - intros fuel v Hfuel.
    apply report_loop_never_returns.
    intros r Hr. apply Hnone. eapply polls_prefix; eauto.
  - intros Hwf fuel Hfuel.
    apply (loop_keeps_polling wait_for_report_completion_loop report_terminal
             (fun _ _ => eq_refl) report_poll_absorbed).
    intros x Hx. apply (polls_prefix _ fuel n) in Hx; [|exact Hfuel].
    destruct (Hwf x Hx) as [r [-> Hr]].
    exists r. repeat split; auto.
Qed.

(** X15.  An exception of the transport ends a wait.  When the polls are
    answered by [pre], none terminal and each taken in by the loop, and the
    next request raises [e], both waits raise [e] at that poll, having made
    one request per poll: the loop does not go on to another poll. *)
Theorem wait_aborts_on_transport_exception :
  (forall scan_id (st : state World) pre e,
      polls (scan_url self scan_id) (S (List.length pre)) (world st)
      = map Ret pre ++ [Raise e] ->
      Forall (fun x => well_formed x = true /\ scan_terminal x = false) pre ->
      forall fuel, (List.length pre < fuel)%nat ->
        exists st',
          wait_for_scan_completion fuel self scan_id st = (Raise e, st') /\
          count_gets (events st')
          = (count_gets (events st) + S (List.length pre))%nat) /\
  (forall report_id (st : state World) pre e,
      polls (report_history_url self report_id) (S (List.length pre)) (world st)
      = map Ret pre ++ [Raise e] ->
      Forall (fun x => well_formed x = true /\ report_terminal x = false) pre ->
      forall fuel, (List.length pre < fuel)%nat ->
        exists st',
          wait_for_report_completion fuel self report_id st = (Raise e, st') /\
          count_gets (events st')
          = (count_gets (events st) + S (List.length pre))%nat).
Proof.
  split.
  - intros scan_id st pre e Hpolls Hpre fuel Hfuel.
    exact (loop_aborts wait_for_scan_completion_loop scan_terminal 150
             scan_poll_absorbed_timed scan_loop_raise
             (scan_url self scan_id) pre e st Hpolls Hpre fuel Hfuel).
  - intros report_id st pre e Hpolls Hpre fuel Hfuel.
    exact (loop_aborts wait_for_report_completion_loop report_terminal 30
             report_poll_absorbed_timed report_loop_raise
             (report_history_url self report_id) pre e st Hpolls Hpre fuel Hfuel).
Qed.

(** X16.  A wait sleeps once after every poll it takes in and not after
    the terminal one.  When the first terminal answer comes at poll
    [length pre + 1], [wait_for_scan_completion] has slept [150] seconds
    [length pre] times when it returns, and [wait_for_report_completion]
    [30] seconds as many times. *)
Theorem wait_sleeps_between_polls :
  (forall scan_id (st : state World) pre r,
      polls (scan_url self scan_id) (S (List.length pre)) (world st)
      = map Ret pre ++ [Ret r] ->
      Forall (fun x => well_formed x = true /\ scan_terminal x = false) pre ->
      scan_terminal r = true ->
      forall fuel, (List.length pre < fuel)%nat ->
        exists st',
          wait_for_scan_completion fuel self scan_id st = (Ret (Some VNone), st') /\
          slept (events st') = slept (events st) + 150 * Z.of_nat (List.length pre)) /\
  (forall report_id (st : state World) pre r,
      polls (report_history_url self report_id) (S (List.length pre)) (world st)
      = map Ret pre ++ [Ret r] ->
      Forall (fun x => well_formed x = true /\ report_terminal x = false) pre ->
      report_terminal r = true ->
      forall fuel, (List.length pre < fuel)%nat ->
        exists st',
          wait_for_report_completion fuel self report_id st
          = (Ret (Some (or_none (body_field r "generated"))), st') /\
          slept (events st') = slept (events st) + 30 * Z.of_nat (List.length pre)).
Proof.
  split.
  - intros scan_id st pre r Hpolls Hpre Hterm fuel Hfuel.
    exact (loop_sleeps_between wait_for_scan_completion_loop scan_terminal
             (fun _ => VNone) 150 scan_poll_absorbed_timed scan_poll_returns_timed
             (scan_url self scan_id) pre r st Hpolls Hpre Hterm fuel Hfuel).
  - intros report_id st pre r Hpolls Hpre Hterm fuel Hfuel.
    exact (loop_sleeps_between wait_for_report_completion_loop report_terminal
             (fun r => or_none (body_field r "generated")) 30
             report_poll_absorbed_timed report_poll_returns_timed
             (report_history_url self report_id) pre r st Hpolls Hpre Hterm fuel Hfuel).
Qed.
End WaitEdges.

(** ** Downloads: what else can happen *)

Section DownloadEdges.
Context {World : Type} {P : Platform World}.
Variable self : NexposeSession.

(** X17.  When the directory cannot be settled, no request is made.  If
    [os.makedirs] raises, [download_report] raises the same with only the
    attempt in the trace; if [save_filename] is not a string, it raises
    TypeError after the directory has been made. *)
Theorem download_makes_no_request_without_directory :
  forall report_id instance directory_name address save_filename (st : state World),
    os_path_exists (directory_checked directory_name address) (world st) = Ret false ->
    (forall e w1,
        os_makedirs (directory_made directory_name address) (world st) = (Raise e, w1) ->
        download_report self report_id instance directory_name address save_filename st
        = (Raise e, after st w1 [EvMakedirs (directory_made directory_name address)])) /\
    (forall w1,
        os_makedirs (directory_made directory_name address) (world st) = (Ret tt, w1) ->
        (forall s, save_filename <> VStr s) ->
        download_report self report_id instance directory_name address save_filename st
        = (Raise TypeError,
           after st w1 [EvMakedirs (directory_made directory_name address)])).
Proof.
  intros report_id instance directory_name address save_filename st Habsent.
  split.
  - intros e w1 Hmake.
    apply download_report_resolve_raises.
    now rewrite resolve_save_path_eq, Habsent, Hmake.
  - intros w1 Hmake Hname.
    apply download_report_resolve_raises.
    rewrite resolve_save_path_eq, Habsent, Hmake.
    destruct save_filename; try reflexivity. now destruct (Hname s).
Qed.

(** X18.  The two directory arguments count only together.  With
    [directory_name] given and [address] omitted, or the other way round,
    [download_report] does exactly what it does with both omitted: the
    directory is [reports] and the argument that was given is not used. *)
Theorem download_ignores_a_single_directory_argument :
  forall report_id instance given save_filename (st : state World),
    download_report self report_id instance given VNone save_filename st
    = download_report self report_id instance VNone VNone save_filename st /\
    download_report self report_id instance VNone given save_filename st
    = download_report self report_id instance VNone VNone save_filename st.
Proof.
  intros report_id instance given save_filename st.
  unfold download_report, resolve_save_path.
  split; destruct given; reflexivity.
Qed.

(** X19.  The path tested is [directory_name], the directory made is
    [directory_name], an underscore and [address].  So when a path named
    [directory_name] exists, nothing is made, and on status 200 the file
    is written into a directory this call never made: the path is returned
    when the write succeeds, and when the write raises, the exception
    leaves [download_report] after the request and no line is printed. *)
Theorem download_with_existing_base_makes_nothing :
  forall report_id instance directory_name address save_filename
         (st : state World) save_path r w2,
    directory_name <> VNone ->
    address <> VNone ->
    os_path_exists directory_name (world st) = Ret true ->
    os_path_join (py_str directory_name ++ "_" ++ py_str address) save_filename
    = Ret save_path ->
    session_get (download_url self report_id instance) (world st) = (Ret r, w2) ->
    status_code r = 200 ->
    (forall w3,
        write_stream save_path r w2 = (Ret tt, w3) ->
        download_report self report_id instance directory_name address save_filename st
        = (Ret (VStr save_path),
           after st w3 [EvGet (download_url self report_id instance);
                        EvWrite save_path;
                        EvPrint ("Report downloaded and saved to " ++ save_path)])) /\
    (forall e w3,
        write_stream save_path r w2 = (Raise e, w3) ->
        download_report self report_id instance directory_name address save_filename st
        = (Raise e,
           after st w3 [EvGet (download_url self report_id instance);
                        EvWrite save_path])).
Proof.
  intros report_id instance directory_name address save_filename st save_path r w2
         Hd Ha Hthere Hjoin Hget Hcode.
  assert (resolve_save_path directory_name address save_filename st
          = (Ret save_path, st)) as Hres.
  { rewrite resolve_save_path_eq.
    assert (directory_checked directory_name address = directory_name) as ->
        by (unfold directory_checked; destruct directory_name, address; congruence).
    assert (directory_made directory_name address
            = (py_str directory_name ++ "_" ++ py_str address)%string) as ->
        by (unfold directory_made; destruct directory_name, address; congruence).
    now rewrite Hthere, Hjoin. }
  rewrite (download_report_after_resolve self _ _ _ _ _ _ _ _ _ _ Hres Hget).
  rewrite Hcode. cbn [Z.eqb Pos.eqb].
  split.
  - intros w3 Hwrite. now rewrite Hwrite.
  - intros e w3 Hwrite. now rewrite Hwrite.
Qed.

(** X20.  Whatever the platform does, the trace of one call of
    [download_report] is: at most one directory made, then nothing more,
    or the GET of the download URL followed by nothing, by the failure
    line, by the write of one file, or by that write and the line that
    reports it.  So there is no POST, at most one GET, at most one
    directory, at most one file, and a file is written only after the
    request has been made. *)
Theorem download_report_footprint :
  forall report_id instance directory_name address save_filename (st : state World),
  exists made rest,
    events (snd (download_report self report_id instance directory_name address
                   save_filename st))
    = events st ++ made ++ rest /\
    (made = [] \/ exists path, made = [EvMakedirs path]) /\
    (rest = [] \/
     rest = [EvGet (download_url self report_id instance)] \/
     (exists line,
         rest = [EvGet (download_url self report_id instance); EvPrint line]) \/
     (exists path,
         rest = [EvGet (download_url self report_id instance); EvWrite path]) \/
     (exists path line,
         rest = [EvGet (download_url self report_id instance); EvWrite path;
                 EvPrint line])) /\
    count_posts (made ++ rest) = O /\
    (count_gets (made ++ rest) <= 1)%nat /\
    (count_makedirs (made ++ rest) <= 1)%nat /\
    (count_writes (made ++ rest) <= count_gets (made ++ rest))%nat.
Proof.
  intros report_id instance directory_name address save_filename st.
  assert (exists made,
             events (snd (resolve_save_path directory_name address save_filename st))
             = events st ++ made /\
             (made = [] \/ exists p, made = [EvMakedirs p])) as [made [Hmade Hshape]].
  { rewrite resolve_save_path_eq.
    destruct (os_path_exists _ (world st)) as [[|]|e].
    - exists []. split; [now rewrite app_nil_r|now left].
    - destruct (os_makedirs _ (world st)) as [[u|e] w];
        (eexists; split; [reflexivity|right; now eexists]).
    - exists []. split; [now rewrite app_nil_r|now left]. }
  exists made.
  assert (forall rest,
             (rest = [] \/
              rest = [EvGet (download_url self report_id instance)] \/
              (exists line,
                  rest = [EvGet (download_url self report_id instance); EvPrint line]) \/
              (exists path,
                  rest = [EvGet (download_url self report_id instance); EvWrite path]) \/
              (exists path line,
                  rest = [EvGet (download_url self report_id instance); EvWrite path;
                          EvPrint line])) ->
             count_posts (made ++ rest) = O /\
             (count_gets (made ++ rest) <= 1)%nat /\
             (count_makedirs (made ++ rest) <= 1)%nat /\
             (count_writes (made ++ rest) <= count_gets (made ++ rest))%nat) as Hcounts.
  { intros rest Hrest.
    destruct Hshape as [-> | [p ->]];
      destruct Hrest as [-> | [-> | [[line ->] | [[path ->] | [path [line ->]]]]]];
      cbn; repeat split; lia. }
  destruct (resolve_save_path directory_name address save_filename st)
    as [[save_path|e] st1] eqn:Hres; cbn [snd] in Hmade.
  - destruct (session_get (download_url self report_id instance) (world st1))
      as [[r|e] w2] eqn:Hget.
    + rewrite (download_report_after_resolve self _ _ _ _ _ _ _ _ _ _ Hres Hget).
      destruct (Z.eqb (status_code r) 200);
        [destruct (write_stream save_path r w2) as [[u|e] w3]|].
      * eexists. split; [cbn [snd after events]; rewrite Hmade, <- app_assoc; reflexivity|].
        split; [exact Hshape|].
        split; [|apply Hcounts]; do 4 right; eexists; eexists; reflexivity.
      * eexists. split; [cbn [snd after events]; rewrite Hmade, <- app_assoc; reflexivity|].
        split; [exact Hshape|].
        split; [|apply Hcounts]; do 3 right; left; eexists; reflexivity.
      * eexists. split; [cbn [snd after events]; rewrite Hmade, <- app_assoc; reflexivity|].
        split; [exact Hshape|].
        split; [|apply Hcounts]; do 2 right; left; eexists; reflexivity.
    + rewrite (download_report_get_raises self _ _ _ _ _ _ _ _ _ _ Hres Hget).
      eexists. split; [cbn [snd after events]; rewrite Hmade, <- app_assoc; reflexivity|].
      split; [exact Hshape|].
      split; [|apply Hcounts]; right; left; reflexivity.
  - rewrite (download_report_resolve_raises self _ _ _ _ _ _ _ _ Hres).
    exists []. split; [cbn [snd]; rewrite Hmade, app_nil_r; reflexivity|].
    split; [exact Hshape|].
    split; [|apply Hcounts]; left; reflexivity.
Qed.
End DownloadEdges.

(** ** Passwords *)

Section PasswordFacts.
Variable R : Type.
Variable randbelow : nat -> R -> nat * R.

Lemma choices_length n r : List.length (fst (choices R randbelow n r)) = n.
Proof.
  revert r. induction n as [|n IH]; intros r; cbn [choices]; [reflexivity|].
  unfold choice. destruct (randbelow _ r) as [k r'].
  specialize (IH r'). destruct (choices R randbelow n r') as [cs r''].
  cbn in *. now rewrite IH.
Qed.

Lemma string_length_of_list cs :
  String.length (string_of_list_ascii cs) = List.length cs.
Proof. induction cs as [|c cs IH]; cbn; [reflexivity|now rewrite IH]. Qed.

(** X21.  A password has as many characters as asked for, and none when
    the length is zero or negative; in that case nothing is drawn and the
    generator is left as it was. *)
Theorem generate_password_length :
  forall length r,
    String.length (fst (generate_password R randbelow length r)) = Z.to_nat length /\
    (length <= 0 -> generate_password R randbelow length r = (EmptyString, r)).
Proof.
  intros length r. split.
  - unfold generate_password.
    pose proof (choices_length (Z.to_nat length) r) as H.
    destruct (choices R randbelow (Z.to_nat length) r) as [cs r'].
    cbn [fst] in *. now rewrite string_length_of_list.
  - intros Hneg. unfold generate_password.
    assert (Z.to_nat length = O) as -> by lia. reflexivity.
Qed.

Hypothesis randbelow_below :
  forall n r, (0 < n)%nat -> (fst (randbelow n r) < n)%nat.

Lemma choice_in_characters r : In (fst (choice R randbelow characters r)) characters.
Proof.
  unfold choice.
  pose proof (randbelow_below (List.length characters) r) as Hlt.
  destruct (randbelow (List.length characters) r) as [k r']. cbn [fst] in *.
  apply nth_In. apply Hlt. cbn. lia.
Qed.

Lemma choices_in_characters n r :
  Forall (fun c => In c characters) (fst (choices R randbelow n r)).
Proof.
  revert r. induction n as [|n IH]; intros r; cbn [choices]; [constructor|].
  pose proof (choice_in_characters r) as Hc.
  destruct (choice R randbelow characters r) as [c r'].
  specialize (IH r'). destruct (choices R randbelow n r') as [cs r''].
  cbn [fst] in *. now constructor.
Qed.

Lemma characters_printable :
  forallb (fun c => Nat.leb 33 (nat_of_ascii c) && Nat.leb (nat_of_ascii c) 126) characters
  = true.
Proof. reflexivity. Qed.

(** X22.  With a generator whose draws stay below the bound, every
    character of a password is one of the 94 letters, digits and
    punctuation marks: a printable ASCII character, never a space or a
    control character. *)
Theorem generate_password_alphabet :
  forall length r,
    Forall (fun c => In c characters /\ (33 <= nat_of_ascii c <= 126)%nat)
      (list_ascii_of_string (fst (generate_password R randbelow length r))).
Proof.
  intros length r. unfold generate_password.
  pose proof (choices_in_characters (Z.to_nat length) r) as H.
  destruct (choices R randbelow (Z.to_nat length) r) as [cs r'].
  cbn [fst] in *. rewrite list_ascii_of_string_of_list_ascii.
  eapply Forall_impl; [|exact H].
  intros c Hc. split; [exact Hc|].
  pose proof characters_printable as Hall.
  rewrite forallb_forall in Hall. specialize (Hall c Hc).
  apply andb_true_iff in Hall as [Hlo Hhi].
  apply Nat.leb_le in Hlo, Hhi. lia.
Qed.
End PasswordFacts.

(** ** The script *)

Section ScriptFacts.
Context {World : Type} {P : Platform World}.
Variable self : NexposeSession.

Lemma scan_loop_polls_without_posting url :
  forall fuel (st : state World),
    (forall x, In x (polls url fuel (world st)) ->
               exists r, x = Ret r /\ well_formed r = true /\ scan_terminal r = false) ->
    exists st',
      wait_for_scan_completion_loop fuel url st = (Ret None, st') /\
      count_gets (events st') = (count_gets (events st) + fuel)%nat /\
      count_posts (events st') = count_posts (events st).
Proof.
  induction fuel as [|k IH]; intros st Hall.
  - exists st. cbn. repeat split; lia.
  - cbn [polls] in Hall.
    destruct (session_get url (world st)) as [x w] eqn:Hget.
    destruct (Hall x (or_introl eq_refl)) as [r [-> [Hwf Hnt]]].
    assert (exists new,
               count_gets new = 1%nat /\ count_posts new = O /\
               wait_for_scan_completion_loop (S k) url st
               = wait_for_scan_completion_loop k url (after st w new))
      as [new [Hone [Hzero Hstep]]].
    { rewrite (scan_loop_step _ _ _ _ _ Hget).
      unfold well_formed in Hwf. unfold scan_terminal, body_field in Hnt.
      destruct (status_ok r) eqn:Hok; cbn [andb negb orb] in Hwf, Hnt.
      - destruct (json_body r) as [[| | | | |d]|] eqn:Hbody; cbn [andb] in Hwf, Hnt;
          try discriminate.
        + cbn zeta. rewrite Hnt. eexists; repeat split; reflexivity.
        + eexists; repeat split; reflexivity.
      - eexists; repeat split; reflexivity. }
    rewrite Hstep.
    destruct (IH (after st w new)) as [st' [Hrun [Hgets Hposts]]].
    { intros y Hy. apply Hall. right. exact Hy. }
    exists st'. split; [exact Hrun|].
    rewrite Hgets, Hposts. unfold after; cbn [events].
    rewrite count_gets_app, count_posts_app, Hone, Hzero. split; lia.
Qed.

(** X23.  The script does not check what a stage returns.  When the
    request that starts the scan is answered with a failure status,
    [start_scan] returns [None] and the script goes on to wait for the scan
    [None]: as long as the polls of that URL bring no terminal status (they
    are failure statuses, bodies that are not JSON, or objects with another
    status), the script is still in the scan wait after any number of
    polls, one request per poll, and has not come to the report. *)
Theorem main_waits_for_scan_none_when_start_fails :
  forall n TEMPLATE_ID REPORT_FORMAT REPORT_TEMPLATE SAVE_FILENAME SCAN_NAME TARGET_IP
         (st st1 st2 : state World) v site_id r w3,
    create_site self SCAN_NAME DESCRIPTION TARGET_IP TEMPLATE_ID st = (Ret v, st1) ->
    get_site_id self SCAN_NAME st1 = (Ret site_id, st2) ->
    session_post (start_scan_url self site_id) None (world st2) = (Ret r, w3) ->
    status_ok r = false ->
    (forall x, In x (polls (scan_url self VNone) n w3) ->
               exists r', x = Ret r' /\ well_formed r' = true /\ scan_terminal r' = false) ->
    forall fuel, (fuel <= n)%nat ->
      exists st',
        main fuel self TEMPLATE_ID REPORT_FORMAT REPORT_TEMPLATE SAVE_FILENAME
          SCAN_NAME TARGET_IP st = (Ret None, st') /\
        count_gets (events st') = (count_gets (events st2) + fuel)%nat /\
        count_posts (events st') = (count_posts (events st2) + 1)%nat.
Proof.
  intros n TEMPLATE_ID REPORT_FORMAT REPORT_TEMPLATE SAVE_FILENAME SCAN_NAME TARGET_IP
         st st1 st2 v site_id r w3 Hsite Hlookup Hpost Hko Hpolls fuel Hfuel.
  unfold main, bind at 1. rewrite Hsite.
  unfold bind at 1. rewrite Hlookup.
  unfold bind at 1. rewrite print_run.
  unfold bind at 1. rewrite start_scan_eq. cbn [world after]. rewrite Hpost, Hko.
  unfold bind at 1. rewrite print_run.
  unfold bind at 1, wait_for_scan_completion. fold (scan_url self VNone).
  rewrite !after_after. cbn [world after app].
  set (st5 := after st2 w3 _).
  destruct (scan_loop_polls_without_posting (scan_url self VNone) fuel st5)
    as [st' [Hrun [Hgets Hposts]]].
  { intros x Hx. apply Hpolls. eapply polls_prefix; eauto. }
  rewrite Hrun. exists st'. split; [reflexivity|].
  rewrite Hgets, Hposts. subst st5. unfold after; cbn [events].
  rewrite count_gets_app, count_posts_app. cbn. split; lia.
Qed.
End ScriptFacts.

(** ** The properties above on sample runs *)

Lemma lookup_first_match_wins_witness :
  fst (get_site_id Sample.nexpose (VStr "Office") Cases.two_offices) = Ret (VInt 7) /\
  fst (get_existing_report Sample.nexpose (VInt 7) Cases.two_reports) = Ret (VInt 5).
Proof.
  split.
  - erewrite (proj1 (lookup_first_match_wins Sample.nexpose) (VStr "Office")
                Cases.two_offices _ _ [Sample.lab] Sample.office
                [Cases.office_again; VInt 5] (VInt 7)); side.
  - erewrite (proj2 (lookup_first_match_wins Sample.nexpose) (VInt 7)
                Cases.two_reports _ _ [Sample.report (VInt 4) [VInt 3]]
                (Sample.report (VInt 5) [VInt 7])
                [Sample.report (VInt 6) [VInt 7]] (VInt 5)); side.
Defined.

Lemma lookup_raises_on_entry_before_match_witness :
  fst (get_site_id Sample.nexpose (VStr "Office") Cases.junk_before_office)
  = Raise AttributeError /\
  fst (get_existing_report Sample.nexpose (VInt 7) Cases.null_scope_before_match)
  = Raise AttributeError.
Proof.
  split.
  - erewrite (proj1 (lookup_raises_on_entry_before_match Sample.nexpose) (VStr "Office")
                Cases.junk_before_office _ _ [Sample.lab] (VStr "junk") [Sample.office]);
      side.
  - erewrite (proj2 (lookup_raises_on_entry_before_match Sample.nexpose) (VInt 7)
                Cases.null_scope_before_match _ _ [Sample.report (VInt 4) [VInt 3]]
                Cases.null_scope [Sample.report (VInt 5) [VInt 7]] AttributeError);
      side.
Defined.

Lemma create_site_reuses_unless_id_is_none_witness :
  count_posts
    (events (snd (create_site Sample.nexpose (VStr "Office") DESCRIPTION (VStr "10.0.0.5")
                    (VStr "full-audit") Cases.office_without_id_listed))) = 1%nat /\
  count_posts
    (events (snd (create_site Sample.nexpose (VStr "Office") DESCRIPTION (VStr "10.0.0.5")
                    (VStr "full-audit") Cases.office_zero_listed))) = 0%nat.
Proof.
  split.
  - epose proof (create_site_reuses_unless_id_is_none Sample.nexpose (VStr "Office")
                   DESCRIPTION (VStr "10.0.0.5") (VStr "full-audit")
                   Cases.office_without_id_listed _ _ [Sample.lab] Cases.office_without_id
                   [] VNone) as H.
    edestruct H as [Hnone _]; [side | side | side | side | side |].
    erewrite Hnone; reflexivity.
  - epose proof (create_site_reuses_unless_id_is_none Sample.nexpose (VStr "Office")
                   DESCRIPTION (VStr "10.0.0.5") (VStr "full-audit")
                   Cases.office_zero_listed _ _ [] Cases.office_zero [] (VInt 0)) as H.
    edestruct H as [_ Hsome]; [side | side | side | side | side |].
    rewrite Hsome; [reflexivity | discriminate].
Defined.

Lemma create_site_posts_after_failed_lookup_witness :
  count_posts
    (events (snd (create_site Sample.nexpose (VStr "Office") DESCRIPTION (VStr "10.0.0.5")
                    (VStr "full-audit") Cases.listing_down))) = 1%nat /\
  count_posts
    (events (snd (create_site Sample.nexpose (VStr "Office") DESCRIPTION (VStr "10.0.0.5")
                    (VStr "full-audit") Cases.listing_garbled))) = 1%nat.
Proof.
  split.
  - edestruct (create_site_posts_after_failed_lookup Sample.nexpose (VStr "Office")
                 DESCRIPTION (VStr "10.0.0.5") (VStr "full-audit") Cases.listing_down)
      as [Hdown _]; [side | side |].
    rewrite Hdown; reflexivity.
  - edestruct (create_site_posts_after_failed_lookup Sample.nexpose (VStr "Office")
                 DESCRIPTION (VStr "10.0.0.5") (VStr "full-audit") Cases.listing_garbled)
      as [_ Hbad]; [side | side |].
    rewrite Hbad; [reflexivity | split; reflexivity].
Defined.

Lemma last_scan_id_is_none_on_failure_witness :
  fst (get_last_scan_id Sample.nexpose Cases.listing_down) = Ret VNone /\
  fst (get_last_scan_id Sample.nexpose Cases.listing_garbled) = Ret VNone /\
  fst (get_last_scan_id Sample.nexpose Cases.last_page_down) = Ret VNone /\
  fst (get_last_scan_id Sample.nexpose Cases.empty_last_page) = Ret VNone.
Proof.
  split; [|split; [|split]].
  - edestruct (last_scan_id_is_none_on_failure Sample.nexpose Cases.listing_down)
      as [H _]; [side|].
    rewrite H; reflexivity.
  - edestruct (last_scan_id_is_none_on_failure Sample.nexpose Cases.listing_garbled)
      as [_ [H _]]; [side|].
    rewrite H; [reflexivity | split; reflexivity].
  - edestruct (last_scan_id_is_none_on_failure Sample.nexpose Cases.last_page_down)
      as [_ [_ H]]; [side|].
    edestruct H as [Hdown _]; [side | side | side |].
    rewrite Hdown; reflexivity.
  - edestruct (last_scan_id_is_none_on_failure Sample.nexpose Cases.empty_last_page)
      as [_ [_ H]]; [side|].
    edestruct H as [_ [_ Hempty]]; [side | side | side |].
    erewrite Hempty; reflexivity.
Defined.

Lemma last_scan_id_null_href_rereads_listing_witness :
  get_last_scan_id Sample.nexpose Cases.null_href
  = (Ret (VInt 12),
     after Cases.null_href
       {| Sample.script := []; Sample.dirs := []; Sample.files := [] |}
       [EvGet (scans_url Sample.nexpose); EvGet (scans_url Sample.nexpose)]).
Proof.
  eapply (last_scan_id_null_href_rereads_listing Sample.nexpose Cases.null_href
           _ _ _ _ [] (VDict [("href", VNone); ("rel", VStr "last")]) []
           _ _ _ [Sample.scan 10; Sample.scan 11] (Sample.scan 12) (VInt 12)); side.
Defined.

Lemma last_scan_id_raises_on_unreadable_link_witness :
  get_last_scan_id Sample.nexpose Cases.no_rel
  = (Raise KeyError,
     after Cases.no_rel
       {| Sample.script := [Sample.json 200 Sample.last_page];
          Sample.dirs := []; Sample.files := [] |}
       [EvGet (scans_url Sample.nexpose)]).
Proof.
  eapply (last_scan_id_raises_on_unreadable_link Sample.nexpose Cases.no_rel
           _ _ _ _ []
           (VDict [("href", VStr "https://localhost:3780/api/3/scans?page=1")]) []
           KeyError); try side.
  left. reflexivity.
Defined.

Lemma last_scan_id_catches_second_request_only_witness :
  fst (get_last_scan_id Sample.nexpose Cases.unreachable) = Raise RequestException /\
  fst (get_last_scan_id Sample.nexpose Cases.bad_href) = Ret VNone.
Proof.
  split.
  - erewrite (proj1 (last_scan_id_catches_second_request_only Sample.nexpose
                       Cases.unreachable)); side.
  - erewrite (proj2 (last_scan_id_catches_second_request_only Sample.nexpose
                       Cases.bad_href)); cycle 1; side.
Defined.

Lemma start_scan_returns_last_listed_witness :
  fst (start_scan Sample.nexpose (VInt 7) Cases.started) = Ret (VInt 12).
Proof.
  erewrite (start_scan_returns_last_listed Sample.nexpose (VInt 7) Cases.started
              _ _ _ _ _ _ _ _ _ _ _ [Sample.scan 10; Sample.scan 11] (Sample.scan 12));
    side.
Defined.

Lemma failed_creation_ends_the_call_witness :
  count_posts
    (events (snd (create_site Sample.nexpose (VStr "Office") DESCRIPTION (VStr "10.0.0.5")
                    (VStr "full-audit") Cases.creation_refused))) = 1%nat /\
  count_gets (events (snd (start_scan Sample.nexpose (VInt 7) Cases.request_refused))) = 0%nat /\
  fst (create_report Sample.nexpose (VInt 7) (VInt 12) (VStr "Office") (VStr "pdf")
         (VStr "audit-report") Cases.creation_refused) = Ret VNone /\
  count_posts
    (events (snd (start_report_generation Sample.nexpose (VInt 5) Cases.request_refused)))
  = 1%nat.
Proof.
  split; [|split; [|split]].
  - erewrite (proj1 (failed_creation_ends_the_call Sample.nexpose) (VStr "Office")
                DESCRIPTION (VStr "10.0.0.5") (VStr "full-audit") Cases.creation_refused);
      cycle 1; side.
  - erewrite (proj1 (proj2 (failed_creation_ends_the_call Sample.nexpose)) (VInt 7)
                Cases.request_refused); cycle 1; side.
  - erewrite (proj1 (proj2 (proj2 (failed_creation_ends_the_call Sample.nexpose)))
                (VInt 7) (VInt 12) (VStr "Office") (VStr "pdf") (VStr "audit-report")
                Cases.creation_refused); cycle 1; side.
  - erewrite (proj2 (proj2 (proj2 (failed_creation_ends_the_call Sample.nexpose)))
                (VInt 5) Cases.request_refused); cycle 1; side.
Defined.

Lemma create_report_reads_creation_answer_unguarded_witness :
  fst (create_report Sample.nexpose (VInt 7) (VInt 12) (VStr "Office") (VStr "pdf")
         (VStr "audit-report") Cases.creation_garbled) = Raise ValueError /\
  fst (create_report Sample.nexpose (VInt 7) (VInt 12) (VStr "Office") (VStr "pdf")
         (VStr "audit-report") Cases.creation_listed) = Raise AttributeError /\
  fst (create_report Sample.nexpose (VInt 7) (VInt 12) (VStr "Office") (VStr "pdf")
         (VStr "audit-report") Cases.creation_without_id) = Ret VNone.
Proof.
  split; [|split].
  - edestruct (create_report_reads_creation_answer_unguarded Sample.nexpose
                 (VInt 7) (VInt 12) (VStr "Office") (VStr "pdf") (VStr "audit-report")
                 Cases.creation_garbled) as [H _]; [side | side | side | side |].
    rewrite H; reflexivity.
  - edestruct (create_report_reads_creation_answer_unguarded Sample.nexpose
                 (VInt 7) (VInt 12) (VStr "Office") (VStr "pdf") (VStr "audit-report")
                 Cases.creation_listed) as [_ [H _]]; [side | side | side | side |].
    erewrite H; [reflexivity | reflexivity | discriminate].
  - edestruct (create_report_reads_creation_answer_unguarded Sample.nexpose
                 (VInt 7) (VInt 12) (VStr "Office") (VStr "pdf") (VStr "audit-report")
                 Cases.creation_without_id) as [_ [_ H]]; [side | side | side | side |].
    erewrite H; reflexivity.
Defined.

Lemma report_wait_polls_on_witness :
  fst (wait_for_report_completion 3 Sample.nexpose (VInt 5) Cases.report_endless)
  <> Ret (Some VNone) /\
  exists st',
    wait_for_report_completion 3 Sample.nexpose (VInt 5) Cases.report_endless
    = (Ret None, st') /\
    count_gets (events st') = (count_gets (events Cases.report_endless) + 3)%nat.
Proof.
  assert (forall r,
             In (Ret r) (polls (report_history_url Sample.nexpose (VInt 5)) 3
                           (world Cases.report_endless)) ->
             report_terminal r = false) as Hnone.
  { intros r H; cbn in H.
    repeat (destruct H as [H|H]; [injection H as <-; reflexivity|]).
    contradiction. }
  destruct (report_wait_polls_on Sample.nexpose (VInt 5) Cases.report_endless 3 Hnone)
    as [Hnever Hon].
  split.
  - apply Hnever. lia.
  - apply Hon; try lia.
    intros x H; cbn in H.
    repeat (destruct H as [<-|H]; [eexists; split; reflexivity|]).
    contradiction.
Defined.

Lemma wait_aborts_on_transport_exception_witness :
  (exists st',
      wait_for_scan_completion 5 Sample.nexpose (VInt 12) Cases.scan_cut
      = (Raise RequestException, st') /\
      count_gets (events st') = (count_gets (events Cases.scan_cut) + 3)%nat) /\
  (exists st',
      wait_for_report_completion 5 Sample.nexpose (VInt 5) Cases.report_cut
      = (Raise RequestException, st') /\
      count_gets (events st') = (count_gets (events Cases.report_cut) + 2)%nat).
Proof.
  split.
  - apply (proj1 (wait_aborts_on_transport_exception Sample.nexpose) (VInt 12)
             Cases.scan_cut [Sample.running; Sample.unavailable] RequestException).
    + reflexivity.
    + repeat constructor.
    + cbn; lia.
  - apply (proj2 (wait_aborts_on_transport_exception Sample.nexpose) (VInt 5)
             Cases.report_cut [Sample.pending] RequestException).
    + reflexivity.
    + repeat constructor.
    + cbn; lia.
Defined.

Lemma wait_sleeps_between_polls_witness :
  (exists st',
      wait_for_scan_completion 3 Sample.nexpose (VInt 12) Sample.scan_run
      = (Ret (Some VNone), st') /\
      slept (events st') = slept (events Sample.scan_run) + 150 * 2) /\
  (exists st',
      wait_for_report_completion 3 Sample.nexpose (VInt 4) Sample.report_run
      = (Ret (Some (VStr "2024-01-01T10:00:00Z")), st') /\
      slept (events st') = slept (events Sample.report_run) + 30 * 2).
Proof.
  split.
  - apply (proj1 (wait_sleeps_between_polls Sample.nexpose) (VInt 12) Sample.scan_run
             [Sample.running; Sample.running] Sample.finished).
    + reflexivity.
    + repeat constructor.
    + reflexivity.
    + cbn; lia.
  - apply (proj2 (wait_sleeps_between_polls Sample.nexpose) (VInt 4) Sample.report_run
             [Sample.pending; Sample.unavailable] Sample.complete).
    + reflexivity.
    + repeat constructor.
    + reflexivity.
    + cbn; lia.
Defined.

Lemma download_makes_no_request_without_directory_witness :
  download_report Sample.nexpose (VInt 4) default_instance
    (VStr "2024-01-01") (VStr "10.0.0.5") (VStr "r.pdf")
    (Sample.download 200 ["2024-01-01_10.0.0.5"%string])
  = (Raise OSError,
     after (Sample.download 200 ["2024-01-01_10.0.0.5"%string])
       (world (Sample.download 200 ["2024-01-01_10.0.0.5"%string]))
       [EvMakedirs "2024-01-01_10.0.0.5"]) /\
  download_report Sample.nexpose (VInt 4) default_instance
    (VStr "2024-01-01") (VStr "10.0.0.5") (VInt 5) (Sample.download 200 [])
  = (Raise TypeError,
     after (Sample.download 200 [])
       {| Sample.script := [Ret (Sample.pdf 200)];
          Sample.dirs := ["2024-01-01_10.0.0.5"%string];
          Sample.files := [] |}
       [EvMakedirs "2024-01-01_10.0.0.5"]).
Proof.
  split.
  - edestruct (download_makes_no_request_without_directory Sample.nexpose (VInt 4)
                 default_instance (VStr "2024-01-01") (VStr "10.0.0.5") (VStr "r.pdf")
                 (Sample.download 200 ["2024-01-01_10.0.0.5"%string])) as [Hraise _];
      [side|].
    apply Hraise. reflexivity.
  - edestruct (download_makes_no_request_without_directory Sample.nexpose (VInt 4)
                 default_instance (VStr "2024-01-01") (VStr "10.0.0.5") (VInt 5)
                 (Sample.download 200 [])) as [_ Hname]; [side|].
    apply Hname; [reflexivity | discriminate].
Defined.

Lemma download_with_existing_base_makes_nothing_witness :
  fst (download_report Sample.nexpose (VInt 4) default_instance
         (VStr "2024-01-01") (VStr "10.0.0.5") (VStr "r.pdf")
         (Sample.download 200 ["2024-01-01"%string]))
  = Ret (VStr "2024-01-01_10.0.0.5/r.pdf") /\
  count_makedirs
    (events (snd (download_report Sample.nexpose (VInt 4) default_instance
                    (VStr "2024-01-01") (VStr "10.0.0.5") (VStr "r.pdf")
                    (Sample.download 200 ["2024-01-01"%string])))) = 0%nat /\
  fst (@download_report _ Cases.strict Sample.nexpose (VInt 4) default_instance
         (VStr "2024-01-01") (VStr "10.0.0.5") (VStr "r.pdf")
         (Sample.download 200 ["2024-01-01"%string]))
  = Raise OSError.
Proof.
  split; [|split].
  - edestruct (download_with_existing_base_makes_nothing Sample.nexpose (VInt 4)
                 default_instance (VStr "2024-01-01") (VStr "10.0.0.5") (VStr "r.pdf")
                 (Sample.download 200 ["2024-01-01"%string])) as [Hok _];
      [side | side | side | side | side | side |].
    erewrite Hok; reflexivity.
  - edestruct (download_with_existing_base_makes_nothing Sample.nexpose (VInt 4)
                 default_instance (VStr "2024-01-01") (VStr "10.0.0.5") (VStr "r.pdf")
                 (Sample.download 200 ["2024-01-01"%string])) as [Hok _];
      [side | side | side | side | side | side |].
    erewrite Hok; reflexivity.
  - edestruct (@download_with_existing_base_makes_nothing _ Cases.strict Sample.nexpose
                 (VInt 4) default_instance (VStr "2024-01-01") (VStr "10.0.0.5")
                 (VStr "r.pdf") (Sample.download 200 ["2024-01-01"%string])) as [_ Hko];
      [side | side | side | side | side | side |].
    erewrite Hko; reflexivity.
Defined.

Lemma generate_password_length_witness :
  String.length (fst (generate_password nat Cases.lcg 12 5%nat)) = 12%nat /\
  generate_password nat Cases.lcg (-3) 5%nat = (EmptyString, 5%nat).
Proof.
  split.
  - exact (proj1 (generate_password_length nat Cases.lcg 12 5%nat)).
  - apply (proj2 (generate_password_length nat Cases.lcg (-3) 5%nat)). lia.
Defined.

Lemma generate_password_alphabet_witness :
  Forall (fun c => In c characters /\ (33 <= nat_of_ascii c <= 126)%nat)
    (list_ascii_of_string (fst (generate_password nat Cases.lcg 12 5%nat))).
Proof.
  apply (generate_password_alphabet nat Cases.lcg).
  intros n r Hn. unfold Cases.lcg. cbn [fst].
  apply Nat.mod_upper_bound. lia.
Defined.

Lemma main_waits_for_scan_none_when_start_fails_witness :
  exists st',
    main 3 Sample.nexpose (VStr "full-audit") (VStr "pdf") (VStr "audit-report")
      (VStr "r.pdf") (VStr "Office") (VStr "10.0.0.5") Cases.scan_refused
    = (Ret None, st') /\
    count_gets (events st') = 5%nat /\
    count_posts (events st') = 1%nat.
Proof.
  edestruct (main_waits_for_scan_none_when_start_fails Sample.nexpose 3
               (VStr "full-audit") (VStr "pdf") (VStr "audit-report")
               (VStr "r.pdf") (VStr "Office") (VStr "10.0.0.5") Cases.scan_refused)
    as [st' [Hrun [Hgets Hposts]]].
  - reflexivity.
  - reflexivity.
  - reflexivity.
  - reflexivity.
  - intros x H; cbn in H.
    repeat (destruct H as [<-|H]; [eexists; repeat split; reflexivity|]).
    contradiction.
  - apply Nat.le_refl.
  - exists st'. split; [exact Hrun|]. split; [exact Hgets | exact Hposts].
Defined.
